(** * The request dispatcher of the Mangopay Node.js SDK (lib/api.js)

    A shallow embedding of [lib/api.js]: the JavaScript values the
    dispatcher handles, the object store with its aliasing, the
    underscore helpers the file calls, and the dispatcher's own functions
    ([method], [_requestApi], [buildRequestData], [canReadSubRequestData],
    [authorize], [isExpired], [setRateLimits]), followed by the properties
    of the dispatcher that the specification states. *)

From Stdlib Require Import ZArith List String Ascii Lia Bool DecimalString.
From stdpp Require Import base list strings.

Local Open Scope string_scope.
Local Open Scope list_scope.
Local Open Scope Z_scope.

(** ** JavaScript values *)

(** Numbers: the integer-valued doubles and NaN.  Timestamps in
    milliseconds, HTTP status codes and rate-limit counters live in this
    fragment, where double arithmetic is exact. *)
Inductive jsnum :=
| NaN
| Num (z : Z).

(** Locations of the object store. *)
Abbreviation loc := nat (only parsing).

(** A value is a primitive, a reference into the object store, a function
    (named: the model never looks inside one) or an [Error] instance. *)
Inductive value :=
| VUndef
| VNull
| VBool (b : bool)
| VNum (n : jsnum)
| VStr (s : string)
| VObj (l : loc)
| VFun (name : string)
| VErr (message : string).

(** An object: the constructors on its prototype chain (what [instanceof]
    inspects), whether it is an array, and its own enumerable properties
    in insertion order. *)
Record object := mkObject {
  chain : list string;
  is_array : bool;
  props : list (string * value)
}.

Definition heap := list object.

Definition plain (ps : list (string * value)) : object := mkObject [] false ps.

(** Decoded response bodies, before the HTTP client allocates them. *)
#[warnings="-register-all"]
Inductive json :=
| JNull
| JBool (b : bool)
| JNum (n : jsnum)
| JStr (s : string)
| JArr (items : list json)
| JObj (fields : list (string * json)).

#[global] Instance jsnum_eq_dec : EqDecision jsnum.
Proof. solve_decision. Defined.

#[global] Instance value_eq_dec : EqDecision value.
Proof. solve_decision. Defined.

(** Induction on bodies, through their lists. *)
Fixpoint json_ind' (P : json -> Prop)
    (HNull : P JNull) (HBool : forall b, P (JBool b)) (HNum : forall n, P (JNum n))
    (HStr : forall s, P (JStr s))
    (HArr : forall items, Forall P items -> P (JArr items))
    (HObj : forall fields, Forall (fun kv => P (snd kv)) fields -> P (JObj fields))
    (j : json) : P j :=
  let rec := json_ind' P HNull HBool HNum HStr HArr HObj in
  match j with
  | JNull => HNull
  | JBool b => HBool b
  | JNum n => HNum n
  | JStr s => HStr s
  | JArr items =>
      HArr items
        ((fix go (l : list json) : Forall P l :=
            match l with
            | [] => List.Forall_nil P
            | x :: l' => List.Forall_cons P x l' (rec x) (go l')
            end) items)
  | JObj fields =>
      HObj fields
        ((fix go (l : list (string * json)) : Forall (fun kv => P (snd kv)) l :=
            match l with
            | [] => List.Forall_nil _
            | x :: l' => List.Forall_cons _ x l' (rec (snd x)) (go l')
            end) fields)
  end.

(** ** Primitive operations of the language *)

Module Js.

Definition truthy (v : value) : bool :=
  match v with
  | VUndef | VNull => false
  | VBool b => b
  | VNum NaN => false
  | VNum (Num z) => negb (z =? 0)
  | VStr s => negb (s =? "")%string
  | VObj _ | VFun _ | VErr _ => true
  end.

(** [a + b], [a - b], [a * b] and [a > b] on numbers: NaN is absorbing and
    compares false with everything. *)
Definition add (a b : jsnum) : jsnum :=
  match a, b with Num x, Num y => Num (x + y) | _, _ => NaN end.

Definition sub (a b : jsnum) : jsnum :=
  match a, b with Num x, Num y => Num (x - y) | _, _ => NaN end.

Definition mul (a b : jsnum) : jsnum :=
  match a, b with Num x, Num y => Num (x * y) | _, _ => NaN end.

Definition gt (a b : jsnum) : bool :=
  match a, b with Num x, Num y => y <? x | _, _ => false end.

Definition lt (a b : jsnum) : bool :=
  match a, b with Num x, Num y => x <? y | _, _ => false end.

(** Property tables: [obj[k]] and [obj[k] = v] on the own properties. *)
Fixpoint lookup (k : string) (ps : list (string * value)) : option value :=
  match ps with
  | [] => None
  | (k', v) :: ps' => if (k' =? k)%string then Some v else lookup k ps'
  end.

Fixpoint assign (k : string) (v : value) (ps : list (string * value))
  : list (string * value) :=
  match ps with
  | [] => [(k, v)]
  | (k', v') :: ps' =>
      if (k' =? k)%string then (k, v) :: ps' else (k', v') :: assign k v ps'
  end.

Definition keys (ps : list (string * value)) : list string := map fst ps.

(** [String.prototype.split] with a non-empty separator: [skip] counts the
    characters of a separator just matched that are still to be dropped. *)
Fixpoint split_from (sep : string) (skip : nat) (cur s : string) : list string :=
  match s with
  | EmptyString => [cur]
  | String c s' =>
      match skip with
      | S k => split_from sep k cur s'
      | O =>
          if String.prefix sep s
          then cur :: split_from sep (Nat.pred (String.length sep)) "" s'
          else split_from sep 0 (cur +:+ String c "") s'
      end
  end.

Definition split (sep s : string) : list string := split_from sep 0 "" s.

(** Decimal rendering of a natural number (array indices) and of an
    integer ([String(n)]). *)
Definition string_of_nat (n : nat) : string :=
  NilEmpty.string_of_uint (Nat.to_uint n).

Definition string_of_Z (z : Z) : string :=
  match z with
  | Z0 => "0"
  | Zpos p => string_of_nat (Pos.to_nat p)
  | Zneg p => "-" +:+ string_of_nat (Pos.to_nat p)
  end.

Definition string_of_num (n : jsnum) : string :=
  match n with NaN => "NaN" | Num z => string_of_Z z end.

Definition is_digit (c : ascii) : bool :=
  let n := nat_of_ascii c in (48 <=? n)%nat && (n <=? 57)%nat.

Fixpoint all_digits (s : string) : bool :=
  match s with
  | EmptyString => true
  | String c s' => is_digit c && all_digits s'
  end.

Definition is_index (k : string) : bool :=
  negb (k =? "")%string && all_digits k.

End Js.

(** ** The conversion [Number(string)] on decimal integer literals

    [Number] itself is a parameter of the development (see the section
    below); this is the instance used to run the model: surrounding white
    space is dropped, the empty string is 0, an optionally signed run of
    decimal digits is that integer, and anything else is NaN. *)

Module NumberLiteral.

Definition is_space (c : ascii) : bool :=
  let n := nat_of_ascii c in
  (n =? 32)%nat || (n =? 9)%nat || (n =? 10)%nat || (n =? 13)%nat
  || (n =? 11)%nat || (n =? 12)%nat.

Fixpoint ltrim (s : string) : string :=
  match s with
  | String c s' => if is_space c then ltrim s' else s
  | EmptyString => EmptyString
  end.

Fixpoint rev_string (acc s : string) : string :=
  match s with
  | EmptyString => acc
  | String c s' => rev_string (String c acc) s'
  end.

Definition trim (s : string) : string :=
  rev_string "" (ltrim (rev_string "" (ltrim s))).

Fixpoint digits (acc : Z) (s : string) : Z :=
  match s with
  | EmptyString => acc
  | String c s' => digits (10 * acc + Z.of_nat (nat_of_ascii c - 48)) s'
  end.

Definition unsigned (s : string) : jsnum :=
  if Js.is_index s then Num (digits 0 s) else NaN.

Definition negate (n : jsnum) : jsnum :=
  match n with NaN => NaN | Num z => Num (- z) end.

Definition Number (s : string) : jsnum :=
  match trim s with
  | EmptyString => Num 0
  | String "-" r => negate (unsigned r)
  | String "+" r => unsigned r
  | r => unsigned r
  end.

End NumberLiteral.

(** ** The object store and the underscore helpers *)

Module Store.

Definition alloc (o : object) (h : heap) : loc * heap := (length h, h ++ [o]).

(** The enumerable properties a [for .. in] over [v] visits; primitives
    have none. *)
Definition entries (h : heap) (v : value) : list (string * value) :=
  match v with
  | VObj l => match h !! l with Some o => props o | None => [] end
  | _ => []
  end.

(** [v[k]]: a TypeError ([None]) on [undefined] and [null], [undefined]
    for a property that is not there. *)
Definition get (h : heap) (v : value) (k : string) : option value :=
  match v with
  | VUndef | VNull => None
  | VObj l =>
      match h !! l with
      | Some o => Some (default VUndef (Js.lookup k (props o)))
      | None => None
      end
  | _ => Some VUndef
  end.

Definition with_props (o : object) (ps : list (string * value)) : object :=
  mkObject (chain o) (is_array o) ps.

(** [v[k] = x] in sloppy mode: silently ignored on a primitive. *)
Definition set (h : heap) (v : value) (k : string) (x : value) : heap :=
  match v with
  | VObj l =>
      match h !! l with
      | Some o => <[l := with_props o (Js.assign k x (props o))]> h
      | None => h
      end
  | _ => h
  end.

Definition assign_all (src dst : list (string * value)) : list (string * value) :=
  fold_left (fun ps kv => Js.assign (fst kv) (snd kv) ps) src dst.

(** One source of [_.extend(target, source)]: every enumerable property
    of the source is assigned on the target, which is mutated in place. *)
Definition extend_props (h : heap) (target : value) (src : list (string * value)) : heap :=
  match target with
  | VObj l =>
      match h !! l with
      | Some o => <[l := with_props o (assign_all src (props o))]> h
      | None => h
      end
  | _ => h
  end.

Definition extend (h : heap) (target source : value) : heap :=
  extend_props h target (entries h source).

(** [_.extend({}, a, b)] *)
Definition extend_fresh (h : heap) (a b : value) : loc * heap :=
  let (l, h0) := alloc (plain []) h in
  let h1 := extend h0 (VObj l) a in
  (l, extend h1 (VObj l) b).

Definition instance_of (h : heap) (v : value) (C : string) : bool :=
  match v with
  | VObj l =>
      match h !! l with
      | Some o => existsb (String.eqb C) (chain o)
      | None => false
      end
  | _ => false
  end.

(** [_.isArray] and the elements of an array, in index order. *)
Definition isArray (h : heap) (v : value) : bool :=
  match v with
  | VObj l => match h !! l with Some o => is_array o | None => false end
  | _ => false
  end.

Definition elements (h : heap) (v : value) : list value :=
  map snd (filter (fun kv => Js.is_index (fst kv) = true) (entries h v)).

Fixpoint indexed (i : nat) (vs : list value) : list (string * value) :=
  match vs with
  | [] => []
  | v :: vs' => (Js.string_of_nat i, v) :: indexed (S i) vs'
  end.

Definition array (vs : list value) : object :=
  mkObject ["Array"] true (indexed 0 vs).

(** Allocating a list left to right, threading the store. *)
Fixpoint alloc_list {A B : Type} (f : A -> heap -> B * heap) (xs : list A) (h : heap)
  : list B * heap :=
  match xs with
  | [] => ([], h)
  | x :: xs' =>
      let (v, h1) := f x h in
      let (vs, h2) := alloc_list f xs' h1 in
      (v :: vs, h2)
  end.

(** What the HTTP client does with a decoded body: fresh objects and
    arrays, children first. *)
Fixpoint alloc_json (j : json) (h : heap) : value * heap :=
  match j with
  | JNull => (VNull, h)
  | JBool b => (VBool b, h)
  | JNum n => (VNum n, h)
  | JStr s => (VStr s, h)
  | JArr items =>
      let (vs, h') := alloc_list alloc_json items h in
      let (l, h'') := alloc (array vs) h' in
      (VObj l, h'')
  | JObj fields =>
      let (ps, h') :=
        alloc_list (fun kv h => let (v, h1) := alloc_json (snd kv) h in
                                ((fst kv, v), h1)) fields h in
      let (l, h'') := alloc (plain (assign_all ps [])) h' in
      (VObj l, h'')
  end.

End Store.

(** ** [Buffer.from(s).toString('base64')] *)

Module Base64.

Definition alphabet : string :=
  "ABCDEFGHIJKLMNOPQRSTUVWXYZabcdefghijklmnopqrstuvwxyz0123456789+/".

Definition digit (n : nat) : string :=
  match String.get n alphabet with
  | Some c => String c ""
  | None => ""
  end.

Fixpoint encode (s : string) : string :=
  match s with
  | EmptyString => ""
  | String a EmptyString =>
      let x := nat_of_ascii a in
      digit (x / 4) +:+ digit ((x mod 4) * 16) +:+ "=="
  | String a (String b EmptyString) =>
      let x := nat_of_ascii a in
      let y := nat_of_ascii b in
      digit (x / 4) +:+ digit ((x mod 4) * 16 + y / 16)
      +:+ digit ((y mod 16) * 4) +:+ "="
  | String a (String b (String c r)) =>
      let x := nat_of_ascii a in
      let y := nat_of_ascii b in
      let z := nat_of_ascii c in
      digit (x / 4) +:+ digit ((x mod 4) * 16 + y / 16)
      +:+ digit ((y mod 16) * 4 + z / 64) +:+ digit (z mod 64)
      +:+ encode r
  end%nat.

End Base64.

Definition _getBasicAuthHash (username apiKey : string) : string :=
  "Basic " +:+ Base64.encode (username +:+ ":" +:+ apiKey).

(** ** The dispatcher's state and its environment *)

(** One window of the rate-limit snapshot. *)
Record RateLimit := mkRateLimit {
  minutesInterval : value;
  callsMade : value;
  callsRemaining : value;
  resetTimeMillis : value
}.

Inductive field := CallsMade | CallsRemaining | ResetTimeMillis.

Definition read_field (f : field) (r : RateLimit) : value :=
  match f with
  | CallsMade => callsMade r
  | CallsRemaining => callsRemaining r
  | ResetTimeMillis => resetTimeMillis r
  end.

Definition write_field (f : field) (v : value) (r : RateLimit) : RateLimit :=
  match f with
  | CallsMade => mkRateLimit (minutesInterval r) v (callsRemaining r) (resetTimeMillis r)
  | CallsRemaining => mkRateLimit (minutesInterval r) (callsMade r) v (resetTimeMillis r)
  | ResetTimeMillis => mkRateLimit (minutesInterval r) (callsMade r) (callsRemaining r) v
  end.

(** What the network delivers for one request, with the clock reading at
    the moment it arrives: an ['error'] event or a decoded response. *)
Inductive arrival :=
| NetError (at_ms : Z) (message : string)
| Response (at_ms : Z) (statusCode : Z) (headers : list (string * string)) (body : json).

(** What the dispatcher does that its caller or the remote side can see. *)
Inductive event :=
| ELog (method : string) (options : value)
| EAuthRequest (headers : list (string * value))
| ERequest (method : string) (requestOptions : value) (headers : list (string * value))
| ECallback (f : string) (args : list value)
| EErrorHandler (message data : value)
| EConsoleLog (text : string).

(** The callbacks [method] passes on: the caller's own argument, or one of
    the two wrappers the file builds around it. *)
Inductive callback :=
| CbUser (v : value)
| CbAfterAuthorize (inner : callback)
| CbAfterRetry (resolveWithFullResponse : bool) (inner : callback).

Record world := mkWorld {
  store : heap;
  self_requestOptions : loc;
  authorizationExpireTime : value;
  rateLimits : option (list RateLimit);
  now : Z;
  network : list arrival;
  trace : list event
}.

Definition set_store (h : heap) (w : world) : world :=
  mkWorld h (self_requestOptions w) (authorizationExpireTime w) (rateLimits w)
          (now w) (network w) (trace w).

Definition set_expire (v : value) (w : world) : world :=
  mkWorld (store w) (self_requestOptions w) v (rateLimits w)
          (now w) (network w) (trace w).

Definition set_rateLimits (r : option (list RateLimit)) (w : world) : world :=
  mkWorld (store w) (self_requestOptions w) (authorizationExpireTime w) r
          (now w) (network w) (trace w).

Definition emit (e : event) (w : world) : world :=
  mkWorld (store w) (self_requestOptions w) (authorizationExpireTime w) (rateLimits w)
          (now w) (network w) (trace w ++ [e]).

(** The next answer of the network, if one ever comes; the clock moves to
    its arrival time. *)
Definition receive (w : world) : option (arrival * world) :=
  match network w with
  | [] => None
  | a :: rest =>
      let t := match a with NetError t _ => t | Response t _ _ _ => t end in
      Some (a, mkWorld (store w) (self_requestOptions w) (authorizationExpireTime w)
                       (rateLimits w) t rest (trace w))
  end.

(** How a call ends. *)
Inductive outcome :=
| Resolved (v : value)
| Rejected (v : value)
| Thrown (v : value)
| Uncaught (v : value)
| Pending
| OutOfFuel.

(** A promise's [reject] and [resolve] keep their first argument. *)
Definition reject (args : list value) : outcome := Rejected (hd VUndef args).
Definition resolve (args : list value) : outcome := Resolved (hd VUndef args).

(** A synchronous exception inside a [then] handler rejects the chained
    promise, which the trailing [catch(reject)] forwards. *)
Definition in_then (r : outcome * world) : outcome * world :=
  match fst r with
  | Thrown e => (Rejected e, snd r)
  | _ => r
  end.

(** The headers a request is sent with: the own properties of
    [requestOptions.headers]. *)
Definition requestHeaders (h : heap) (requestOptions : value) : list (string * value) :=
  Store.entries h (default VUndef (Store.get h requestOptions "headers")).

(** ** The dispatcher *)

Section Dispatcher.

(** The language's own conversions, left abstract: [Number] on strings,
    and the string an object converts to. *)
Variable Number : string -> jsnum.
Variable ObjectToString : heap -> loc -> string.

(** The configuration the constructor receives. *)
Variable clientId : string.
Variable clientApiKey : string.
Variable debugMode : bool.

Variable connectionTimeout : value.
Variable responseTimeout : value.
Variable apiVersion : string.
Variable sdkVersion : string.

(** The names registered from the endpoint catalog ([./apiMethods]). *)
Variable apiMethods : list string.

(** The model layer ([./models]): an entity's read-only property names,
    the own properties of the object a model's [toJSON] returns ([None]
    for an object that has no such method), and the instance a model
    constructor builds from a payload. *)
Variable getReadOnlyProperties : object -> list string.
Variable toJSON : object -> option (list (string * value)).
Variable construct : string -> heap -> value -> object.

Definition to_string (h : heap) (v : value) : string :=
  match v with
  | VUndef => "undefined"
  | VNull => "null"
  | VBool true => "true"
  | VBool false => "false"
  | VNum n => Js.string_of_num n
  | VStr s => s
  | VObj l => ObjectToString h l
  | VFun name => "function " +:+ name +:+ "() { [native code] }"
  | VErr m => "Error: " +:+ m
  end.

Definition to_number (h : heap) (v : value) : jsnum :=
  match v with
  | VUndef => NaN
  | VNull => Num 0
  | VBool true => Num 1
  | VBool false => Num 0
  | VNum n => n
  | VStr s => Number s
  | VObj l => Number (ObjectToString h l)
  | VFun _ | VErr _ => NaN
  end.

(** *** The constructor

    [requestOptions] starts as the prototype's [{headers: {}}] and is
    extended in place with the four default tables; the call is made at
    time [t] against the scripted [network]. *)
Definition Api (t : Z) (net : list arrival) : world :=
  let h0 := [plain []; plain [("headers", VObj 0%nat)]] in
  let self_options := VObj 1%nat in
  let (rc, h1) := Store.alloc (plain [("timeout", connectionTimeout)]) h0 in
  let (sc, h2) := Store.alloc (plain [("timeout", responseTimeout)]) h1 in
  let (pl, h3) := Store.alloc (plain [("clientId", VStr clientId);
                                      ("apiVersion", VStr apiVersion)]) h2 in
  let (hl, h4) :=
    Store.alloc (plain [("Content-Type", VStr "application/json");
                        ("User-Agent", VStr ("MangoPay V2 SDK Nodejs " +:+ sdkVersion))]) h3 in
  let h5 := Store.extend_props h4 self_options
              [("requestConfig", VObj rc); ("responseConfig", VObj sc);
               ("path", VObj pl); ("headers", VObj hl)] in
  mkWorld h5 1%nat VUndef (Some []) t net [].

(** *** [setRateLimits] *)

Definition initialRateLimits : list RateLimit :=
  [ mkRateLimit (VNum (Num 15)) (VNum (Num 0)) (VNum (Num 0)) (VNum (Num 0));
    mkRateLimit (VNum (Num 30)) (VNum (Num 0)) (VNum (Num 0)) (VNum (Num 0));
    mkRateLimit (VNum (Num 60)) (VNum (Num 0)) (VNum (Num 0)) (VNum (Num 0));
    mkRateLimit (VNum (Num (24 * 60))) (VNum (Num 0)) (VNum (Num 0)) (VNum (Num 0)) ].

(** [nums[i]]: [undefined] past the end of the array. *)
Definition element (nums : list jsnum) (i : nat) : value :=
  match nums !! i with
  | Some n => VNum n
  | None => VUndef
  end.

(** [self.rateLimits[i].f = nums[i]]; a TypeError ([None]) when the
    snapshot has no entry [i]. *)
Definition assign_window (f : field) (nums : list jsnum) (i : nat)
    (rl : list RateLimit) : option (list RateLimit) :=
  match rl !! i with
  | Some r => Some (<[i := write_field f (element nums i) r]> rl)
  | None => None
  end.

(** The assignments of one header, in order; the flag is [false] when one
    of them raised, and what was assigned before it stays assigned. *)
Fixpoint assign_windows (f : field) (nums : list jsnum) (windows : list nat)
    (rl : list RateLimit) : list RateLimit * bool :=
  match windows with
  | [] => (rl, true)
  | i :: rest =>
      match assign_window f nums i rl with
      | Some rl' => assign_windows f nums rest rl'
      | None => (rl, false)
      end
  end.

(** One [if (headers[name] !== undefined && headers[name].split(', ').length > 0)]
    block.  Only a string has a [split] method. *)
Definition read_header (f : field) (hv : value) (rl : list RateLimit)
  : list RateLimit * bool :=
  match hv with
  | VUndef => (rl, true)
  | VStr s =>
      if (0 <? length (Js.split ", " s))%nat
      then assign_windows f (map Number (Js.split ", " s)) [0; 1; 2; 3]%nat rl
      else (rl, true)
  | _ => (rl, false)
  end.

(** The body of the [try]. *)
Definition read_headers (h : heap) (headers : value) (rl : list RateLimit)
  : list RateLimit * bool :=
  match Store.get h headers "x-ratelimit" with
  | None => (rl, false)
  | Some made =>
      let (rl1, ok1) := read_header CallsMade made rl in
      if negb ok1 then (rl1, false) else
      match Store.get h headers "x-ratelimit-remaining" with
      | None => (rl1, false)
      | Some remaining =>
          let (rl2, ok2) := read_header CallsRemaining remaining rl1 in
          if negb ok2 then (rl2, false) else
          match Store.get h headers "x-ratelimit-reset" with
          | None => (rl2, false)
          | Some reset => read_header ResetTimeMillis reset rl2
          end
      end
  end.

Definition ensureRateLimits (rls : option (list RateLimit)) : list RateLimit :=
  match rls with
  | None => initialRateLimits
  | Some [] => initialRateLimits
  | Some rl => rl
  end.

Definition setRateLimits (w : world) (headers : value) : world :=
  let rl := ensureRateLimits (rateLimits w) in
  match headers with
  | VUndef => set_rateLimits (Some rl) w
  | _ =>
      let (rl', ok) := read_headers (store w) headers rl in
      let w' := set_rateLimits (Some rl') w in
      if ok then w'
      else emit (EConsoleLog "Something went wrong while parsing rate limits.") w'
  end.

(** *** [isExpired] *)

Definition THRESHOLD : Z := 60000.

Definition isExpired (w : world) : bool :=
  Js.gt (Num (now w))
        (Js.sub (to_number (store w) (authorizationExpireTime w)) (Num THRESHOLD)).

(** *** [buildRequestData] and [canReadSubRequestData] *)

Definition canReadSubRequestData (h : heap) (entity : value) (propertyName : string) : bool :=
  if Store.instance_of h entity "PayIn"
     && ((propertyName =? "PaymentDetails")%string
         || (propertyName =? "ExecutionDetails")%string)
  then true
  else if Store.instance_of h entity "PayOut"
          && (propertyName =? "MeanOfPaymentDetails")%string
  then true
  else if Store.instance_of h entity "BankAccount"
          && (propertyName =? "Details")%string
  then true
  else false.

(** [_.difference(keys, blackList)] *)
Definition difference (ks blackList : list string) : list string :=
  filter (fun k => existsb (String.eqb k) blackList = false) ks.

(** [_.pick(obj, keys)]: a fresh table with the listed keys that are in
    [obj], assigned in the order listed. *)
Definition pick (ps : list (string * value)) (ks : list string) : list (string * value) :=
  fold_left
    (fun acc k =>
       match Js.lookup k ps with
       | Some v => Js.assign k v acc
       | None => acc
       end)
    ks [].

Definition not_a_function : value := VErr "TypeError: toJSON is not a function".

(** [entity[key].toJSON()]: [None] is the TypeError raised when the
    property holds no object with that method. *)
Definition serialized (h : heap) (entity : value) (key : string)
  : option (list (string * value)) :=
  match Store.get h entity key with
  | Some (VObj l) => h !! l ≫= toJSON
  | _ => None
  end.

(** The [_.each(_.keys(entity), ...)] loop: the serialized form of each
    designated sub-object is copied onto [requestData]. *)
Fixpoint inline_subs (h : heap) (entity requestData : value) (ks : list string)
  : heap * option value :=
  match ks with
  | [] => (h, None)
  | key :: rest =>
      if canReadSubRequestData h entity key then
        match serialized h entity key with
        | Some ps =>
            inline_subs (Store.extend_props h requestData ps) entity requestData rest
        | None => (h, Some not_a_function)
        end
      else inline_subs h entity requestData rest
  end.

Definition buildRequestData (h : heap) (entity : value) : heap * (value + value) :=
  match entity with
  | VObj l =>
      match h !! l with
      | Some o =>
          let blackList := getReadOnlyProperties o in
          let requestDataKeys := difference (Js.keys (props o)) blackList in
          let (rd, h1) := Store.alloc (plain (pick (props o) requestDataKeys)) h in
          match inline_subs h1 entity (VObj rd) (Js.keys (props o)) with
          | (h2, None) => (h2, inl (VObj rd))
          | (h2, Some e) => (h2, inr e)
          end
      | None => (h, inr not_a_function)
      end
  | _ => (h, inr not_a_function)
  end.

(** *** Callbacks *)

Definition isFunction (v : value) : bool :=
  match v with VFun _ => true | _ => false end.

Definition callable (cb : callback) : bool :=
  match cb with
  | CbUser v => isFunction v
  | _ => true
  end.

(** Calling [cb(data, response)]: the caller's function is an event of
    the trace; each wrapper does what the file wrote in it. *)
Fixpoint invoke (cb : callback) (data response : value) (w : world) : world :=
  match cb with
  | CbUser (VFun f) => emit (ECallback f [data; response]) w
  | CbUser _ => w
  | CbAfterAuthorize inner =>
      if callable inner then invoke inner data response w else w
  | CbAfterRetry full inner =>
      let resolveArgument := if full then response else data in
      if callable inner then invoke inner resolveArgument response w else w
  end.

Definition _getOptions (cb : callback) (options : value) (params : option value)
    (w : world) : value * world :=
  let (options1, w1) :=
    if Js.truthy options then (options, w)
    else match cb with
         | CbUser (VObj l) => (VObj l, w)
         | CbUser (VErr m) => (VErr m, w)
         | _ => let (l, h) := Store.alloc (plain []) (store w) in
                (VObj l, set_store h w)
         end in
  match params with
  | Some p =>
      if Js.truthy p
      then let (l, h) := Store.extend_fresh (store w1) options1 p in
           (VObj l, set_store h w1)
      else (options1, w1)
  | None => (options1, w1)
  end.

(** *** [authorize] *)

Definition auth_post_data : string := "grant_type=client_credentials".

(** The request to the token endpoint: the defaults overlaid with the
    form body and the Basic credentials, in fresh tables. *)
Definition authorize_request (w : world) : world :=
  let self_options := VObj (self_requestOptions w) in
  let h := store w in
  let defaults := default VUndef (Store.get h self_options "headers") in
  let (ol, h1) := Store.alloc (plain []) h in
  let (hl, h2) := Store.alloc (plain []) h1 in
  let h3 := Store.extend h2 (VObj hl) defaults in
  let h4 := Store.extend_props h3 (VObj hl)
              [("Authorization", VStr (_getBasicAuthHash clientId clientApiKey));
               ("Content-Type", VStr "application/x-www-form-urlencoded")] in
  let h5 := Store.extend h4 (VObj ol) self_options in
  let h6 := Store.extend_props h5 (VObj ol)
              [("data", VStr auth_post_data); ("headers", VObj hl)] in
  emit (EAuthRequest (Store.entries h6 (VObj hl))) (set_store h6 w).

(** The response callback [function(data) { ... }] of [authorize]. *)
Definition authorized (cb : value) (data : value) (w : world) : outcome * world :=
  let h := store w in
  match Store.get h data "token_type", Store.get h data "access_token",
        Store.get h data "expires_in" with
  | Some token_type, Some access_token, Some expires_in =>
      if Js.truthy token_type && Js.truthy access_token then
        let self_options := VObj (self_requestOptions w) in
        let headers := default VUndef (Store.get h self_options "headers") in
        let h1 := Store.extend_props h headers
                    [("Authorization",
                      VStr (to_string h token_type +:+ " " +:+ to_string h access_token))] in
        let expire := Js.add (Num (now w))
                             (Js.mul (to_number h1 expires_in) (Num 1000)) in
        let w1 := set_expire (VNum expire) (set_store h1 w) in
        let w2 := match cb with
                  | VFun f => emit (ECallback f [data]) w1
                  | _ => w1
                  end in
        (resolve [data], w2)
      else (reject [data], w)
  | _, _, _ => (Uncaught (VErr "TypeError: Cannot read properties of undefined"), w)
  end.

Definition authorize (cb : value) (w : world) : outcome * world :=
  let w1 := authorize_request w in
  match receive w1 with
  | None => (Pending, w1)
  | Some (NetError _ message, w2) => (reject [VStr message], w2)
  | Some (Response _ _ _ body, w2) =>
      let (data, h) := Store.alloc_json body (store w2) in
      authorized cb data (set_store h w2)
  end.

(** *** [method] and [_requestApi] *)

Definition type_error : value := VErr "TypeError".

Definition is_undefined (v : value) : bool :=
  match v with VUndef => true | _ => false end.

(** [['post', 'get', 'put'].indexOf(method) !== -1] *)
Definition manual (m : string) : bool :=
  existsb (String.eqb m) ["post"; "get"; "put"].

Definition registered (m : string) : bool :=
  existsb (String.eqb m) apiMethods.

(** [new dataClass(item)]; a TypeError when [dataClass] is no function. *)
Definition instantiate (dataClass : value) (h : heap) (item : value)
  : option (value * heap) :=
  match dataClass with
  | VFun C =>
      let (l, h') := Store.alloc (construct C h item) h in
      Some (VObj l, h')
  | _ => None
  end.

Fixpoint instantiate_all (dataClass : value) (h : heap) (items : list value)
  : option (list value * heap) :=
  match items with
  | [] => Some ([], h)
  | item :: rest =>
      match instantiate dataClass h item with
      | Some (v, h1) =>
          match instantiate_all dataClass h1 rest with
          | Some (vs, h2) => Some (v :: vs, h2)
          | None => None
          end
      | None => None
      end
  end.

(** The data preparation at the head of [method]. *)
Definition serializeData (options : value) (w : world) : option value * world :=
  let h := store w in
  let data := default VUndef (Store.get h options "data") in
  if Js.truthy data && Store.instance_of h data "EntityBase" then
    match buildRequestData h data with
    | (h1, inl requestData) =>
        (None, set_store (Store.set h1 options "data" requestData) w)
    | (h1, inr e) => (Some e, set_store h1 w)
    end
  else
    match data with
    | VObj l =>
        match h !! l ≫= toJSON with
        | Some ps =>
            let (j, h1) := Store.alloc (plain ps) h in
            (None, set_store (Store.set h1 options "data" (VObj j)) w)
        | None => (None, w)
        end
    | _ => (None, w)
    end.

(** [this.requestOptions.headers.Authorization] *)
Definition authorizationHeader (w : world) : option value :=
  match Store.get (store w) (VObj (self_requestOptions w)) "headers" with
  | Some headers => Store.get (store w) headers "Authorization"
  | None => None
  end.

(** [!this.requestOptions.headers.Authorization || this.isExpired()];
    a TypeError ([None]) when the defaults have lost their [headers]. *)
Definition needsAuthorization (w : world) : option bool :=
  match authorizationHeader w with
  | Some authorization => Some (negb (Js.truthy authorization) || isExpired w)
  | None => None
  end.

(** [o[k]] where the file reads a property of a value it has tested. *)
Definition read (h : heap) (o : value) (k : string) : value :=
  default VUndef (Store.get h o k).

(** [_.extend(requestOptions[key], this.requestOptions[key], options[key])] *)
Definition mergeTables (h : heap) (key : string)
    (requestOptions self_options options : value) : heap :=
  let target := read h requestOptions key in
  let defaults := read h self_options key in
  let custom := read h options key in
  Store.extend (Store.extend h target defaults) target custom.

(** The merge of the instance defaults with the caller's options, and of
    their [headers] and [path] tables. *)
Definition mergeRequestOptions (options : value) (w : world) : loc * world :=
  let self_options := VObj (self_requestOptions w) in
  let (q, h1) := Store.extend_fresh (store w) self_options options in
  let requestOptions := VObj q in
  let h2 :=
    if Js.truthy options && Js.truthy (read h1 options "headers")
       && is_undefined (read h1 (read h1 options "headers") "Content-Type")
    then mergeTables h1 "headers" requestOptions self_options options
    else h1 in
  let h3 :=
    if Js.truthy options && Js.truthy (read h2 options "path")
    then mergeTables h2 "path" requestOptions self_options options
    else h2 in
  (q, set_store h3 w).

(** The response callback of [_requestApi] for a status other than 401. *)
Definition settle (requestOptions : value) (m : string) (cb : callback)
    (full : bool) (statusCode : Z) (data response resolveArgument : value)
    (w : world) : outcome * world :=
  if (statusCode <? 200) || (299 <? statusCode) then
    let w1 := if callable cb then invoke cb resolveArgument response w else w in
    match Store.get (store w1) data "Message" with
    | None => (Uncaught type_error, w1)
    | Some message =>
        let w2 := emit (EErrorHandler message data) w1 in
        (reject [resolveArgument; response], w2)
    end
  else
    let w1 := setRateLimits w (default VUndef (Store.get (store w) response "headers")) in
    let finish (resolveArgument : value) (w : world) :=
      let w' := if callable cb then invoke cb resolveArgument response w else w in
      (resolve [resolveArgument], w') in
    if negb (manual m) then
      let h := store w1 in
      let target := default VUndef (Store.get h requestOptions "data") in
      let h1 := Store.extend_props (Store.extend h target data) target [("data", data)] in
      let w2 := set_store h1 w1 in
      let dataClass := default VUndef (Store.get h1 requestOptions "dataClass") in
      if Js.truthy dataClass && negb full then
        if Store.isArray h1 data then
          match instantiate_all dataClass h1 (Store.elements h1 data) with
          | Some (vs, h2) =>
              let (l, h3) := Store.alloc (Store.array vs) h2 in
              finish (VObj l) (set_store h3 w2)
          | None => (Uncaught type_error, w2)
          end
        else
          match instantiate dataClass h1 data with
          | Some (v, h2) => finish v (set_store h2 w2)
          | None => (Uncaught type_error, w2)
          end
      else finish resolveArgument w2
    else finish resolveArgument w1.

Definition _requestApi
    (retry : string -> callback -> value -> world -> outcome * world)
    (requestOptions : value) (m : string) (cb : callback) (w : world)
  : outcome * world :=
  if (m =? "")%string then
    (reject [VErr "Method is required in order to perform a API server request"], w)
  else if negb (manual m) && negb (registered m) then
    (reject [type_error], w)
  else if manual m && negb (Js.truthy (read (store w) requestOptions "url")) then
    (reject [VErr "Url must be specified when doing a manual request"], w)
  else
    let full := Js.truthy (read (store w) requestOptions "resolveWithFullResponse") in
    let sent := requestHeaders (store w) requestOptions in
    let w1 := emit (ERequest m requestOptions sent) w in
    match receive w1 with
    | None => (Pending, w1)
    | Some (NetError _ message, w2) => (reject [VStr message], w2)
    | Some (Response _ statusCode headers body, w2) =>
        let (data, h1) := Store.alloc_json body (store w2) in
        let (hl, h2) :=
          Store.alloc (plain (map (fun kv => (fst kv, VStr (snd kv))) headers)) h1 in
        let (rl, h3) :=
          Store.alloc (mkObject ["IncomingMessage"] false
                         [("statusCode", VNum (Num statusCode)); ("headers", VObj hl)]) h2 in
        let response := VObj rl in
        let h4 := if full then Store.extend_props h3 response [("body", data)] else h3 in
        let resolveArgument := if full then response else data in
        let w3 := set_store h4 w2 in
        if statusCode =? 401 then
          match authorize VUndef w3 with
          | (Resolved _, w4) =>
              in_then (retry m (CbAfterRetry full cb) requestOptions w4)
          | other => other
          end
        else settle requestOptions m cb full statusCode data response resolveArgument w3
    end.

Fixpoint method (fuel : nat) (m : string) (cb : callback) (options : value)
    (w : world) : outcome * world :=
  match fuel with
  | O => (OutOfFuel, w)
  | S fuel' =>
      let (options, w1) := _getOptions cb options None w in
      let w2 := if debugMode then emit (ELog m options) w1 else w1 in
      match serializeData options w2 with
      | (Some e, w3) => (Thrown e, w3)
      | (None, w3) =>
          match needsAuthorization w3 with
          | None => (Thrown type_error, w3)
          | Some true =>
              match authorize VUndef w3 with
              | (Resolved _, w4) =>
                  in_then (method fuel' m (CbAfterAuthorize cb) options w4)
              | other => other
              end
          | Some false =>
              let (q, w4) := mergeRequestOptions options w3 in
              _requestApi (method fuel') (VObj q) m cb w4
          end
      end
  end.

End Dispatcher.

(** ** A concrete client

    The instance used to run the model: the decimal [Number], plain
    objects printing as [[object Object]], a three-entry endpoint catalog,
    and a model layer in which the read-only names are [Id] and
    [CreationDate], [toJSON] copies the own properties of a [Model]
    instance and a model constructor copies those of its payload. *)

Module Sdk.

Definition ObjectToString (h : heap) (l : loc) : string := "[object Object]".

Definition apiMethods : list string :=
  ["authentication_oauth"; "Users_Create"; "Users_All"; "PayIns_Create"].

Definition getReadOnlyProperties (o : object) : list string :=
  ["Id"; "CreationDate"].

Definition toJSON (o : object) : option (list (string * value)) :=
  if existsb (String.eqb "Model") (chain o) then Some (props o) else None.

Definition construct (C : string) (h : heap) (v : value) : object :=
  mkObject [C; "EntityBase"; "Model"] false (Store.entries h v).

Definition Api : Z -> list arrival -> world :=
  Api "sdk-unit-tests" (VNum (Num 30000)) (VNum (Num 80000)) "v2.01" "1.0.0".

Definition authorize : value -> world -> outcome * world :=
  authorize NumberLiteral.Number ObjectToString "sdk-unit-tests" "secret".

Definition method : nat -> string -> callback -> value -> world -> outcome * world :=
  method NumberLiteral.Number ObjectToString "sdk-unit-tests" "secret" false
         apiMethods getReadOnlyProperties toJSON construct.

Definition setRateLimits : world -> value -> world :=
  setRateLimits NumberLiteral.Number.

Definition buildRequestData : heap -> value -> heap * (value + value) :=
  buildRequestData getReadOnlyProperties toJSON.

Definition token (t : Z) : arrival :=
  Response t 200 []
    (JObj [("access_token", JStr "abc"); ("token_type", JStr "bearer");
           ("expires_in", JNum (Num 3600))]).

(** [options] allocated by the caller on top of a world. *)
Definition with_object (o : object) (w : world) : value * world :=
  let (l, h) := Store.alloc o (store w) in (VObj l, set_store h w).

End Sdk.

(** ** Reading the snapshot

    What one rate-limit header does to window [i]: a string header
    overwrites the field in the first four windows with the conversion of
    its [i]-th component, anything else leaves the window alone. *)

Definition touch (Number : string -> jsnum) (f : field) (hv : value) (i : nat)
    (r : RateLimit) : RateLimit :=
  match hv with
  | VStr s =>
      if (i <? 4)%nat
      then write_field f (element (map Number (Js.split ", " s)) i) r
      else r
  | _ => r
  end.

(** Whether the block of one header runs to its end on a snapshot of [n]
    windows. *)
Definition header_ok (hv : value) (n : nat) : bool :=
  match hv with
  | VUndef => true
  | VStr _ => (4 <=? n)%nat
  | _ => false
  end.

(** The three header blocks on one window, the later ones skipped once an
    earlier one raised. *)
Definition effect (Number : string -> jsnum) (v1 v2 v3 : value) (n i : nat) (r : RateLimit) : RateLimit :=
  let r1 := touch Number CallsMade v1 i r in
  if header_ok v1 n then
    let r2 := touch Number CallsRemaining v2 i r1 in
    if header_ok v2 n then touch Number ResetTimeMillis v3 i r2 else r2
  else r1.

(** A value that is not a number below zero: a number from zero up, or
    what a short or malformed header leaves ([undefined], NaN). *)
Definition not_negative (v : value) : Prop :=
  forall z, v = VNum (Num z) -> 0 <= z.

Definition window_not_negative (r : RateLimit) : Prop :=
  not_negative (callsMade r) /\ not_negative (callsRemaining r)
  /\ not_negative (resetTimeMillis r).

(** A rate-limit header none of whose first four components converts to
    a number below zero; a value that is no string has no components. *)
Definition header_not_negative (Number : string -> jsnum) (hv : value) : Prop :=
  forall s i, hv = VStr s -> (i < 4)%nat ->
    not_negative (element (map Number (Js.split ", " s)) i).

Definition headers_not_negative (Number : string -> jsnum) (h : heap) (headers : value)
  : Prop :=
  forall name hv,
    In name ["x-ratelimit"; "x-ratelimit-remaining"; "x-ratelimit-reset"] ->
    Store.get h headers name = Some hv -> header_not_negative Number hv.

(** The snapshots the dispatcher can hold: the constructor's empty array,
    then whatever [setRateLimits] makes of a response's headers. *)
Inductive snapshot (Number : string -> jsnum) : world -> Prop :=
| snapshot_new w :
    rateLimits w = Some [] -> snapshot Number w
| snapshot_set w headers :
    snapshot Number w -> snapshot Number (setRateLimits Number w headers).

(** The same, when no response carried a header component below zero. *)
Inductive snapshot_not_negative (Number : string -> jsnum) : world -> Prop :=
| not_negative_new w :
    rateLimits w = Some [] -> snapshot_not_negative Number w
| not_negative_set w headers :
    snapshot_not_negative Number w ->
    headers_not_negative Number (store w) headers ->
    snapshot_not_negative Number (setRateLimits Number w headers).

(** Window [i] of the snapshot a world holds. *)
Definition window (w : world) (i : nat) : option RateLimit :=
  match rateLimits w with
  | Some rl => rl !! i
  | None => None
  end.

(** Window [i] as an update finds it: the initial entry on a client that
    has none yet. *)
Definition previous (w : world) (i : nat) : option RateLimit :=
  ensureRateLimits (rateLimits w) !! i.

(** The component of a header that window [i] reads. *)
Definition component (Number : string -> jsnum) (h : heap) (headers : value)
    (name : string) (i : nat) : option (option value) :=
  match headers with
  | VUndef => Some None
  | _ =>
    match Store.get h headers name with
    | None => None
    | Some VUndef => Some None
    | Some (VStr s) => Some (Some (element (map Number (Js.split ", " s)) i))
    | Some _ => None
    end
  end.

(** A window after the component [c] of a header has been read into its
    field [f]: an absent header keeps the field. *)
Definition by_component (f : field) (c : option value) (r : RateLimit) : RateLimit :=
  match c with
  | Some v => write_field f v r
  | None => r
  end.

Definition rate_limit_headers : list string :=
  ["x-ratelimit"; "x-ratelimit-remaining"; "x-ratelimit-reset"].

(** The snapshot is empty or has its four windows. *)
Definition four_windows (w : world) : Prop :=
  exists rl, rateLimits w = Some rl /\ (rl = [] \/ length rl = 4%nat).


(** ** Well-formed defaults

    The instance defaults hold their [headers] table in the store, as the
    constructor leaves them. *)
Definition defaults_in_store (w : world) : Prop :=
  exists o hl oh,
    store w !! self_requestOptions w = Some o
    /\ Js.lookup "headers" (props o) = Some (VObj hl)
    /\ store w !! hl = Some oh
    /\ hl <> self_requestOptions w.

(** Nothing that was in the store of [w] has changed in [w']. *)
Definition store_kept (w w' : world) : Prop :=
  self_requestOptions w' = self_requestOptions w
  /\ forall l o, store w !! l = Some o -> store w' !! l = Some o.

(** ** The designated sub-objects

    The (model type, field name) pairs whose sub-object is flattened into
    the request payload. *)
Definition designated (h : heap) (entity : value) (key : string) : Prop :=
  (Store.instance_of h entity "PayIn" = true
   /\ (key = "PaymentDetails" \/ key = "ExecutionDetails"))
  \/ (Store.instance_of h entity "PayOut" = true /\ key = "MeanOfPaymentDetails")
  \/ (Store.instance_of h entity "BankAccount" = true /\ key = "Details").

(** A value that does not point outside the store. *)
Definition allocated (h : heap) (v : value) : Prop :=
  match v with
  | VObj l => (l < length h)%nat
  | _ => True
  end.

(** A table in which no key is listed twice. *)
Definition well_keyed (o : object) : Prop := NoDup (Js.keys (props o)).

(** ** More vocabulary for the snapshot *)

(** The interval of each window, in minutes. *)
Definition intervals : list value :=
  [VNum (Num 15); VNum (Num 30); VNum (Num 60); VNum (Num 1440)].

(** The response header each field of a window is read from. *)
Definition header_name (f : field) : string :=
  match f with
  | CallsMade => "x-ratelimit"
  | CallsRemaining => "x-ratelimit-remaining"
  | ResetTimeMillis => "x-ratelimit-reset"
  end.

(** A header value the parser accepts: absent, or a string. *)
Definition parsable (hv : value) : bool :=
  match hv with
  | VUndef | VStr _ => true
  | _ => false
  end.

Definition parse_failure : event :=
  EConsoleLog "Something went wrong while parsing rate limits.".

Definition form_urlencoded : value := VStr "application/x-www-form-urlencoded".

(** A method name [_requestApi] lets through to the network: not empty,
    and either a manual verb with a [url] or a registered endpoint. *)
Definition dispatchable (apiMethods : list string) (h : heap) (requestOptions : value)
    (m : string) : Prop :=
  m <> ""
  /\ (manual m = true -> Js.truthy (read h requestOptions "url") = true)
  /\ (manual m = false -> registered apiMethods m = true).

(** A callback argument that cannot be taken for the options: anything
    but an object. *)
Definition plain_callback (v : value) : Prop :=
  match v with
  | VObj _ | VErr _ => False
  | _ => True
  end.

(** The body of a token grant. *)
Definition token_body (token_type access_token : string) (expires_in : Z) : json :=
  JObj [("access_token", JStr access_token); ("token_type", JStr token_type);
        ("expires_in", JNum (Num expires_in))].

(** The line [method] logs in debug mode. *)
Definition debug_line (debugMode : bool) (m : string) (options : value) : list event :=
  if debugMode then [ELog m options] else [].

(** The world after the debug line of [method], if any. *)
Definition logged (debugMode : bool) (m : string) (options : value) (w : world) : world :=
  if debugMode then emit (ELog m options) w else w.

(** A request in flight, as [method] hands it to [_requestApi]: the
    default options hold the headers table [hl]; the request options [q]
    were merged from the defaults, so they list every key of the
    defaults; they are sent with the headers table [c] (the default table
    or the caller's own), which carries a Content-Type; their path table,
    if any, is a table of its own; and their data, if an object, is one
    that [method] does not serialize again. *)
Definition in_flight (toJSON : object -> option (list (string * value)))
    (w : world) (q hl c : loc) : Prop :=
  exists oR oQ oh oc,
    store w !! self_requestOptions w = Some oR
    /\ store w !! hl = Some oh
    /\ store w !! q = Some oQ
    /\ store w !! c = Some oc
    /\ well_keyed oR /\ well_keyed oQ
    /\ (forall k, In k (Js.keys (props oR)) -> In k (Js.keys (props oQ)))
    /\ Js.lookup "headers" (props oR) = Some (VObj hl)
    /\ Js.lookup "headers" (props oQ) = Some (VObj c)
    /\ default VUndef (Js.lookup "Content-Type" (props oc)) <> VUndef
    /\ hl <> self_requestOptions w /\ q <> hl
    /\ (forall p, Js.lookup "path" (props oQ) = Some (VObj p) ->
          p <> self_requestOptions w /\ p <> hl /\ p <> c /\ is_Some (store w !! p))
    /\ (forall d, Js.lookup "data" (props oQ) = Some (VObj d) ->
          d <> hl /\ Js.lookup "path" (props oQ) <> Some (VObj d)
          /\ exists od, store w !! d = Some od
                        /\ existsb (String.eqb "EntityBase") (chain od) = false
                        /\ toJSON od = None).

(** The answers of a server that refuses a request: a 401 from the API,
    then a grant of the token endpoint good for a minute at least. *)
Definition refusal (a : arrival) : Prop :=
  exists t headers body, a = Response t 401 headers body.

Definition grant (a : arrival) : Prop :=
  exists t status headers tt access n,
    a = Response t status headers (token_body tt access n)
    /\ tt <> "" /\ access <> "" /\ 60000 <= n * 1000.

(** [k] refusals in a row, and then nothing more. *)
Fixpoint refused (k : nat) (net : list arrival) : Prop :=
  match k with
  | O => net = []
  | S k' => exists a b net', net = a :: b :: net' /\ refusal a /\ grant b /\ refused k' net'
  end.

(** The API requests and the token requests of a trace. *)
Definition is_request (e : event) : bool :=
  match e with ERequest _ _ _ => true | _ => false end.

Definition is_token_request (e : event) : bool :=
  match e with EAuthRequest _ => true | _ => false end.

Definition count (f : event -> bool) (tr : list event) : nat :=
  length (List.filter f tr).

(** The caller's own callback under the wrappers of [method] and
    [_requestApi], whether a wrapper on the way replaces the first
    argument by the response, and the call the caller's function then
    sees. *)
Fixpoint user_callback (cb : callback) : value :=
  match cb with
  | CbUser v => v
  | CbAfterAuthorize inner => user_callback inner
  | CbAfterRetry _ inner => user_callback inner
  end.

Fixpoint passes_response (cb : callback) : bool :=
  match cb with
  | CbUser _ => false
  | CbAfterAuthorize inner => passes_response inner
  | CbAfterRetry full inner => full || passes_response inner
  end.

Definition called (cb : callback) (x response : value) : list event :=
  match user_callback cb with
  | VFun f => [ECallback f [if passes_response cb then response else x; response]]
  | _ => []
  end.

(** The integers a double holds exactly.  On them the sum, the difference
    and the product of doubles are those of the integers whenever the
    result is one of them too. *)
Definition exact (z : Z) : Prop := - 2 ^ 53 <= z <= 2 ^ 53.

(** ** The helpers on small inputs *)

Example split_example :
  Js.split ", " "12, 7, , 30" = ["12"; "7"; ""; "30"].
Proof. reflexivity. Qed.

Example split_empty : Js.split ", " "" = [""].
Proof. reflexivity. Qed.

Example number_examples :
  map NumberLiteral.Number ["12"; " 7 "; ""; "-3"; "abc"; "+5"]
  = [Num 12; Num 7; Num 0; Num (-3); NaN; Num 5].
Proof. reflexivity. Qed.

Example extend_aliasing :
  let h := [plain [("a", VNum (Num 1))]; plain [("a", VNum (Num 2)); ("b", VNull)]] in
  Store.extend (Store.extend h (VObj 0%nat) (VObj 1%nat)) (VObj 0%nat) (VObj 0%nat)
  = [plain [("a", VNum (Num 2)); ("b", VNull)];
     plain [("a", VNum (Num 2)); ("b", VNull)]].
Proof. reflexivity. Qed.

Example alloc_json_example :
  Store.alloc_json (JObj [("Id", JStr "7"); ("Tags", JArr [JStr "x"; JNull])]) []
  = (VObj 1%nat,
     [Store.array [VStr "x"; VNull];
      plain [("Id", VStr "7"); ("Tags", VObj 0%nat)]]).
Proof. reflexivity. Qed.

Example base64_example : Base64.encode "sdk:key" = "c2RrOmtleQ==".
Proof. reflexivity. Qed.

(** * Properties *)

(** ** The rate-limit snapshot *)

Section RateLimitFacts.

Variable Number : string -> jsnum.


Lemma split_from_nonempty sep s : forall skip cur, Js.split_from sep skip cur s <> [].
Proof.
  induction s as [|c s IH]; intros skip cur; simpl; [done|].
  destruct skip; [|apply IH].
  match goal with |- context [if ?b then _ else _] => destruct b end;
    [done|apply IH].
Qed.

Lemma split_length_pos sep s : (0 <? length (Js.split sep s))%nat = true.
Proof.
  unfold Js.split. pose proof (split_from_nonempty sep s 0%nat "") as H.
  destruct (Js.split_from sep 0 "" s); [congruence|reflexivity].
Qed.

Lemma imap_keep {A} (f : nat -> A -> A) (l : list A) :
  (forall i x, f i x = x) -> imap f l = l.
Proof.
  intros Hf. apply list_eq; intros i.
  rewrite list_lookup_imap. destruct (l !! i); simpl; [rewrite Hf|]; reflexivity.
Qed.

Lemma assign_windows_imap f nums rl :
  assign_windows f nums [0; 1; 2; 3]%nat rl
  = (imap (fun i r => if (i <? 4)%nat then write_field f (element nums i) r else r) rl,
     (4 <=? length rl)%nat).
Proof.
  destruct rl as [|a [|b [|c [|d rest]]]]; try reflexivity.
  cbn. do 2 f_equal. do 4 f_equal.
  symmetry. apply imap_keep. reflexivity.
Qed.

Lemma read_header_imap f hv rl :
  read_header Number f hv rl = (imap (touch Number f hv) rl, header_ok hv (length rl)).
Proof.
  destruct hv; simpl; try (rewrite imap_keep; reflexivity).
  rewrite split_length_pos. apply assign_windows_imap.
Qed.

Lemma read_headers_imap h headers rl v1 v2 v3 :
  Store.get h headers "x-ratelimit" = Some v1 ->
  Store.get h headers "x-ratelimit-remaining" = Some v2 ->
  Store.get h headers "x-ratelimit-reset" = Some v3 ->
  fst (read_headers Number h headers rl) = imap (effect Number v1 v2 v3 (length rl)) rl.
Proof.
  intros H1 H2 H3. unfold read_headers. rewrite H1, read_header_imap.
  unfold effect.
  destruct (header_ok v1 (length rl)) eqn:E1; simpl; [|reflexivity].
  rewrite H2, read_header_imap, length_imap.
  destruct (header_ok v2 (length rl)) eqn:E2; simpl.
  - rewrite H3, read_header_imap. simpl.
    apply list_eq; intros i. rewrite !list_lookup_imap.
    destruct (rl !! i); reflexivity.
  - apply list_eq; intros i. rewrite !list_lookup_imap.
    destruct (rl !! i); reflexivity.
Qed.

Lemma get_none h v k k' : Store.get h v k = None -> Store.get h v k' = None.
Proof.
  destruct v; simpl; try congruence. destruct (h !! l); congruence.
Qed.

Lemma read_headers_none h headers rl :
  Store.get h headers "x-ratelimit" = None ->
  fst (read_headers Number h headers rl) = rl.
Proof. intros H. unfold read_headers. rewrite H. reflexivity. Qed.

Lemma read_headers_length h headers rl :
  length (fst (read_headers Number h headers rl)) = length rl.
Proof.
  destruct (Store.get h headers "x-ratelimit") as [v1|] eqn:H1.
  - destruct (Store.get h headers "x-ratelimit-remaining") as [v2|] eqn:H2;
      [|rewrite (get_none _ _ _ "x-ratelimit" H2) in H1; discriminate].
    destruct (Store.get h headers "x-ratelimit-reset") as [v3|] eqn:H3;
      [|rewrite (get_none _ _ _ "x-ratelimit" H3) in H1; discriminate].
    rewrite (read_headers_imap _ _ _ _ _ _ H1 H2 H3). apply length_imap.
  - rewrite read_headers_none by assumption. reflexivity.
Qed.

(** A header either keeps a field or puts a value in it. *)
Lemma touch_cases f hv i :
  (forall r, touch Number f hv i r = r) \/ (exists x, forall r, touch Number f hv i r = write_field f x r).
Proof.
  destruct hv; simpl; try (left; reflexivity).
  destruct (i <? 4)%nat; [right; eexists; reflexivity|left; reflexivity].
Qed.

Lemma effect_idempotent v1 v2 v3 n i r :
  effect Number v1 v2 v3 n i (effect Number v1 v2 v3 n i r) = effect Number v1 v2 v3 n i r.
Proof.
  unfold effect.
  destruct (touch_cases CallsMade v1 i) as [K1|[x1 K1]];
  destruct (touch_cases CallsRemaining v2 i) as [K2|[x2 K2]];
  destruct (touch_cases ResetTimeMillis v3 i) as [K3|[x3 K3]];
  destruct (header_ok v1 n), (header_ok v2 n);
  rewrite ?K1, ?K2, ?K3; destruct r; reflexivity.
Qed.

Lemma read_headers_idempotent h headers rl :
  fst (read_headers Number h headers (fst (read_headers Number h headers rl)))
  = fst (read_headers Number h headers rl).
Proof.
  destruct (Store.get h headers "x-ratelimit") as [v1|] eqn:H1.
  - destruct (Store.get h headers "x-ratelimit-remaining") as [v2|] eqn:H2;
      [|rewrite (get_none _ _ _ "x-ratelimit" H2) in H1; discriminate].
    destruct (Store.get h headers "x-ratelimit-reset") as [v3|] eqn:H3;
      [|rewrite (get_none _ _ _ "x-ratelimit" H3) in H1; discriminate].
    rewrite !(read_headers_imap _ _ _ _ _ _ H1 H2 H3), length_imap.
    apply list_eq; intros i. rewrite !list_lookup_imap.
    destruct (rl !! i); simpl; [rewrite effect_idempotent|]; reflexivity.
  - rewrite !read_headers_none by assumption. reflexivity.
Qed.

Lemma ensure_nonempty rls : ensureRateLimits rls <> [].
Proof. destruct rls as [[|r rl]|]; done. Qed.

Lemma ensure_keeps rl : rl <> [] -> ensureRateLimits (Some rl) = rl.
Proof. destruct rl; [congruence|reflexivity]. Qed.

(** The snapshot and the store after an update. *)
Lemma setRateLimits_snapshot w headers :
  rateLimits (setRateLimits Number w headers)
  = Some (match headers with
          | VUndef => ensureRateLimits (rateLimits w)
          | _ => fst (read_headers Number (store w) headers (ensureRateLimits (rateLimits w)))
          end).
Proof.
  unfold setRateLimits.
  destruct headers; try reflexivity;
    destruct (read_headers Number _ _ _) as [rl' [|]]; reflexivity.
Qed.

Lemma setRateLimits_store w headers : store (setRateLimits Number w headers) = store w.
Proof.
  unfold setRateLimits.
  destruct headers; try reflexivity;
    destruct (read_headers Number _ _ _) as [rl' [|]]; reflexivity.
Qed.

(** C8: the update of the rate-limit snapshot is idempotent: in every
    state of the dispatcher and for every headers value, applying
    [setRateLimits] twice with the same headers leaves the same snapshot
    as applying it once. *)
Theorem setRateLimits_idempotent (w : world) (headers : value) :
  rateLimits (setRateLimits Number (setRateLimits Number w headers) headers)
  = rateLimits (setRateLimits Number w headers).
Proof.
  rewrite (setRateLimits_snapshot (setRateLimits Number w headers)).
  rewrite setRateLimits_store, !setRateLimits_snapshot. f_equal.
  assert (Hlen : forall rl, rl <> [] ->
            fst (read_headers Number (store w) headers rl) <> []).
  { intros rl Hrl Hnil. apply Hrl, length_zero_iff_nil.
    rewrite <- (read_headers_length (store w) headers rl), Hnil. reflexivity. }
  pose proof (ensure_nonempty (rateLimits w)) as Hne.
  destruct headers;
    first [ rewrite ensure_keeps by assumption; reflexivity
          | rewrite ensure_keeps by (apply Hlen; assumption);
            apply read_headers_idempotent ].
Qed.

Lemma initial_not_negative : Forall window_not_negative initialRateLimits.
Proof.
  assert (not_negative (VNum (Num 0))) by (intros z [= <-]; lia).
  repeat constructor; assumption.
Qed.

Lemma touch_not_negative f hv i r :
  header_not_negative Number hv -> window_not_negative r ->
  window_not_negative (touch Number f hv i r).
Proof.
  intros Hh Hr. unfold touch. destruct hv; try assumption.
  destruct (i <? 4)%nat eqn:Hi; [|assumption].
  apply Nat.ltb_lt in Hi. pose proof (Hh s i eq_refl Hi) as Hs.
  destruct Hr as (H1 & H2 & H3). destruct f; repeat split; assumption.
Qed.

Lemma read_header_not_negative f hv rl :
  header_not_negative Number hv -> Forall window_not_negative rl ->
  Forall window_not_negative (fst (read_header Number f hv rl)).
Proof.
  intros Hh Hr. rewrite read_header_imap. cbn [fst].
  apply Forall_lookup_2. intros i r. rewrite list_lookup_imap.
  destruct (rl !! i) as [r0|] eqn:E; simpl; intros [= <-].
  apply touch_not_negative; [exact Hh|]. exact (Forall_lookup_1 _ _ _ _ Hr E).
Qed.

(** The body of the [try], wherever it stops: what was written came from
    the headers. *)
Lemma read_headers_not_negative h headers rl :
  headers_not_negative Number h headers -> Forall window_not_negative rl ->
  Forall window_not_negative (fst (read_headers Number h headers rl)).
Proof.
  intros Hh Hr. unfold read_headers.
  destruct (Store.get h headers "x-ratelimit") as [v1|] eqn:G1; [|exact Hr].
  assert (N1 : header_not_negative Number v1) by (apply (Hh "x-ratelimit" v1); [simpl; tauto|exact G1]).
  pose proof (read_header_not_negative CallsMade v1 rl N1 Hr) as R1.
  destruct (read_header Number CallsMade v1 rl) as [rl1 ok1]. cbn [fst] in R1.
  destruct ok1; cbn [negb]; [|exact R1].
  destruct (Store.get h headers "x-ratelimit-remaining") as [v2|] eqn:G2; [|exact R1].
  assert (N2 : header_not_negative Number v2) by (apply (Hh "x-ratelimit-remaining" v2); [simpl; tauto|exact G2]).
  pose proof (read_header_not_negative CallsRemaining v2 rl1 N2 R1) as R2.
  destruct (read_header Number CallsRemaining v2 rl1) as [rl2 ok2]. cbn [fst] in R2.
  destruct ok2; cbn [negb]; [|exact R2].
  destruct (Store.get h headers "x-ratelimit-reset") as [v3|] eqn:G3; [|exact R2].
  assert (N3 : header_not_negative Number v3) by (apply (Hh "x-ratelimit-reset" v3); [simpl; tauto|exact G3]).
  exact (read_header_not_negative ResetTimeMillis v3 rl2 N3 R2).
Qed.

Lemma ensure_four w :
  four_windows w -> length (ensureRateLimits (rateLimits w)) = 4%nat.
Proof.
  intros (rl & -> & [->|Hlen]); [reflexivity|].
  destruct rl; [discriminate|exact Hlen].
Qed.

Lemma snapshot_four w : snapshot Number w -> four_windows w.
Proof.
  induction 1 as [w H|w headers Hw IH].
  - exists []. auto.
  - eexists. split; [apply setRateLimits_snapshot|right].
    destruct headers; rewrite ?read_headers_length; apply ensure_four, IH.
Qed.

Lemma ensure_not_negative rls :
  (forall rl, rls = Some rl -> Forall window_not_negative rl) ->
  Forall window_not_negative (ensureRateLimits rls).
Proof.
  intros H. destruct rls as [[|r rl]|]; simpl; try apply initial_not_negative.
  apply H. reflexivity.
Qed.

Lemma snapshot_windows_not_negative w :
  snapshot_not_negative Number w ->
  forall rl, rateLimits w = Some rl -> Forall window_not_negative rl.
Proof.
  induction 1 as [w H|w headers Hw IH Hh]; intros rl Hrl.
  - rewrite H in Hrl. injection Hrl as <-. constructor.
  - rewrite setRateLimits_snapshot in Hrl. injection Hrl as <-.
    pose proof (ensure_not_negative _ IH) as He.
    destruct headers; try exact He; apply read_headers_not_negative; assumption.
Qed.

Lemma component_touch h headers name j c f :
  component Number h headers name j = Some c -> headers <> VUndef ->
  exists hv, Store.get h headers name = Some hv /\ header_ok hv 4 = true /\
    forall r, (j < 4)%nat -> touch Number f hv j r = by_component f c r.
Proof.
  unfold component. intros Hc Hh.
  destruct headers; try congruence;
    destruct (Store.get h _ name) as [[]|] eqn:G; try discriminate;
    injection Hc as <-; eexists; (split; [reflexivity|]); (split; [reflexivity|]);
    intros r Hj; simpl; try reflexivity;
    apply Nat.ltb_lt in Hj; rewrite Hj; reflexivity.
Qed.

Lemma component_undefined h name j c :
  component Number h VUndef name j = Some c -> c = None.
Proof. simpl. congruence. Qed.

(** Window [j] after an update, from window [j] before it and the
    [j]-th components of the three headers. *)
Lemma window_by_component w headers j c1 c2 c3 :
  four_windows w ->
  component Number (store w) headers "x-ratelimit" j = Some c1 ->
  component Number (store w) headers "x-ratelimit-remaining" j = Some c2 ->
  component Number (store w) headers "x-ratelimit-reset" j = Some c3 ->
  window (setRateLimits Number w headers) j
  = (fun r => by_component ResetTimeMillis c3
                (by_component CallsRemaining c2 (by_component CallsMade c1 r)))
    <$> ensureRateLimits (rateLimits w) !! j.
Proof.
  intros Hw H1 H2 H3. pose proof (ensure_four w Hw) as Hlen.
  unfold window. rewrite setRateLimits_snapshot.
  destruct (decide (headers = VUndef)) as [->|Hh].
  - apply component_undefined in H1, H2, H3. subst. simpl.
    destruct (ensureRateLimits (rateLimits w) !! j); reflexivity.
  - destruct (component_touch _ _ _ _ _ CallsMade H1 Hh) as (v1 & G1 & K1 & T1).
    destruct (component_touch _ _ _ _ _ CallsRemaining H2 Hh) as (v2 & G2 & K2 & T2).
    destruct (component_touch _ _ _ _ _ ResetTimeMillis H3 Hh) as (v3 & G3 & K3 & T3).
    assert (fst (read_headers Number (store w) headers (ensureRateLimits (rateLimits w))) !! j
            = (fun r => by_component ResetTimeMillis c3
                  (by_component CallsRemaining c2 (by_component CallsMade c1 r)))
              <$> ensureRateLimits (rateLimits w) !! j) as Hgoal.
    { rewrite (read_headers_imap _ _ _ _ _ _ G1 G2 G3), list_lookup_imap, Hlen.
      destruct (ensureRateLimits (rateLimits w) !! j) as [r|] eqn:E; [|reflexivity].
      simpl. f_equal. unfold effect. rewrite K1, K2.
      assert (j < 4)%nat as Hj by (rewrite <- Hlen; eapply lookup_lt_Some; eassumption).
      rewrite T1, T2, T3 by assumption. reflexivity. }
    destruct headers; try congruence; exact Hgoal.
Qed.

(** C4 (amended): in every snapshot the dispatcher builds from responses
    none of whose rate-limit header components converts to a number below
    zero, no window holds a calls-made, calls-remaining or reset-time
    value below zero; the update stores the components as they are.  And
    in every snapshot the dispatcher can hold, window [j] after an update
    with headers that are absent or strings is its entry before the update
    with the [j]-th components of the three headers written over it, so it
    depends on nothing but that entry and those components: two updates,
    on snapshots that may differ in every other window and with headers
    that may differ in every other component, leave the same window [j]. *)
Theorem rate_limit_windows :
  (forall w, snapshot_not_negative Number w ->
     forall i r, window w i = Some r -> window_not_negative r)
  /\ (forall w headers j c1 c2 c3,
        snapshot Number w ->
        component Number (store w) headers "x-ratelimit" j = Some c1 ->
        component Number (store w) headers "x-ratelimit-remaining" j = Some c2 ->
        component Number (store w) headers "x-ratelimit-reset" j = Some c3 ->
        window (setRateLimits Number w headers) j
        = (fun r => by_component ResetTimeMillis c3
                      (by_component CallsRemaining c2 (by_component CallsMade c1 r)))
          <$> previous w j)
  /\ (forall w w' headers headers' j,
        snapshot Number w -> snapshot Number w' ->
        previous w j = previous w' j ->
        (forall name, In name rate_limit_headers ->
           exists c, component Number (store w) headers name j = Some c
                     /\ component Number (store w') headers' name j = Some c) ->
        window (setRateLimits Number w headers) j
        = window (setRateLimits Number w' headers') j).
Proof.
  split; [|split].
  - intros w Hw i r Hr. unfold window in Hr.
    destruct (rateLimits w) as [rl|] eqn:E; [|discriminate].
    exact (Forall_lookup_1 _ _ _ _ (snapshot_windows_not_negative w Hw rl E) Hr).
  - intros w headers j c1 c2 c3 Hw H1 H2 H3.
    exact (window_by_component w headers j c1 c2 c3 (snapshot_four w Hw) H1 H2 H3).
  - intros w w' headers headers' j Hw Hw' Hprev Hc.
    destruct (Hc "x-ratelimit") as (c1 & A1 & B1); [simpl; tauto|].
    destruct (Hc "x-ratelimit-remaining") as (c2 & A2 & B2); [simpl; tauto|].
    destruct (Hc "x-ratelimit-reset") as (c3 & A3 & B3); [simpl; tauto|].
    rewrite (window_by_component w headers j c1 c2 c3 (snapshot_four w Hw) A1 A2 A3).
    rewrite (window_by_component w' headers' j c1 c2 c3 (snapshot_four w' Hw') B1 B2 B3).
    unfold previous in Hprev. rewrite Hprev. reflexivity.
Qed.

End RateLimitFacts.

(** C4, witness: two clients have seen [1, 2, 3, 4] and [9, 2, 8, 7]; the
    next responses carry [5, 6, 7, 8] and [0, 6, 0, 0].  No window holds a
    value below zero, and the second window is the same on both. *)
Lemma rate_limit_windows_witness :
  let o1 := Sdk.with_object (plain [("x-ratelimit", VStr "1, 2, 3, 4")]) (Sdk.Api 0 []) in
  let o2 := Sdk.with_object (plain [("x-ratelimit", VStr "9, 2, 8, 7")]) (snd o1) in
  let o3 := Sdk.with_object (plain [("x-ratelimit", VStr "5, 6, 7, 8")]) (snd o2) in
  let o4 := Sdk.with_object (plain [("x-ratelimit", VStr "0, 6, 0, 0")]) (snd o3) in
  let w := Sdk.setRateLimits (snd o4) (fst o1) in
  let w' := Sdk.setRateLimits (snd o4) (fst o2) in
  (snapshot_not_negative NumberLiteral.Number w
   /\ snapshot NumberLiteral.Number w /\ snapshot NumberLiteral.Number w')
  /\ window w 0 <> window w' 0
  /\ (forall i r, window w i = Some r -> window_not_negative r)
  /\ window (Sdk.setRateLimits w (fst o3)) 1
     = Some (mkRateLimit (VNum (Num 30)) (VNum (Num 6)) (VNum (Num 0)) (VNum (Num 0)))
  /\ window (Sdk.setRateLimits w (fst o3)) 1 = window (Sdk.setRateLimits w' (fst o4)) 1.
Proof.
  intros o1 o2 o3 o4 w w'.
  assert (Hnn : snapshot_not_negative NumberLiteral.Number w).
  { apply not_negative_set; [apply not_negative_new; reflexivity|].
    intros name hv [<-|[<-|[<-|[]]]] [= <-] s i [= <-] Hi.
    destruct i as [|[|[|[|i]]]]; try lia; intros z [= <-]; lia. }
  assert (Hs : snapshot NumberLiteral.Number w)
    by (apply snapshot_set, snapshot_new; reflexivity).
  assert (Hs' : snapshot NumberLiteral.Number w')
    by (apply snapshot_set, snapshot_new; reflexivity).
  destruct (rate_limit_windows NumberLiteral.Number) as (Hnonneg & Hformula & Hsame).
  split; [repeat split; assumption|]. split; [discriminate|].
  split; [exact (Hnonneg w Hnn)|]. split.
  - exact (Hformula w (fst o3) 1%nat _ _ _ Hs eq_refl eq_refl eq_refl).
  - apply (Hsame w w' (fst o3) (fst o4) 1%nat Hs Hs'); [reflexivity|].
    intros name [<-|[<-|[<-|[]]]]; eexists; split; reflexivity.
Defined.

(** C4, counterexample: a fresh client lists users; the response carries
    [x-ratelimit: -1, -2, -3, -4], and the first window then holds -1
    calls made. *)
Lemma rate_limit_negative_header :
  let w0 := Sdk.Api 1000
              [Sdk.token 1100;
               Response 1200 200 [("x-ratelimit", "-1, -2, -3, -4")] (JArr [])] in
  let r := Sdk.method 3 "Users_All" (CbUser VUndef) VUndef w0 in
  (exists v, fst r = Resolved v)
  /\ exists entry, window (snd r) 0 = Some entry
       /\ callsMade entry = VNum (Num (-1))
       /\ ~ not_negative (callsMade entry).
Proof.
  intros w0 r. vm_compute in r. subst r. split; [eexists; reflexivity|].
  eexists. split; [reflexivity|]. split; [reflexivity|].
  intros H. specialize (H (-1) eq_refl). lia.
Qed.

(** ** The object store *)

Section StoreFacts.

Lemma lookup_assign_eq k v ps : Js.lookup k (Js.assign k v ps) = Some v.
Proof.
  induction ps as [|[k' v'] ps IH]; simpl.
  - rewrite String.eqb_refl. reflexivity.
  - destruct (k' =? k)%string eqn:E; simpl.
    + rewrite String.eqb_refl. reflexivity.
    + rewrite E. exact IH.
Qed.

Lemma lookup_assign_ne k k' v ps :
  k <> k' -> Js.lookup k' (Js.assign k v ps) = Js.lookup k' ps.
Proof.
  intros Hk. induction ps as [|[k0 v0] ps IH]; simpl.
  - apply String.eqb_neq in Hk. rewrite Hk. reflexivity.
  - destruct (k0 =? k)%string eqn:E; simpl.
    + apply String.eqb_eq in E. subst k0.
      apply String.eqb_neq in Hk. rewrite Hk. reflexivity.
    + destruct (k0 =? k')%string; [reflexivity|exact IH].
Qed.

Lemma lookup_app k ps qs :
  Js.lookup k (ps ++ qs)
  = match Js.lookup k ps with Some v => Some v | None => Js.lookup k qs end.
Proof.
  induction ps as [|[k0 v0] ps IH]; simpl; [reflexivity|].
  destruct (k0 =? k)%string; [reflexivity|exact IH].
Qed.

(** After [_.extend], a key reads as the last source entry that carries
    it, and as before when the source has none. *)
Lemma lookup_assign_all k src : forall dst,
  Js.lookup k (Store.assign_all src dst)
  = match Js.lookup k (rev src) with
    | Some v => Some v
    | None => Js.lookup k dst
    end.
Proof.
  unfold Store.assign_all.
  induction src as [|[k0 v0] src IH]; intros dst; simpl; [reflexivity|].
  rewrite IH, lookup_app. destruct (Js.lookup k (rev src)); [reflexivity|].
  simpl. destruct (k0 =? k)%string eqn:E.
  - apply String.eqb_eq in E. subst. apply lookup_assign_eq.
  - apply lookup_assign_ne. apply String.eqb_neq. exact E.
Qed.

Lemma keys_assign k v ps :
  forall k', In k' (Js.keys (Js.assign k v ps)) <-> k' = k \/ In k' (Js.keys ps).
Proof.
  intros k'. induction ps as [|[k0 v0] ps IH]; simpl.
  - intuition.
  - destruct (k0 =? k)%string eqn:E; simpl.
    + apply String.eqb_eq in E. subst. intuition.
    + rewrite IH. intuition.
Qed.

Lemma lookup_in_keys k ps : In k (Js.keys ps) <-> Js.lookup k ps <> None.
Proof.
  induction ps as [|[k0 v0] ps IH]; simpl; [intuition|].
  destruct (k0 =? k)%string eqn:E.
  - apply String.eqb_eq in E. subst. intuition congruence.
  - apply String.eqb_neq in E. rewrite <- IH. intuition.
Qed.

Lemma alloc_old o h l x : h !! l = Some x -> (snd (Store.alloc o h)) !! l = Some x.
Proof. intros H. simpl. apply lookup_app_l_Some. exact H. Qed.

Lemma alloc_new o h : (snd (Store.alloc o h)) !! (fst (Store.alloc o h)) = Some o.
Proof. simpl. apply list_lookup_middle. reflexivity. Qed.

Lemma extend_props_length h t src : length (Store.extend_props h t src) = length h.
Proof.
  unfold Store.extend_props. destruct t; try reflexivity.
  destruct (h !! l); [apply length_insert|reflexivity].
Qed.

Lemma extend_props_other h t src l :
  t <> VObj l -> Store.extend_props h t src !! l = h !! l.
Proof.
  intros Ht. unfold Store.extend_props. destruct t; try reflexivity.
  destruct (h !! l0) eqn:E; [|reflexivity].
  apply list_lookup_insert_ne. congruence.
Qed.

Lemma extend_props_target h l o src :
  h !! l = Some o ->
  Store.extend_props h (VObj l) src !! l
  = Some (Store.with_props o (Store.assign_all src (props o))).
Proof.
  intros H. unfold Store.extend_props. rewrite H.
  apply list_lookup_insert_eq. eapply lookup_lt_Some. exact H.
Qed.

Lemma set_other h t k v l : t <> VObj l -> Store.set h t k v !! l = h !! l.
Proof.
  intros Ht. unfold Store.set. destruct t; try reflexivity.
  destruct (h !! l0) eqn:E; [|reflexivity].
  apply list_lookup_insert_ne. congruence.
Qed.

Lemma set_target h l o k v :
  h !! l = Some o ->
  Store.set h (VObj l) k v !! l = Some (Store.with_props o (Js.assign k v (props o))).
Proof.
  intros H. unfold Store.set. rewrite H.
  apply list_lookup_insert_eq. eapply lookup_lt_Some. exact H.
Qed.

Lemma alloc_list_prefix {A B} (f : A -> heap -> B * heap) (xs : list A) :
  Forall (fun x => forall h, h `prefix_of` snd (f x h)) xs ->
  forall h, h `prefix_of` snd (Store.alloc_list f xs h).
Proof.
  induction 1 as [|x xs Hx _ IH]; intros h; simpl; [reflexivity|].
  specialize (Hx h). destruct (f x h) as [v h1]. simpl in Hx.
  specialize (IH h1). destruct (Store.alloc_list f xs h1) as [vs h2]. simpl in *.
  etransitivity; eassumption.
Qed.

(** Decoding a body only adds objects to the store. *)
Lemma alloc_json_prefix j : forall h, h `prefix_of` snd (Store.alloc_json j h).
Proof.
  induction j as [ | | | |items IH|fields IH] using json_ind';
    intros h; simpl; try reflexivity.
  - pose proof (alloc_list_prefix Store.alloc_json items IH h) as Hp.
    destruct (Store.alloc_list Store.alloc_json items h) as [vs h']. simpl in *.
    etransitivity; [exact Hp|]. apply prefix_app_r. reflexivity.
  - match goal with |- context [Store.alloc_list ?f fields h] =>
      pose proof (alloc_list_prefix f fields) as Hp;
      destruct (Store.alloc_list f fields h) as [ps h'] eqn:E end.
    simpl. etransitivity; [|apply prefix_app_r; reflexivity].
    replace h' with (snd (ps, h')) by reflexivity. rewrite <- E. apply Hp.
    eapply Forall_impl; [exact IH|]. intros [k x] Hx h0. simpl in *.
    specialize (Hx h0). destruct (Store.alloc_json x h0). exact Hx.
Qed.

Lemma alloc_json_old j h l o :
  h !! l = Some o -> snd (Store.alloc_json j h) !! l = Some o.
Proof. intros H. eapply prefix_lookup_Some; [exact H|apply alloc_json_prefix]. Qed.

End StoreFacts.

(** ** [authorize] *)

Section AuthorizeFacts.

Variable Number : string -> jsnum.
Variable ObjectToString : heap -> loc -> string.
Variable clientId : string.
Variable clientApiKey : string.

Local Abbreviation authorize' := (authorize Number ObjectToString clientId clientApiKey).
Local Abbreviation authorized' := (authorized Number ObjectToString).
Local Abbreviation request' := (authorize_request clientId clientApiKey).

Lemma store_kept_refl w : store_kept w w.
Proof. split; auto. Qed.

Lemma store_kept_trans w1 w2 w3 : store_kept w1 w2 -> store_kept w2 w3 -> store_kept w1 w3.
Proof. intros [A1 B1] [A2 B2]. split; [congruence|auto]. Qed.


Lemma request_kept w : store_kept w (request' w).
Proof.
  split; [reflexivity|]. intros l o Hl.
  unfold authorize_request, Store.alloc, Store.extend.
  cbv beta iota zeta. cbn [store emit set_store].
  pose proof (lookup_lt_Some _ _ _ Hl) as Hlt.
  rewrite !extend_props_other.
  - rewrite <- app_assoc. apply lookup_app_l_Some. exact Hl.
  - intros [= E]. rewrite length_app in E. simpl in E. lia.
  - intros [= E]. rewrite length_app in E. simpl in E. lia.
  - intros [= E]. lia.
  - intros [= E]. lia.
Qed.

Lemma request_fields w :
  network (request' w) = network w
  /\ authorizationExpireTime (request' w) = authorizationExpireTime w
  /\ self_requestOptions (request' w) = self_requestOptions w.
Proof. repeat split. Qed.

Lemma defaults_kept w w' :
  defaults_in_store w -> store_kept w w' -> defaults_in_store w'.
Proof.
  intros (o & hl & oh & Ho & Hh & Hl & Hne) [HR Hk].
  exists o, hl, oh. rewrite HR. auto.
Qed.

(** The response callback of [authorize]: the two branches. *)
Lemma authorized_spec cb data w token_type access_token expires_in :
  defaults_in_store w ->
  Store.get (store w) data "token_type" = Some token_type ->
  Store.get (store w) data "access_token" = Some access_token ->
  Store.get (store w) data "expires_in" = Some expires_in ->
  let r := authorized' cb data w in
  (Js.truthy token_type && Js.truthy access_token = true ->
     fst r = Resolved data
     /\ authorizationHeader (snd r)
        = Some (VStr (to_string ObjectToString (store w) token_type +:+ " "
                      +:+ to_string ObjectToString (store w) access_token))
     /\ authorizationExpireTime (snd r)
        = VNum (Js.add (Num (now w))
                  (Js.mul (to_number Number ObjectToString (store (snd r)) expires_in)
                          (Num 1000))))
  /\ (Js.truthy token_type && Js.truthy access_token = false ->
      r = (Rejected data, w)).
Proof.
  intros (o & hl & oh & Ho & Hh & Hl & Hne) G1 G2 G3 r. subst r.
  unfold authorized. rewrite G1, G2, G3.
  destruct (Js.truthy token_type && Js.truthy access_token); split; try discriminate;
    intros _; [|reflexivity].
  assert (Hget : Store.get (store w) (VObj (self_requestOptions w)) "headers"
                 = Some (VObj hl)).
  { simpl. rewrite Ho, Hh. reflexivity. }
  rewrite Hget. simpl default.
  match goal with |- context [Store.extend_props (store w) (VObj hl) ?src] =>
    set (h1 := Store.extend_props (store w) (VObj hl) src);
    assert (H1R : h1 !! self_requestOptions w = Some o)
      by (subst h1; rewrite extend_props_other by congruence; exact Ho);
    assert (H1l : exists ps, h1 !! hl = Some (Store.with_props oh ps)
                             /\ Js.lookup "Authorization" ps = Some
         (VStr (to_string ObjectToString (store w) token_type +:+ " "
                +:+ to_string ObjectToString (store w) access_token)))
      by (eexists; split;
          [subst h1; apply extend_props_target; exact Hl
          |apply lookup_assign_eq])
  end.
  destruct H1l as (ps & H1l & Hps).
  assert (Hauth : forall w2, store w2 = h1 ->
            self_requestOptions w2 = self_requestOptions w ->
            authorizationHeader w2
            = Some (VStr (to_string ObjectToString (store w) token_type +:+ " "
                          +:+ to_string ObjectToString (store w) access_token))).
  { intros w2 Hs HR. unfold authorizationHeader. rewrite Hs, HR. simpl.
    rewrite H1R, Hh. simpl. rewrite H1l. simpl. rewrite Hps. reflexivity. }
  destruct cb; (split; [reflexivity|split; [apply Hauth; reflexivity|reflexivity]]).
Qed.


End AuthorizeFacts.



(** ** [isExpired] *)

Section ExpiryFacts.

Variable Number : string -> jsnum.
Variable ObjectToString : heap -> loc -> string.

(** C10: while no authorization has been performed
    ([authorizationExpireTime] is [undefined]) [isExpired] is false at
    every clock reading, the comparison being against NaN; so whether
    [method] authorizes first is decided by the Authorization default
    header alone. *)
Theorem isExpired_undefined (w : world) (H : authorizationExpireTime w = VUndef) :
  isExpired Number ObjectToString w = false
  /\ needsAuthorization Number ObjectToString w
     = (fun authorization => negb (Js.truthy authorization)) <$> authorizationHeader w.
Proof.
  assert (E : isExpired Number ObjectToString w = false)
    by (unfold isExpired; rewrite H; reflexivity).
  split; [exact E|].
  unfold needsAuthorization. rewrite E.
  destruct (authorizationHeader w); simpl; [rewrite orb_false_r|]; reflexivity.
Qed.

End ExpiryFacts.

(** C10, witness: the client as the constructor leaves it needs to
    authorize, although its token is not expired. *)
Lemma isExpired_undefined_witness :
  let w := Sdk.Api 1000 [] in
  authorizationExpireTime w = VUndef
  /\ isExpired NumberLiteral.Number Sdk.ObjectToString w = false
  /\ needsAuthorization NumberLiteral.Number Sdk.ObjectToString w = Some true.
Proof.
  intros w. split; [reflexivity|].
  destruct (isExpired_undefined NumberLiteral.Number Sdk.ObjectToString w eq_refl)
    as [E N].
  split; [exact E|]. rewrite N. reflexivity.
Defined.

(** ** [buildRequestData] *)

Section BuildFacts.

Variable getReadOnlyProperties : object -> list string.
Variable toJSON : object -> option (list (string * value)).

Local Abbreviation serialized' := (serialized toJSON).
Local Abbreviation inline' := (inline_subs toJSON).
Local Abbreviation build' := (buildRequestData getReadOnlyProperties toJSON).

Lemma existsb_eqb_In k ks : existsb (String.eqb k) ks = true <-> In k ks.
Proof.
  rewrite existsb_exists. split.
  - intros (x & Hx & E). apply String.eqb_eq in E. subst. exact Hx.
  - intros H. exists k. split; [exact H|apply String.eqb_refl].
Qed.

Lemma difference_In k ks bl : In k (difference ks bl) <-> In k ks /\ ~ In k bl.
Proof.
  unfold difference. rewrite <- list_elem_of_In, list_elem_of_filter, list_elem_of_In.
  rewrite <- (existsb_eqb_In k bl).
  destruct (existsb (String.eqb k) bl); intuition congruence.
Qed.

Lemma lookup_Some_In k v ps : Js.lookup k ps = Some v -> In (k, v) ps.
Proof.
  induction ps as [|[k0 v0] ps IH]; simpl; [discriminate|].
  destruct (k0 =? k)%string eqn:E; [|auto].
  apply String.eqb_eq in E. intros [= ->]. subst. auto.
Qed.

Lemma lookup_rev_In k v ps : Js.lookup k (rev ps) = Some v -> In (k, v) ps.
Proof. intros H. apply in_rev. apply lookup_Some_In. exact H. Qed.

Lemma In_keys_lookup k ps : In k (Js.keys ps) -> exists v, Js.lookup k ps = Some v.
Proof.
  intros H. apply lookup_in_keys in H. destruct (Js.lookup k ps); [eauto|congruence].
Qed.

Lemma lookup_keys k v ps : Js.lookup k ps = Some v -> In k (Js.keys ps).
Proof. intros H. apply lookup_in_keys. congruence. Qed.

(** [_.pick]: exactly the listed keys of the table, with their values. *)
Lemma lookup_pick_fold k ps ks : forall acc,
  Js.lookup k
    (fold_left (fun acc k => match Js.lookup k ps with
                             | Some v => Js.assign k v acc
                             | None => acc
                             end) ks acc)
  = if existsb (String.eqb k) ks
    then match Js.lookup k ps with Some v => Some v | None => Js.lookup k acc end
    else Js.lookup k acc.
Proof.
  induction ks as [|k0 ks IH]; intros acc; simpl; [reflexivity|].
  rewrite IH. destruct (k =? k0)%string eqn:E; simpl.
  - apply String.eqb_eq in E. subst k0.
    destruct (Js.lookup k ps) eqn:L.
    + destruct (existsb (String.eqb k) ks); [reflexivity|apply lookup_assign_eq].
    + destruct (existsb (String.eqb k) ks); reflexivity.
  - assert (k0 <> k) by (apply String.eqb_neq in E; congruence).
    destruct (Js.lookup k0 ps); [rewrite lookup_assign_ne by assumption|]; reflexivity.
Qed.

Lemma lookup_pick k ps ks :
  Js.lookup k (pick ps ks)
  = if existsb (String.eqb k) ks then Js.lookup k ps else None.
Proof.
  unfold pick. rewrite lookup_pick_fold. simpl.
  destruct (existsb (String.eqb k) ks); [|reflexivity].
  destruct (Js.lookup k ps); reflexivity.
Qed.

Lemma keys_assign_all k src : forall dst,
  In k (Js.keys (Store.assign_all src dst)) <-> In k (Js.keys src) \/ In k (Js.keys dst).
Proof.
  unfold Store.assign_all.
  induction src as [|[k0 v0] src IH]; intros dst; simpl; [tauto|].
  rewrite IH, keys_assign. intuition.
Qed.

(** The serialized form and the designation of a key do not depend on
    what the store holds at other places than the entity and the
    sub-object. *)
Lemma canRead_stable h h' l key :
  h' !! l = h !! l ->
  canReadSubRequestData h' (VObj l) key = canReadSubRequestData h (VObj l) key.
Proof. intros E. unfold canReadSubRequestData, Store.instance_of. rewrite E. reflexivity. Qed.

Lemma serialized_stable h h' l o key :
  h !! l = Some o -> h' !! l = Some o ->
  (forall s, Js.lookup key (props o) = Some (VObj s) -> h' !! s = h !! s) ->
  serialized' h' (VObj l) key = serialized' h (VObj l) key.
Proof.
  intros E E' Hs. unfold serialized, Store.get. rewrite E, E'.
  destruct (Js.lookup key (props o)) as [[]|] eqn:L; simpl; try reflexivity.
  rewrite (Hs _ eq_refl). reflexivity.
Qed.

(** The loop of [buildRequestData], on a request table at [rd] that is
    neither the entity nor one of the objects its properties hold. *)
Lemma inline_subs_spec l o rd ks : forall h ord,
  h !! l = Some o -> h !! rd = Some ord -> l <> rd ->
  (forall key s, Js.lookup key (props o) = Some (VObj s) -> s <> rd) ->
  (forall key, In key ks -> canReadSubRequestData h (VObj l) key = true ->
               is_Some (serialized' h (VObj l) key)) ->
  exists h' P,
    inline' h (VObj l) (VObj rd) ks = (h', None)
    /\ h' !! rd = Some (Store.with_props ord P)
    /\ length h' = length h
    /\ (forall x, x <> rd -> h' !! x = h !! x)
    /\ (forall k v, Js.lookup k P = Some v ->
          Js.lookup k (props ord) = Some v
          \/ exists key ps, In key ks
               /\ canReadSubRequestData h (VObj l) key = true
               /\ serialized' h (VObj l) key = Some ps /\ In (k, v) ps)
    /\ (forall k, In k (Js.keys (props ord)) -> In k (Js.keys P))
    /\ (forall key ps k, In key ks ->
          canReadSubRequestData h (VObj l) key = true ->
          serialized' h (VObj l) key = Some ps ->
          In k (Js.keys ps) -> In k (Js.keys P)).
Proof.
  induction ks as [|key ks IH]; intros h ord Hl Hrd Hne Hrefs Hforms.
  - exists h, (props ord). simpl. repeat split; auto.
    + destruct ord; exact Hrd.
    + intros key ps k [].
  - simpl.
    destruct (canReadSubRequestData h (VObj l) key) eqn:C.
    + destruct (Hforms key (or_introl eq_refl) C) as [ps Hps]. rewrite Hps.
      set (h1 := Store.extend_props h (VObj rd) ps).
      assert (H1rd : h1 !! rd
                = Some (Store.with_props ord (Store.assign_all ps (props ord))))
        by (apply extend_props_target; exact Hrd).
      assert (H1o : forall x, x <> rd -> h1 !! x = h !! x)
        by (intros x Hx; apply extend_props_other; congruence).
      assert (Hcan : forall key', canReadSubRequestData h1 (VObj l) key'
                                  = canReadSubRequestData h (VObj l) key')
        by (intros key'; apply canRead_stable, H1o, Hne).
      assert (Hser : forall key', serialized' h1 (VObj l) key'
                                  = serialized' h (VObj l) key').
      { intros key'. apply (serialized_stable h h1 l o); auto.
        - rewrite H1o by exact Hne. exact Hl.
        - intros s Hs. apply H1o. eapply Hrefs. exact Hs. }
      destruct (IH h1 (Store.with_props ord (Store.assign_all ps (props ord))))
        as (h' & P & Hrun & Hrd' & Hlen & Hoth & Hfrom & Hown & Hinl); auto.
      { rewrite H1o by exact Hne. exact Hl. }
      { intros key' Hin Hc. rewrite Hser. rewrite Hcan in Hc.
        apply Hforms; [right; exact Hin|exact Hc]. }
      exists h', P. split; [exact Hrun|]. split; [exact Hrd'|].
      split; [rewrite Hlen; apply extend_props_length|].
      split; [intros x Hx; rewrite Hoth, H1o by exact Hx; reflexivity|].
      split; [|split].
      * intros k v Hk. destruct (Hfrom k v Hk) as [Hacc|(key' & ps' & Hin & Hc & Hs & Hkv)].
        -- simpl in Hacc. rewrite lookup_assign_all in Hacc.
           destruct (Js.lookup k (rev ps)) eqn:R.
           ++ injection Hacc as <-. right. exists key, ps.
              split; [left; reflexivity|]. split; [exact C|]. split; [exact Hps|].
              apply lookup_rev_In. exact R.
           ++ left. exact Hacc.
        -- right. exists key', ps'. rewrite Hcan in Hc. rewrite Hser in Hs.
           split; [right; exact Hin|]. auto.
      * intros k Hk. apply Hown. simpl. apply keys_assign_all. right. exact Hk.
      * intros key' ps' k [<-|Hin] Hc Hs Hk.
        -- rewrite Hps in Hs. injection Hs as <-.
           apply Hown. simpl. apply keys_assign_all. left. exact Hk.
        -- apply (Hinl key' ps' k Hin); [rewrite Hcan; exact Hc|rewrite Hser; exact Hs|exact Hk].
    + destruct (IH h ord Hl Hrd Hne Hrefs)
        as (h' & P & Hrun & Hrd' & Hlen & Hoth & Hfrom & Hown & Hinl).
      { intros key' Hin Hc. apply Hforms; [right; exact Hin|exact Hc]. }
      exists h', P. split; [exact Hrun|]. split; [exact Hrd'|].
      split; [exact Hlen|]. split; [exact Hoth|]. split; [|split].
      * intros k v Hk. destruct (Hfrom k v Hk) as [Hacc|(key' & ps' & Hin & Hrest)].
        -- left. exact Hacc.
        -- right. exists key', ps'. split; [right; exact Hin|exact Hrest].
      * exact Hown.
      * intros key' ps' k [<-|Hin] Hc Hs Hk; [congruence|].
        apply (Hinl key' ps' k Hin Hc Hs Hk).
Qed.

Lemma canRead_designated h entity key :
  canReadSubRequestData h entity key = true <-> designated h entity key.
Proof.
  unfold canReadSubRequestData, designated.
  destruct (Store.instance_of h entity "PayIn"),
           (Store.instance_of h entity "PayOut"),
           (Store.instance_of h entity "BankAccount");
    destruct (String.eqb_spec key "PaymentDetails"),
             (String.eqb_spec key "ExecutionDetails"),
             (String.eqb_spec key "MeanOfPaymentDetails"),
             (String.eqb_spec key "Details");
    simpl; subst; intuition congruence.
Qed.

(** C2 (amended): for an entity whose designated sub-objects can be
    serialized, [buildRequestData] returns a fresh payload and leaves the
    entity as it is.  Every field of the payload is either an own field
    of the entity whose name is not read-only, or a field of the
    serialized form of a designated sub-object (a name the entity lists
    as read-only comes back this way when a sub-object serializes a field
    of that name); every own field that is not read-only is in the
    payload; and, for exactly the designated pairs, every field name of
    the sub-object's serialized form is at the top level of the payload. *)
Theorem buildRequestData_payload (h : heap) (l : loc) (o : object)
    (Hl : h !! l = Some o)
    (Hrefs : forall key s, Js.lookup key (props o) = Some (VObj s) -> (s < length h)%nat)
    (Hsubs : forall key, In key (Js.keys (props o)) -> designated h (VObj l) key ->
                         is_Some (serialized' h (VObj l) key)) :
  exists h' rd P,
    build' h (VObj l) = (h', inl (VObj rd))
    /\ h' !! rd = Some (plain P)
    /\ h' !! l = Some o
    /\ (forall k v, Js.lookup k P = Some v ->
          (Js.lookup k (props o) = Some v /\ ~ In k (getReadOnlyProperties o))
          \/ exists key ps, In key (Js.keys (props o))
               /\ designated h (VObj l) key
               /\ serialized' h (VObj l) key = Some ps /\ In (k, v) ps)
    /\ (forall k, In k (Js.keys (props o)) -> ~ In k (getReadOnlyProperties o) ->
                  In k (Js.keys P))
    /\ (forall key ps k, In key (Js.keys (props o)) ->
          designated h (VObj l) key ->
          serialized' h (VObj l) key = Some ps ->
          In k (Js.keys ps) -> In k (Js.keys P))
    /\ (forall key, canReadSubRequestData h (VObj l) key = true
                    <-> designated h (VObj l) key).
Proof.
  pose proof (lookup_lt_Some _ _ _ Hl) as Hlt.
  set (picked := pick (props o)
                   (difference (Js.keys (props o)) (getReadOnlyProperties o))).
  set (h1 := h ++ [plain picked]).
  assert (H1l : h1 !! l = Some o) by (apply lookup_app_l_Some; exact Hl).
  assert (H1rd : h1 !! length h = Some (plain picked))
    by (apply list_lookup_middle; reflexivity).
  assert (Hcan : forall key, canReadSubRequestData h1 (VObj l) key
                             = canReadSubRequestData h (VObj l) key)
    by (intros key; apply canRead_stable;
        transitivity (Some o); [exact H1l|symmetry; exact Hl]).
  assert (Hser : forall key, serialized' h1 (VObj l) key = serialized' h (VObj l) key).
  { intros key. apply (serialized_stable h h1 l o); auto.
    intros s Hs. subst h1. apply lookup_app_l. eapply Hrefs. exact Hs. }
  destruct (inline_subs_spec l o (length h) (Js.keys (props o)) h1 (plain picked))
    as (h' & P & Hrun & Hrd' & Hlen & Hoth & Hfrom & Hown & Hinl); auto.
  { lia. }
  { intros key s Hs. apply Hrefs in Hs. lia. }
  { intros key Hin Hc. rewrite Hser. rewrite Hcan in Hc.
    apply Hsubs; [exact Hin|apply canRead_designated; exact Hc]. }
  exists h', (length h), P.
  split.
  { unfold buildRequestData. rewrite Hl. unfold Store.alloc.
    fold picked. fold h1. rewrite Hrun. reflexivity. }
  split; [exact Hrd'|].
  split; [rewrite Hoth by lia; exact H1l|].
  split; [|split; [|split]].
  - intros k v Hk. destruct (Hfrom k v Hk) as [Hp|(key & ps & Hin & Hc & Hs & Hkv)].
    + left. simpl in Hp. subst picked. rewrite lookup_pick in Hp.
      destruct (existsb (String.eqb k) _) eqn:E; [|discriminate].
      apply existsb_eqb_In, difference_In in E. tauto.
    + right. exists key, ps. rewrite Hcan in Hc. rewrite Hser in Hs.
      split; [exact Hin|]. split; [apply canRead_designated; exact Hc|]. auto.
  - intros k Hk Hro. apply Hown. simpl. subst picked.
    destruct (In_keys_lookup _ _ Hk) as [v Hv].
    apply (lookup_keys k v). rewrite lookup_pick.
    assert (existsb (String.eqb k)
              (difference (Js.keys (props o)) (getReadOnlyProperties o)) = true) as ->
      by (apply existsb_eqb_In, difference_In; tauto).
    exact Hv.
  - intros key ps k Hin Hd Hs Hk.
    apply (Hinl key ps k Hin); [rewrite Hcan; apply canRead_designated; exact Hd
                               |rewrite Hser; exact Hs|exact Hk].
  - intros key. apply canRead_designated.
Qed.

End BuildFacts.

(** C2, witness: a pay-in with a card payment-details sub-object. *)
Lemma buildRequestData_payload_witness :
  let card := mkObject ["PayInPaymentDetailsCard"; "Model"] false
                [("CardType", VStr "CB_VISA_MASTERCARD"); ("CardId", VStr "c9")] in
  let payIn := mkObject ["PayIn"; "EntityBase"; "Model"] false
                 [("Id", VNull); ("Tag", VStr "t"); ("PaymentDetails", VObj 0%nat)] in
  exists h' rd P,
    Sdk.buildRequestData [card; payIn] (VObj 1%nat) = (h', inl (VObj rd))
    /\ h' !! rd = Some (plain P)
    /\ Js.keys P = ["Tag"; "PaymentDetails"; "CardType"; "CardId"].
Proof.
  intros card payIn.
  destruct (buildRequestData_payload Sdk.getReadOnlyProperties Sdk.toJSON
              [card; payIn] 1%nat payIn eq_refl)
    as (h' & rd & P & Hrun & Hrd & _).
  - intros key s H. apply lookup_Some_In in H.
    destruct H as [H|[H|[H|[]]]]; inversion H. simpl. lia.
  - intros key Hin [[_ [->| ->]]|[[H _]|[H _]]]; try discriminate H.
    + eexists. reflexivity.
    + simpl in Hin. intuition discriminate.
  - exists h', rd, P. split; [exact Hrun|]. split; [exact Hrd|].
    vm_compute in Hrun. injection Hrun as <- <-.
    vm_compute in Hrd. injection Hrd as <-. reflexivity.
Defined.

(** C2, counterexample: the payment-details sub-object serializes a field
    named [Id], which is in the read-only set of the pay-in; the payload
    carries it at its top level. *)
Lemma buildRequestData_read_only_inlined :
  let details := mkObject ["PayInPaymentDetails"; "Model"] false
                   [("Id", VStr "card-1"); ("CardId", VStr "c9")] in
  let payIn := mkObject ["PayIn"; "EntityBase"; "Model"] false
                 [("Id", VNull); ("Tag", VStr "t"); ("PaymentDetails", VObj 0%nat)] in
  In "Id" (Sdk.getReadOnlyProperties payIn)
  /\ exists h' rd P,
       Sdk.buildRequestData [details; payIn] (VObj 1%nat) = (h', inl (VObj rd))
       /\ h' !! rd = Some (plain P)
       /\ Js.lookup "Id" P = Some (VStr "card-1").
Proof.
  intros details payIn. split; [left; reflexivity|].
  do 3 eexists. split; [reflexivity|]. split; reflexivity.
Qed.

(** ** The merge of the request options *)

Section MergeFacts.

Lemma keys_assign_eq k v ps :
  In k (Js.keys ps) -> Js.keys (Js.assign k v ps) = Js.keys ps.
Proof.
  induction ps as [|[k0 v0] ps IH]; simpl; [tauto|].
  destruct (k0 =? k)%string eqn:E.
  - apply String.eqb_eq in E. subst. reflexivity.
  - apply String.eqb_neq in E. intros [H|H]; [congruence|].
    simpl. rewrite IH by exact H. reflexivity.
Qed.

Lemma keys_assign_new k v ps :
  ~ In k (Js.keys ps) -> Js.keys (Js.assign k v ps) = Js.keys ps ++ [k].
Proof.
  induction ps as [|[k0 v0] ps IH]; simpl; [reflexivity|].
  destruct (k0 =? k)%string eqn:E.
  - apply String.eqb_eq in E. subst. tauto.
  - intros H. simpl. rewrite IH by tauto. reflexivity.
Qed.

Lemma assign_NoDup k v ps : NoDup (Js.keys ps) -> NoDup (Js.keys (Js.assign k v ps)).
Proof.
  intros H. destruct (in_dec string_dec k (Js.keys ps)) as [Hin|Hin].
  - rewrite keys_assign_eq by exact Hin. exact H.
  - rewrite keys_assign_new by exact Hin.
    apply NoDup_app. split; [exact H|]. split.
    + intros x Hx [->|[]]%list_elem_of_In. apply Hin, list_elem_of_In, Hx.
    + apply NoDup_singleton.
Qed.

Lemma assign_all_NoDup src : forall dst,
  NoDup (Js.keys dst) -> NoDup (Js.keys (Store.assign_all src dst)).
Proof.
  unfold Store.assign_all.
  induction src as [|[k v] src IH]; intros dst H; simpl; [exact H|].
  apply IH, assign_NoDup, H.
Qed.

Lemma lookup_rev_NoDup k ps :
  NoDup (Js.keys ps) -> Js.lookup k (rev ps) = Js.lookup k ps.
Proof.
  induction ps as [|[k0 v0] ps IH]; intros H; simpl; [reflexivity|].
  apply NoDup_cons in H as [Hnot H]. rewrite lookup_app, IH by exact H. simpl.
  destruct (k0 =? k)%string eqn:E.
  - apply String.eqb_eq in E. subst.
    destruct (Js.lookup k ps) eqn:L; [|reflexivity].
    exfalso. apply Hnot, list_elem_of_In. simpl. eapply lookup_keys. exact L.
  - destruct (Js.lookup k ps); reflexivity.
Qed.

(** After [_.extend] with a well-keyed source, a key reads as the source
    has it, and as before when the source lacks it. *)
Lemma lookup_extend k src dst :
  NoDup (Js.keys src) ->
  Js.lookup k (Store.assign_all src dst)
  = match Js.lookup k src with Some v => Some v | None => Js.lookup k dst end.
Proof. intros H. rewrite lookup_assign_all, lookup_rev_NoDup by exact H. reflexivity. Qed.

Lemma entries_old h h' v :
  allocated h v -> (forall x o, h !! x = Some o -> h' !! x = Some o) ->
  Store.entries h' v = Store.entries h v.
Proof.
  intros Ha Hk. destruct v; try reflexivity. simpl in *.
  destruct (lookup_lt_is_Some_2 h l Ha) as [o Ho]. pose proof (Hk _ _ Ho) as Ho'.
  unfold heap in *. rewrite Ho, Ho'. reflexivity.
Qed.

(** [_.extend({}, a, b)]: a fresh table holding the properties of [a]
    overlaid with those of [b]; nothing else changes. *)
Lemma extend_fresh_spec h a b :
  allocated h a -> allocated h b ->
  fst (Store.extend_fresh h a b) = length h
  /\ snd (Store.extend_fresh h a b) !! length h
     = Some (plain (Store.assign_all (Store.entries h b)
                      (Store.assign_all (Store.entries h a) [])))
  /\ length (snd (Store.extend_fresh h a b)) = S (length h)
  /\ (forall x o, h !! x = Some o -> snd (Store.extend_fresh h a b) !! x = Some o).
Proof.
  intros Ha Hb. unfold Store.extend_fresh, Store.alloc, Store.extend.
  set (h0 := h ++ [plain []]).
  assert (H0 : h0 !! length h = Some (plain [])) by (apply list_lookup_middle; reflexivity).
  assert (Hk0 : forall x o, h !! x = Some o -> h0 !! x = Some o)
    by (intros x o Hx; apply lookup_app_l_Some; exact Hx).
  rewrite (entries_old h h0 a Ha Hk0).
  set (h1 := Store.extend_props h0 (VObj (length h)) (Store.entries h a)).
  assert (H1 : h1 !! length h
               = Some (plain (Store.assign_all (Store.entries h a) [])))
    by (subst h1; rewrite (extend_props_target _ _ _ _ H0); reflexivity).
  assert (Hk1 : forall x o, h !! x = Some o -> h1 !! x = Some o).
  { intros x o Hx. subst h1. rewrite extend_props_other; [auto|].
    intros [= E]. apply lookup_lt_Some in Hx. lia. }
  rewrite (entries_old h h1 b Hb Hk1). cbn [fst snd].
  split; [reflexivity|]. split; [|split].
  - rewrite (extend_props_target _ _ _ _ H1). reflexivity.
  - subst h1. rewrite !extend_props_length. subst h0. rewrite length_app. simpl. lia.
  - intros x o Hx. rewrite extend_props_other; [auto|].
    intros [= E]. apply lookup_lt_Some in Hx. lia.
Qed.

(** [mergeTables] writes the target table only. *)
Lemma mergeTables_other h key requestOptions self_options options x :
  read h requestOptions key <> VObj x ->
  mergeTables h key requestOptions self_options options !! x = h !! x.
Proof.
  intros Ht. unfold mergeTables, Store.extend.
  rewrite !extend_props_other by exact Ht. reflexivity.
Qed.

(** When the target is the caller's own table, the defaults are copied
    over it and the copy of the table onto itself changes nothing that
    can be read. *)
Lemma mergeTables_target h key requestOptions self_options options t d ot od :
  read h requestOptions key = VObj t ->
  read h options key = VObj t ->
  read h self_options key = VObj d ->
  h !! t = Some ot -> h !! d = Some od -> t <> d ->
  well_keyed ot -> well_keyed od ->
  exists P,
    mergeTables h key requestOptions self_options options !! t
    = Some (Store.with_props ot P)
    /\ forall k, Js.lookup k P
                 = match Js.lookup k (props od) with
                   | Some v => Some v
                   | None => Js.lookup k (props ot)
                   end.
Proof.
  intros Ht Hc Hd Hot Hod Hne Kt Kd. unfold mergeTables. rewrite Ht, Hc, Hd.
  set (P1 := Store.assign_all (props od) (props ot)).
  assert (E1 : Store.entries h (VObj d) = props od)
    by (unfold Store.entries, heap in *; rewrite Hod; reflexivity).
  assert (H1 : Store.extend h (VObj t) (VObj d) !! t = Some (Store.with_props ot P1))
    by (unfold Store.extend; rewrite E1; apply extend_props_target; exact Hot).
  set (h1 := Store.extend h (VObj t) (VObj d)) in *.
  assert (E2 : Store.entries h1 (VObj t) = P1)
    by (unfold Store.entries, heap in *; rewrite H1; reflexivity).
  exists (Store.assign_all P1 P1). split.
  - unfold Store.extend. rewrite E2.
    rewrite (extend_props_target _ _ _ _ H1). reflexivity.
  - intros k.
    assert (K1 : NoDup (Js.keys P1)) by (apply assign_all_NoDup; exact Kt).
    rewrite (lookup_extend k P1 P1 K1).
    replace (match Js.lookup k P1 with Some v => Some v | None => Js.lookup k P1 end)
      with (Js.lookup k P1) by (destruct (Js.lookup k P1); reflexivity).
    apply lookup_extend. exact Kd.
Qed.

Lemma read_object h l o k :
  h !! l = Some o -> read h (VObj l) k = default VUndef (Js.lookup k (props o)).
Proof. intros H. unfold read. simpl. rewrite H. reflexivity. Qed.

(** C3 (amended): when the caller supplies a headers table, the request
    is sent with that very table.  If the table carries no Content-Type,
    the defaults are first copied over it: every default header
    (Authorization among them) is sent with the default's value and the
    caller's other headers are kept, so such a table cannot blank or
    replace the Authorization header.  If the table carries a
    Content-Type, it is sent as it is, in place of the defaults. *)
Theorem merged_headers (w : world) (options custom hl : loc) (oR oo oc oh : object)
    (HR : store w !! self_requestOptions w = Some oR)
    (Hh : Js.lookup "headers" (props oR) = Some (VObj hl))
    (Hhl : store w !! hl = Some oh)
    (HO : store w !! options = Some oo)
    (Hc : Js.lookup "headers" (props oo) = Some (VObj custom))
    (Hcl : store w !! custom = Some oc)
    (Hne : custom <> hl /\ custom <> options /\ custom <> self_requestOptions w)
    (Hpath : forall pl, Js.lookup "path" (props oo) = Some (VObj pl) ->
                        pl <> custom /\ (pl < length (store w))%nat)
    (Hkeys : well_keyed oo /\ well_keyed oc /\ well_keyed oh) :
  let r := mergeRequestOptions (VObj options) w in
  let sent := requestHeaders (store (snd r)) (VObj (fst r)) in
  read (store (snd r)) (VObj (fst r)) "headers" = VObj custom
  /\ (default VUndef (Js.lookup "Content-Type" (props oc)) = VUndef ->
      (forall k v, Js.lookup k (props oh) = Some v -> Js.lookup k sent = Some v)
      /\ (forall k, Js.lookup k (props oh) = None ->
                    Js.lookup k sent = Js.lookup k (props oc)))
  /\ (default VUndef (Js.lookup "Content-Type" (props oc)) <> VUndef ->
      sent = props oc).
Proof.
  destruct Hne as (Hn1 & Hn2 & Hn3). destruct Hkeys as (Ko & Kc & Kh).
  intros r sent. subst sent r. unfold mergeRequestOptions.
  set (h := store w) in *.
  pose proof (lookup_lt_Some _ _ _ HR) as LR.
  pose proof (lookup_lt_Some _ _ _ HO) as LO.
  pose proof (lookup_lt_Some _ _ _ Hcl) as LC.
  destruct (extend_fresh_spec h (VObj (self_requestOptions w)) (VObj options) LR LO)
    as (Hq & Hqo & Hlen & Hkept).
  destruct (Store.extend_fresh h (VObj (self_requestOptions w)) (VObj options))
    as [q h1]. simpl in Hq, Hqo, Hlen, Hkept. subst q.
  rewrite HR, HO in Hqo.
  set (Qp := Store.assign_all (props oo) (Store.assign_all (props oR) [])) in Hqo.
  assert (HQh : Js.lookup "headers" Qp = Some (VObj custom))
    by (subst Qp; rewrite lookup_extend by exact Ko; rewrite Hc; reflexivity).
  assert (HQp : Js.lookup "path" Qp
                = match Js.lookup "path" (props oo) with
                  | Some v => Some v
                  | None => Js.lookup "path" (Store.assign_all (props oR) [])
                  end)
    by (subst Qp; apply lookup_extend; exact Ko).
  assert (R1 : read h1 (VObj options) "headers" = VObj custom)
    by (rewrite (read_object _ _ _ _ (Hkept _ _ HO)), Hc; reflexivity).
  assert (R2 : read h1 (VObj (length h)) "headers" = VObj custom)
    by (rewrite (read_object _ _ _ _ Hqo); simpl; rewrite HQh; reflexivity).
  assert (R3 : read h1 (VObj (self_requestOptions w)) "headers" = VObj hl)
    by (rewrite (read_object _ _ _ _ (Hkept _ _ HR)), Hh; reflexivity).
  assert (R4 : read h1 (VObj custom) "Content-Type"
               = default VUndef (Js.lookup "Content-Type" (props oc)))
    by (apply read_object, Hkept, Hcl).
  rewrite R1, R4. simpl Js.truthy. simpl andb.
  (* the store after the merge of the headers *)
  match goal with |- context [set_store ?x w] =>
    match x with (if _ then _ else ?y) => set (h2 := y) end end.
  assert (H2 : exists X, h2 !! custom = Some X
             /\ h2 !! length h = Some (plain Qp) /\ h2 !! options = Some oo
             /\ (default VUndef (Js.lookup "Content-Type" (props oc)) = VUndef ->
                   forall k, Js.lookup k (props X)
                             = match Js.lookup k (props oh) with
                               | Some v => Some v
                               | None => Js.lookup k (props oc)
                               end)
             /\ (default VUndef (Js.lookup "Content-Type" (props oc)) <> VUndef ->
                   X = oc)).
  { subst h2.
    destruct (default VUndef (Js.lookup "Content-Type" (props oc))) eqn:CT;
      simpl is_undefined; cbv iota;
      try (exists oc; split; [apply Hkept, Hcl|]; split; [exact Hqo|];
           split; [apply Hkept, HO|]; split; [discriminate|reflexivity]).
    destruct (mergeTables_target h1 "headers" (VObj (length h))
                (VObj (self_requestOptions w)) (VObj options) custom hl oc oh
                R2 R1 R3 (Hkept _ _ Hcl) (Hkept _ _ Hhl) Hn1 Kc Kh) as (P & HP & HPk).
    eexists. split; [exact HP|].
    split; [rewrite mergeTables_other by (rewrite R2; intros [= E]; lia); exact Hqo|].
    split; [rewrite mergeTables_other by (rewrite R2; congruence); apply Hkept, HO|].
    split; [intros _; exact HPk|congruence]. }
  destruct H2 as (X & HX & H2q & H2o & HXa & HXb).
  (* the merge of the paths leaves these three objects *)
  assert (H3 : forall x, x = custom \/ x = length h ->
             (if Js.truthy (VObj options) && Js.truthy (read h2 (VObj options) "path")
              then mergeTables h2 "path" (VObj (length h))
                     (VObj (self_requestOptions w)) (VObj options)
              else h2) !! x = h2 !! x).
  { intros x Hx.
    destruct (Js.truthy (VObj options) && Js.truthy (read h2 (VObj options) "path")) eqn:T;
      [|reflexivity].
    apply mergeTables_other.
    rewrite (read_object _ _ _ _ H2o) in T. simpl in T.
    rewrite (read_object _ _ _ _ H2q). simpl. rewrite HQp.
    destruct (Js.lookup "path" (props oo)) as [pv|] eqn:Pv; [|discriminate T].
    simpl. intros ->. destruct (Hpath x eq_refl) as [Hp1 Hp2].
    destruct Hx as [->| ->]; [congruence|lia]. }
  cbn [fst snd store set_store].
  assert (Hsent : forall h3, h3 !! custom = Some X -> h3 !! length h = Some (plain Qp) ->
            read h3 (VObj (length h)) "headers" = VObj custom
            /\ requestHeaders h3 (VObj (length h)) = props X).
  { intros h3 E1 E2. unfold requestHeaders, read. simpl. rewrite E2. simpl.
    rewrite HQh. simpl. rewrite E1. split; reflexivity. }
  destruct (Hsent _ (eq_trans (H3 custom (or_introl eq_refl)) HX)
                    (eq_trans (H3 (length h) (or_intror eq_refl)) H2q)) as [S1 S2].
  cbn [Js.truthy andb] in S1, S2.
  split; [exact S1|]. rewrite S2. split.
  - intros CT. split.
    + intros k v Hk. rewrite (HXa CT), Hk. reflexivity.
    + intros k Hk. rewrite (HXa CT), Hk. reflexivity.
  - intros CT. rewrite (HXb CT). reflexivity.
Qed.

End MergeFacts.

(** ** More on the rate-limit snapshot *)

Section SnapshotFacts.

Variable Number : string -> jsnum.

Lemma touch_interval f hv i r :
  minutesInterval (touch Number f hv i r) = minutesInterval r.
Proof.
  destruct (touch_cases Number f hv i) as [K|[x K]]; rewrite K;
    [reflexivity|destruct f; reflexivity].
Qed.

Lemma effect_interval v1 v2 v3 n i r :
  minutesInterval (effect Number v1 v2 v3 n i r) = minutesInterval r.
Proof.
  unfold effect. destruct (header_ok v1 n); [destruct (header_ok v2 n)|];
    rewrite ?touch_interval; reflexivity.
Qed.

Lemma read_headers_intervals h headers rl :
  map minutesInterval (fst (read_headers Number h headers rl)) = map minutesInterval rl.
Proof.
  destruct (Store.get h headers "x-ratelimit") as [v1|] eqn:H1.
  - destruct (Store.get h headers "x-ratelimit-remaining") as [v2|] eqn:H2;
      [|rewrite (get_none _ _ _ "x-ratelimit" H2) in H1; discriminate].
    destruct (Store.get h headers "x-ratelimit-reset") as [v3|] eqn:H3;
      [|rewrite (get_none _ _ _ "x-ratelimit" H3) in H1; discriminate].
    rewrite (read_headers_imap Number _ _ _ _ _ _ H1 H2 H3).
    apply list_eq; intros i. rewrite !list_lookup_fmap, list_lookup_imap.
    destruct (rl !! i); simpl; [rewrite effect_interval|]; reflexivity.
  - rewrite read_headers_none by assumption. reflexivity.
Qed.

Lemma snapshot_intervals w :
  snapshot Number w ->
  map minutesInterval (ensureRateLimits (rateLimits w)) = intervals.
Proof.
  induction 1 as [w H|w headers Hw IH].
  - rewrite H. reflexivity.
  - rewrite setRateLimits_snapshot.
    assert (Hne : forall rl, map minutesInterval rl = intervals ->
                    ensureRateLimits (Some rl) = rl).
    { intros [|r rl] E.
      - cbv in E. discriminate E.
      - reflexivity. }
    match goal with |- map _ (ensureRateLimits (Some ?X)) = _ =>
      assert (HX : map minutesInterval X = intervals)
        by (destruct headers; rewrite ?read_headers_intervals; exact IH);
      rewrite (Hne _ HX); exact HX
    end.
Qed.

(** X1: whatever headers the responses carried, after an update the
    snapshot has exactly four windows, whose intervals are 15, 30, 60 and
    1440 minutes in this order: the update never adds, drops, reorders or
    relabels a window. *)
Theorem setRateLimits_intervals (w : world) (headers : value)
    (Hw : snapshot Number w) :
  map minutesInterval <$> rateLimits (setRateLimits Number w headers) = Some intervals.
Proof.
  pose proof (snapshot_intervals w Hw) as H.
  rewrite setRateLimits_snapshot. simpl. f_equal.
  destruct headers; rewrite ?read_headers_intervals; exact H.
Qed.

Lemma component_of_get h headers name i hv :
  Store.get h headers name = Some hv -> parsable hv = true ->
  component Number h headers name i
  = Some (match hv with
          | VStr s => Some (element (map Number (Js.split ", " s)) i)
          | _ => None
          end).
Proof.
  intros G P. unfold component.
  destruct headers; try discriminate G; rewrite G;
    destruct hv; try discriminate P; reflexivity.
Qed.

Lemma read_by_component f c1 c2 c3 r :
  read_field f (by_component ResetTimeMillis c3
                  (by_component CallsRemaining c2 (by_component CallsMade c1 r)))
  = default (read_field f r)
      (match f with
       | CallsMade => c1
       | CallsRemaining => c2
       | ResetTimeMillis => c3
       end).
Proof. destruct f, c1, c2, c3, r; reflexivity. Qed.

(** X2: on a snapshot the dispatcher can hold, and for response headers
    whose three rate-limit entries are strings or absent, a header that is
    present puts in the field of window [i] the number its [i]-th
    component converts to; when the header has too few components the
    field becomes [undefined] instead of keeping its value. *)
Theorem setRateLimits_field (w : world) (headers : value) (f : field) (i : nat)
    (s : string)
    (Hw : snapshot Number w)
    (Hall : forall g, exists hv,
        Store.get (store w) headers (header_name g) = Some hv /\ parsable hv = true)
    (Hs : Store.get (store w) headers (header_name f) = Some (VStr s))
    (Hi : (i < 4)%nat) :
  read_field f <$> window (setRateLimits Number w headers) i
  = Some (element (map Number (Js.split ", " s)) i)
  /\ ((length (Js.split ", " s) <= i)%nat ->
      read_field f <$> window (setRateLimits Number w headers) i = Some VUndef).
Proof.
  destruct (Hall CallsMade) as (v1 & G1 & P1).
  destruct (Hall CallsRemaining) as (v2 & G2 & P2).
  destruct (Hall ResetTimeMillis) as (v3 & G3 & P3).
  simpl in G1, G2, G3.
  pose proof (snapshot_four Number w Hw) as H4.
  pose proof (ensure_four w H4) as Hlen.
  rewrite (window_by_component Number w headers i _ _ _ H4
             (component_of_get _ _ _ i _ G1 P1)
             (component_of_get _ _ _ i _ G2 P2)
             (component_of_get _ _ _ i _ G3 P3)).
  destruct (lookup_lt_is_Some_2 (ensureRateLimits (rateLimits w)) i) as [r0 Hr0];
    [rewrite Hlen; exact Hi|].
  rewrite Hr0. simpl. rewrite read_by_component.
  assert (E : read_field f r0 = read_field f r0) by reflexivity.
  assert (Hval : default (read_field f r0)
                   match f with
                   | CallsMade =>
                       match v1 with
                       | VStr s0 => Some (element (map Number (Js.split ", " s0)) i)
                       | _ => None
                       end
                   | CallsRemaining =>
                       match v2 with
                       | VStr s0 => Some (element (map Number (Js.split ", " s0)) i)
                       | _ => None
                       end
                   | ResetTimeMillis =>
                       match v3 with
                       | VStr s0 => Some (element (map Number (Js.split ", " s0)) i)
                       | _ => None
                       end
                   end
                 = element (map Number (Js.split ", " s)) i).
  { destruct f; simpl in Hs;
      [rewrite G1 in Hs|rewrite G2 in Hs|rewrite G3 in Hs];
      injection Hs as ->; reflexivity. }
  rewrite Hval. split; [reflexivity|].
  intros Hshort. f_equal. unfold element.
  rewrite lookup_ge_None_2; [reflexivity|]. rewrite length_map. exact Hshort.
Qed.

Lemma read_headers_ok h headers rl v1 v2 v3 :
  Store.get h headers "x-ratelimit" = Some v1 ->
  Store.get h headers "x-ratelimit-remaining" = Some v2 ->
  Store.get h headers "x-ratelimit-reset" = Some v3 ->
  snd (read_headers Number h headers rl)
  = header_ok v1 (length rl) && header_ok v2 (length rl) && header_ok v3 (length rl).
Proof.
  intros H1 H2 H3. unfold read_headers. rewrite H1, read_header_imap.
  destruct (header_ok v1 (length rl)); simpl; [|reflexivity].
  rewrite H2, read_header_imap, length_imap.
  destruct (header_ok v2 (length rl)); simpl; [|reflexivity].
  rewrite H3, read_header_imap, !length_imap. reflexivity.
Qed.

Lemma header_ok_four hv : header_ok hv 4 = parsable hv.
Proof. destruct hv; reflexivity. Qed.

(** X3: on a snapshot the dispatcher can hold, an update writes the
    parse-failure line to the console exactly when one of the three
    rate-limit entries of the headers is neither absent nor a string, and
    never otherwise; when the first entry is the malformed one, no window
    changes, whatever the two other headers carry. *)
Theorem setRateLimits_parse_failure (w : world) (headers v1 v2 v3 : value)
    (Hw : snapshot Number w)
    (G1 : Store.get (store w) headers "x-ratelimit" = Some v1)
    (G2 : Store.get (store w) headers "x-ratelimit-remaining" = Some v2)
    (G3 : Store.get (store w) headers "x-ratelimit-reset" = Some v3) :
  trace (setRateLimits Number w headers)
  = trace w ++ (if parsable v1 && parsable v2 && parsable v3 then [] else [parse_failure])
  /\ (parsable v1 = false ->
      rateLimits (setRateLimits Number w headers)
      = Some (ensureRateLimits (rateLimits w))).
Proof.
  pose proof (ensure_four w (snapshot_four Number w Hw)) as Hlen.
  pose proof (read_headers_ok (store w) headers (ensureRateLimits (rateLimits w))
                v1 v2 v3 G1 G2 G3) as Hok.
  pose proof (read_headers_imap Number (store w) headers
                (ensureRateLimits (rateLimits w)) v1 v2 v3 G1 G2 G3) as Hfst.
  rewrite Hlen, !header_ok_four in Hok. rewrite Hlen in Hfst.
  split.
  - unfold setRateLimits.
    destruct headers; try discriminate G1;
      destruct (read_headers Number _ _ _) as [rl' ok]; simpl in Hok; subst ok;
      destruct (parsable v1 && parsable v2 && parsable v3); simpl;
      rewrite ?app_nil_r; reflexivity.
  - intros P1. rewrite setRateLimits_snapshot. f_equal.
    assert (Hid : fst (read_headers Number (store w) headers
                         (ensureRateLimits (rateLimits w)))
                  = ensureRateLimits (rateLimits w)).
    { rewrite Hfst. apply imap_keep. intros i r. unfold effect.
      rewrite header_ok_four, P1. destruct v1; try discriminate P1; reflexivity. }
    destruct headers; try discriminate G1; exact Hid.
Qed.

End SnapshotFacts.

(** X1, witness: a fresh client and a response whose headers are [null]. *)
Lemma setRateLimits_intervals_witness :
  snapshot NumberLiteral.Number (Sdk.Api 0 [])
  /\ map minutesInterval <$> rateLimits (Sdk.setRateLimits (Sdk.Api 0 []) VNull)
     = Some intervals.
Proof.
  assert (Hw : snapshot NumberLiteral.Number (Sdk.Api 0 []))
    by (apply snapshot_new; reflexivity).
  split; [exact Hw|].
  exact (setRateLimits_intervals NumberLiteral.Number (Sdk.Api 0 []) VNull Hw).
Defined.

(** X2, witness: the header [x-ratelimit: 7] on a fresh client leaves the
    third window without a calls-made value. *)
Lemma setRateLimits_field_witness :
  let o := Sdk.with_object (plain [("x-ratelimit", VStr "7")]) (Sdk.Api 0 []) in
  snapshot NumberLiteral.Number (snd o)
  /\ read_field CallsMade <$> window (Sdk.setRateLimits (snd o) (fst o)) 2 = Some VUndef.
Proof.
  intros o.
  assert (Hw : snapshot NumberLiteral.Number (snd o))
    by (apply snapshot_new; reflexivity).
  split; [exact Hw|].
  refine (proj2 (setRateLimits_field NumberLiteral.Number (snd o) (fst o)
                   CallsMade 2 "7" Hw _ eq_refl _) _).
  - intros g. destruct g; eexists; split; reflexivity.
  - lia.
  - vm_compute. lia.
Defined.

(** X3, witness: an [x-ratelimit] header delivered as an array. *)
Lemma setRateLimits_parse_failure_witness :
  let o := Sdk.with_object
             (plain [("x-ratelimit", VObj 0%nat); ("x-ratelimit-reset", VStr "1, 2, 3, 4")])
             (Sdk.Api 0 []) in
  snapshot NumberLiteral.Number (snd o)
  /\ trace (Sdk.setRateLimits (snd o) (fst o)) = [parse_failure]
  /\ rateLimits (Sdk.setRateLimits (snd o) (fst o)) = Some initialRateLimits.
Proof.
  intros o.
  assert (Hw : snapshot NumberLiteral.Number (snd o))
    by (apply snapshot_new; reflexivity).
  split; [exact Hw|].
  destruct (setRateLimits_parse_failure NumberLiteral.Number (snd o) (fst o)
              (VObj 0%nat) VUndef (VStr "1, 2, 3, 4") Hw eq_refl eq_refl eq_refl)
    as [Ht Hr].
  split; [exact Ht|exact (Hr eq_refl)].
Defined.

(** ** More on [authorize] *)

Section TokenFacts.

Variable Number : string -> jsnum.
Variable ObjectToString : heap -> loc -> string.
Variable clientId : string.
Variable clientApiKey : string.

Local Abbreviation authorize' := (authorize Number ObjectToString clientId clientApiKey).
Local Abbreviation authorized' := (authorized Number ObjectToString).
Local Abbreviation request' := (authorize_request clientId clientApiKey).
Local Abbreviation isExpired' := (isExpired Number ObjectToString).

(** The headers of the token request. *)
Lemma request_headers w oR hl oh :
  store w !! self_requestOptions w = Some oR ->
  Js.lookup "headers" (props oR) = Some (VObj hl) ->
  store w !! hl = Some oh ->
  trace (request' w)
  = trace w ++ [EAuthRequest
                  (Store.assign_all
                     [("Authorization", VStr (_getBasicAuthHash clientId clientApiKey));
                      ("Content-Type", form_urlencoded)]
                     (Store.assign_all (props oh) []))].
Proof.
  intros HR Hh Hl. unfold authorize_request, Store.alloc.
  cbv beta iota zeta. cbn [trace emit set_store store]. do 3 f_equal.
  set (h := store w) in *.
  pose proof (lookup_lt_Some _ _ _ Hl) as Ll.
  assert (D : default VUndef (Store.get h (VObj (self_requestOptions w)) "headers")
              = VObj hl)
    by (unfold Store.get, heap in *; rewrite HR, Hh; reflexivity).
  rewrite D.
  set (h2 := (h ++ [plain []]) ++ [plain []]).
  assert (L2 : length (h ++ [plain []]) = S (length h))
    by (rewrite length_app; simpl; lia).
  assert (H2 : h2 !! length (h ++ [plain []]) = Some (plain []))
    by (apply list_lookup_middle; reflexivity).
  assert (E2 : Store.entries h2 (VObj hl) = props oh).
  { unfold Store.entries. subst h2.
    rewrite <- app_assoc, (lookup_app_l_Some _ _ _ _ Hl). reflexivity. }
  unfold Store.extend at 2. rewrite E2.
  set (h3 := Store.extend_props h2 _ (props oh)).
  assert (H3 : h3 !! length (h ++ [plain []])
               = Some (plain (Store.assign_all (props oh) [])))
    by (subst h3; rewrite (extend_props_target _ _ _ _ H2); reflexivity).
  match goal with |- context [Store.extend_props h3 ?t ?src] =>
    set (h4 := Store.extend_props h3 t src);
    assert (H4 : h4 !! length (h ++ [plain []])
                 = Some (plain (Store.assign_all src (Store.assign_all (props oh) []))))
      by (subst h4; rewrite (extend_props_target _ _ _ _ H3); reflexivity)
  end.
  unfold Store.entries, Store.extend.
  rewrite !extend_props_other by (intros [= E]; lia).
  unfold heap in *. rewrite H4. reflexivity.
Qed.

(** X4: the token request always carries the Basic credentials built from
    the client id and the API key, and the form content type, in place of
    whatever Authorization and Content-Type the defaults hold at that
    moment (a bearer token already stored, for instance); the other
    default headers are sent as they are.  It is the first thing
    [authorize] does. *)
Theorem authorize_request_headers (cb : value) (w : world) (oR oh : object) (hl : loc)
    (HR : store w !! self_requestOptions w = Some oR)
    (Hh : Js.lookup "headers" (props oR) = Some (VObj hl))
    (Hl : store w !! hl = Some oh)
    (Hk : well_keyed oh) :
  exists hs tail,
    trace (snd (authorize' cb w)) = trace w ++ EAuthRequest hs :: tail
    /\ Js.lookup "Authorization" hs
       = Some (VStr ("Basic " +:+ Base64.encode (clientId +:+ ":" +:+ clientApiKey)))
    /\ Js.lookup "Content-Type" hs = Some form_urlencoded
    /\ (forall k, k <> "Authorization" -> k <> "Content-Type" ->
                  Js.lookup k hs = Js.lookup k (props oh))
    /\ (tail = [] \/ exists f data, cb = VFun f /\ tail = [ECallback f [data]]).
Proof.
  pose proof (request_headers w oR hl oh HR Hh Hl) as Ht.
  eexists. 
  assert (Htail : exists tail,
            trace (snd (authorize' cb w)) = trace (request' w) ++ tail
            /\ (tail = [] \/ exists f data, cb = VFun f /\ tail = [ECallback f [data]])).
  { assert (Hnil : forall w', trace w' = trace (request' w) ->
              exists tail, trace w' = trace (request' w) ++ tail
                /\ (tail = [] \/ exists f data, cb = VFun f /\ tail = [ECallback f [data]]))
      by (intros w' E; exists []; rewrite app_nil_r; auto).
    unfold authorize, receive.
    destruct (network (request' w)) as [|[t m|t st hd body] rest];
      [apply Hnil; reflexivity|apply Hnil; reflexivity|].
    cbn [store]. destruct (Store.alloc_json body (store (request' w))) as [data h].
    unfold authorized.
    destruct (Store.get _ data "token_type") as [tt|]; [|apply Hnil; reflexivity].
    destruct (Store.get _ data "access_token") as [at_|]; [|apply Hnil; reflexivity].
    destruct (Store.get _ data "expires_in") as [ei|]; [|apply Hnil; reflexivity].
    destruct (Js.truthy tt && Js.truthy at_); [|apply Hnil; reflexivity].
    destruct cb; try (apply Hnil; reflexivity).
    exists [ECallback name [data]]. split; [reflexivity|]. right. eauto. }
  destruct Htail as (tail & Htr & Hcases).
  exists tail. rewrite Htr, Ht, <- app_assoc. split; [reflexivity|].
  split; [|split; [|split; [|exact Hcases]]].
  - rewrite lookup_assign_all. reflexivity.
  - rewrite lookup_assign_all. reflexivity.
  - intros k K1 K2. rewrite lookup_assign_all. cbn [rev app Js.lookup].
    apply String.eqb_neq in K1, K2.
    rewrite String.eqb_sym in K1. rewrite String.eqb_sym in K2. rewrite K1, K2.
    rewrite lookup_extend by exact Hk. destruct (Js.lookup k (props oh)); reflexivity.
Qed.

(** [authorize] on an answered token request: the response callback runs
    on the decoded body, in a world that kept everything it had. *)
Lemma authorize_response cb w t status headers body rest data h :
  network w = Response t status headers body :: rest ->
  Store.alloc_json body (store (request' w)) = (data, h) ->
  exists w2,
    authorize' cb w = authorized' cb data w2
    /\ store w2 = h /\ now w2 = t /\ store_kept w w2
    /\ authorizationExpireTime w2 = authorizationExpireTime w
    /\ network w2 = rest /\ trace w2 = trace (request' w).
Proof.
  intros Hnet Halloc. unfold authorize, receive.
  destruct (request_fields clientId clientApiKey w) as (-> & _ & _). rewrite Hnet.
  cbn [store]. rewrite Halloc. eexists. split; [reflexivity|].
  split; [reflexivity|]. split; [reflexivity|].
  split; [|split; [reflexivity|split; reflexivity]].
  destruct (request_kept clientId clientApiKey w) as [HR Hk]. split; [exact HR|].
  intros l o Hl. cbn [store set_store].
  replace h with (snd (Store.alloc_json body (store (request' w))))
    by (rewrite Halloc; reflexivity).
  apply alloc_json_old, Hk, Hl.
Qed.

Lemma authorized_now cb data w : now (snd (authorized' cb data w)) = now w.
Proof.
  unfold authorized.
  destruct (Store.get _ data "token_type"); [|reflexivity].
  destruct (Store.get _ data "access_token"); [|reflexivity].
  destruct (Store.get _ data "expires_in"); [|reflexivity].
  destruct (Js.truthy _ && Js.truthy _); [|reflexivity].
  destruct cb; reflexivity.
Qed.

Lemma ltb_shift t x : (t + x - THRESHOLD <? t) = (x <? THRESHOLD).
Proof.
  destruct (Z.ltb_spec (t + x - THRESHOLD) t), (Z.ltb_spec x THRESHOLD);
    try reflexivity; lia.
Qed.

(** X5: right after a successful [authorize], a token granted for a
    whole number of seconds [n], as a token endpoint states it, counts as
    expired exactly when [n * 1000] is below the 60000 ms threshold, so a
    grant of less than a minute makes the very next call authorize again.
    This is stated where the code's double arithmetic is that of the
    integers: the arrival time, the lifetime in milliseconds, the expiry
    and the expiry less the threshold are integers a double holds exactly
    (a fractional [expires_in] is outside the numbers modelled, and the
    rounding of its sum with the clock can move the outcome).  And a token
    response without [expires_in] leaves an expiry of NaN, with which
    [isExpired] is false at every later time. *)
Theorem token_lifetime (cb : value) (w : world) (t status : Z)
    (headers : list (string * string)) (body : json) (rest : list arrival)
    (data : value) (h : heap) (token_type access_token expires_in : value)
    (Hw : defaults_in_store w)
    (Hnet : network w = Response t status headers body :: rest)
    (Halloc : Store.alloc_json body (store (request' w)) = (data, h))
    (G1 : Store.get h data "token_type" = Some token_type)
    (G2 : Store.get h data "access_token" = Some access_token)
    (G3 : Store.get h data "expires_in" = Some expires_in)
    (Hok : Js.truthy token_type && Js.truthy access_token = true) :
  (forall n, expires_in = VNum (Num n) ->
             exact t -> exact (n * 1000) -> exact (t + n * 1000) ->
             exact (t + n * 1000 - 60000) ->
             authorizationExpireTime (snd (authorize' cb w)) = VNum (Num (t + n * 1000))
             /\ now (snd (authorize' cb w)) = t
             /\ isExpired' (snd (authorize' cb w)) = (n * 1000 <? 60000))
  /\ (expires_in = VUndef ->
      forall w', authorizationExpireTime w'
                 = authorizationExpireTime (snd (authorize' cb w)) ->
                 isExpired' w' = false).
Proof.
  destruct (authorize_response cb w t status headers body rest data h Hnet Halloc)
    as (w2 & Hrun & Hs & Hn & Hkept & _).
  rewrite Hrun. subst h.
  destruct (authorized_spec Number ObjectToString cb data w2 token_type access_token
              expires_in (defaults_kept _ _ Hw Hkept) G1 G2 G3) as [Hyes _].
  destruct (Hyes Hok) as (_ & _ & Hexp).
  pose proof (authorized_now cb data w2) as Hnow. rewrite Hn in Hnow, Hexp.
  split.
  - intros n -> _ _ _ _. split; [rewrite Hexp; reflexivity|]. split; [exact Hnow|].
    unfold isExpired. rewrite Hnow, Hexp. simpl.
    apply ltb_shift.
  - intros -> w' Hw'. unfold isExpired. rewrite Hw', Hexp. reflexivity.
Qed.

End TokenFacts.

(** X4, witness: a client that already holds a bearer token authorizes
    again. *)
Lemma authorize_request_headers_witness :
  let w := snd (Sdk.authorize VUndef (Sdk.Api 1000 [Sdk.token 1100])) in
  authorizationHeader w = Some (VStr "bearer abc")
  /\ exists hs tail,
       trace (snd (Sdk.authorize VUndef w)) = trace w ++ EAuthRequest hs :: tail
       /\ Js.lookup "Authorization" hs = Some (VStr "Basic c2RrLXVuaXQtdGVzdHM6c2VjcmV0").
Proof.
  intros w. split; [reflexivity|].
  destruct (authorize_request_headers NumberLiteral.Number Sdk.ObjectToString
              "sdk-unit-tests" "secret" VUndef w
              (plain [("headers", VObj 5%nat); ("requestConfig", VObj 2%nat);
                      ("responseConfig", VObj 3%nat); ("path", VObj 4%nat)])
              (plain [("Content-Type", VStr "application/json");
                      ("User-Agent", VStr "MangoPay V2 SDK Nodejs 1.0.0");
                      ("Authorization", VStr "bearer abc")])
              5%nat eq_refl eq_refl eq_refl)
    as (hs & tail & Ht & Ha & _).
  - unfold well_keyed. simpl. repeat constructor; rewrite ?list_elem_of_In; simpl;
      intuition discriminate.
  - exists hs, tail. split; [exact Ht|exact Ha].
Defined.

(** X5, witness: the token endpoint grants [bearer abc] for 30 seconds. *)
Lemma token_lifetime_witness :
  let w := Sdk.Api 1000
             [Response 1100 200 []
                (JObj [("access_token", JStr "abc"); ("token_type", JStr "bearer");
                       ("expires_in", JNum (Num 30))])] in
  defaults_in_store w
  /\ isExpired NumberLiteral.Number Sdk.ObjectToString (snd (Sdk.authorize VUndef w)) = true.
Proof.
  intros w.
  assert (Hw : defaults_in_store w).
  { do 3 eexists. split; [reflexivity|]. split; [reflexivity|].
    split; [reflexivity|]. cbv. lia. }
  split; [exact Hw|].
  edestruct (token_lifetime NumberLiteral.Number Sdk.ObjectToString
               "sdk-unit-tests" "secret" VUndef w) as [Hn _];
    [exact Hw|reflexivity|reflexivity|reflexivity|reflexivity|reflexivity|reflexivity|].
  assert (E : exact 1100 /\ exact (30 * 1000) /\ exact (1100 + 30 * 1000)
              /\ exact (1100 + 30 * 1000 - 60000)) by (unfold exact; lia).
  destruct E as (E1 & E2 & E3 & E4).
  exact (proj2 (proj2 (Hn 30 eq_refl E1 E2 E3 E4))).
Defined.

(** ** [_getOptions] *)

Section OptionsFacts.

(** X6: called with extra parameters, [_getOptions] returns a fresh
    object that reads as the parameters where they define a property and
    as the caller's options elsewhere; the caller's options object, the
    parameters object and everything else in the store stay as they
    were. *)
Theorem getOptions_params (cb : callback) (w : world) (ol pl : loc) (oo op : object)
    (HO : store w !! ol = Some oo)
    (HP : store w !! pl = Some op)
    (Ko : well_keyed oo) (Kp : well_keyed op) :
  let r := _getOptions cb (VObj ol) (Some (VObj pl)) w in
  fst r = VObj (length (store w))
  /\ store_kept w (snd r)
  /\ exists o', store (snd r) !! length (store w) = Some o'
       /\ forall k, Js.lookup k (props o')
                    = match Js.lookup k (props op) with
                      | Some v => Some v
                      | None => Js.lookup k (props oo)
                      end.
Proof.
  intros r. subst r. unfold _getOptions. cbn [Js.truthy].
  pose proof (lookup_lt_Some _ _ _ HO) as LO.
  pose proof (lookup_lt_Some _ _ _ HP) as LP.
  destruct (extend_fresh_spec (store w) (VObj ol) (VObj pl) LO LP)
    as (Hq & Hqo & _ & Hkept).
  destruct (Store.extend_fresh (store w) (VObj ol) (VObj pl)) as [q h'].
  cbn [fst snd] in *. subst q. split; [reflexivity|].
  split; [split; [reflexivity|exact Hkept]|].
  eexists. split; [exact Hqo|]. intros k. cbn [props plain].
  unfold Store.entries, heap in *. rewrite HO, HP.
  rewrite lookup_extend by exact Kp.
  destruct (Js.lookup k (props op)); [reflexivity|].
  rewrite lookup_extend by exact Ko.
  destruct (Js.lookup k (props oo)); reflexivity.
Qed.

End OptionsFacts.

(** X6, witness: a user payload and a target model class laid over empty
    caller options. *)
Lemma getOptions_params_witness :
  let w := mkWorld [plain [("parameters", VNull)];
                    plain [("data", VObj 0%nat); ("dataClass", VFun "User")]]
                   0%nat VUndef None 0 [] [] in
  exists o', store (snd (_getOptions (CbUser VUndef) (VObj 0%nat) (Some (VObj 1%nat)) w))
               !! 2%nat = Some o'
    /\ Js.lookup "dataClass" (props o') = Some (VFun "User")
    /\ Js.lookup "parameters" (props o') = Some VNull.
Proof.
  intros w.
  destruct (getOptions_params (CbUser VUndef) w 0%nat 1%nat
              (plain [("parameters", VNull)])
              (plain [("data", VObj 0%nat); ("dataClass", VFun "User")])
              eq_refl eq_refl) as (_ & _ & o' & Ho & Hk).
  - unfold well_keyed. simpl. repeat constructor. rewrite list_elem_of_In. simpl. tauto.
  - unfold well_keyed. simpl. repeat constructor; rewrite list_elem_of_In; simpl;
      intuition discriminate.
  - exists o'. split; [exact Ho|]. rewrite !Hk. split; reflexivity.
Defined.

(** ** [_requestApi] *)

Section RequestFacts.

Variable Number : string -> jsnum.
Variable ObjectToString : heap -> loc -> string.
Variable clientId : string.
Variable clientApiKey : string.
Variable apiMethods : list string.
Variable construct : string -> heap -> value -> object.

Local Abbreviation requestApi' :=
  (_requestApi Number ObjectToString clientId clientApiKey apiMethods construct).
Local Abbreviation settle' := (settle Number construct).

Lemma manual_not_empty m : manual m = true -> m <> "".
Proof. intros H ->. discriminate H. Qed.

(** X7: a call whose method name is empty, or is neither a manual verb
    nor a registered endpoint, or is a manual verb without a [url], is
    rejected before anything is sent: the dispatcher's state, the network
    and the trace are exactly as before.  A manual verb is never looked
    up in the catalog. *)
Theorem requestApi_validation
    (retry : string -> callback -> value -> world -> outcome * world)
    (requestOptions : value) (m : string) (cb : callback) (w : world) :
  (m = "" ->
     requestApi' retry requestOptions m cb w
     = (Rejected (VErr "Method is required in order to perform a API server request"), w))
  /\ (m <> "" -> manual m = false -> registered apiMethods m = false ->
      requestApi' retry requestOptions m cb w = (Rejected type_error, w))
  /\ (manual m = true -> Js.truthy (read (store w) requestOptions "url") = false ->
      requestApi' retry requestOptions m cb w
      = (Rejected (VErr "Url must be specified when doing a manual request"), w)).
Proof.
  split; [|split].
  - intros ->. reflexivity.
  - intros Hm Hman Hreg. unfold _requestApi.
    apply String.eqb_neq in Hm. rewrite Hm, Hman, Hreg. reflexivity.
  - intros Hman Hurl. unfold _requestApi.
    pose proof (manual_not_empty m Hman) as Hm.
    apply String.eqb_neq in Hm. rewrite Hm, Hman. cbn [negb andb].
    rewrite Hurl. reflexivity.
Qed.

Lemma requestApi_sends retry requestOptions m cb w :
  dispatchable apiMethods (store w) requestOptions m ->
  requestApi' retry requestOptions m cb w
  = let full := Js.truthy (read (store w) requestOptions "resolveWithFullResponse") in
    let w1 := emit (ERequest m requestOptions (requestHeaders (store w) requestOptions)) w in
    match receive w1 with
    | None => (Pending, w1)
    | Some (NetError _ message, w2) => (reject [VStr message], w2)
    | Some (Response _ statusCode headers body, w2) =>
        let (data, h1) := Store.alloc_json body (store w2) in
        let (hl, h2) :=
          Store.alloc (plain (map (fun kv => (fst kv, VStr (snd kv))) headers)) h1 in
        let (rl, h3) :=
          Store.alloc (mkObject ["IncomingMessage"] false
                         [("statusCode", VNum (Num statusCode)); ("headers", VObj hl)]) h2 in
        let response := VObj rl in
        let h4 := if full then Store.extend_props h3 response [("body", data)] else h3 in
        let resolveArgument := if full then response else data in
        let w3 := set_store h4 w2 in
        if statusCode =? 401 then
          match authorize Number ObjectToString clientId clientApiKey VUndef w3 with
          | (Resolved _, w4) =>
              in_then (retry m (CbAfterRetry full cb) requestOptions w4)
          | other => other
          end
        else settle' requestOptions m cb full statusCode data response resolveArgument w3
    end.
Proof.
  intros (Hm & Hurl & Hreg). unfold _requestApi.
  apply String.eqb_neq in Hm. rewrite Hm.
  destruct (manual m) eqn:Hman.
  - cbn [negb andb]. rewrite (Hurl eq_refl). reflexivity.
  - rewrite (Hreg eq_refl). reflexivity.
Qed.

(** X8: when the transport fails, the call is rejected with the error's
    message and that is all: one request went out, the callback and the
    error handler were not invoked, no re-authorization and no retry were
    made, and the store, the token and the rate-limit snapshot are as
    they were.  While the network gives no answer the call stays
    pending. *)
Theorem requestApi_transport_error
    (retry : string -> callback -> value -> world -> outcome * world)
    (requestOptions : value) (m : string) (cb : callback) (w : world)
    (Hm : dispatchable apiMethods (store w) requestOptions m) :
  (forall t message rest,
      network w = NetError t message :: rest ->
      requestApi' retry requestOptions m cb w
      = (Rejected (VStr message),
         mkWorld (store w) (self_requestOptions w) (authorizationExpireTime w)
                 (rateLimits w) t rest
                 (trace w ++ [ERequest m requestOptions
                                (requestHeaders (store w) requestOptions)])))
  /\ (network w = [] ->
      requestApi' retry requestOptions m cb w
      = (Pending,
         emit (ERequest m requestOptions (requestHeaders (store w) requestOptions)) w)).
Proof.
  rewrite (requestApi_sends retry requestOptions m cb w Hm). cbv zeta.
  unfold receive. cbn [network emit]. split.
  - intros t message rest ->. reflexivity.
  - intros ->. reflexivity.
Qed.

Lemma invoke_frame cb : forall data response w,
  store (invoke cb data response w) = store w
  /\ rateLimits (invoke cb data response w) = rateLimits w
  /\ authorizationExpireTime (invoke cb data response w) = authorizationExpireTime w
  /\ network (invoke cb data response w) = network w.
Proof.
  induction cb as [v|inner IH|full inner IH]; intros data response w; simpl.
  - destruct v; auto.
  - destruct (callable inner); [apply IH|auto].
  - destruct (callable inner); [apply IH|auto].
Qed.

(** X9: on a response whose status is outside 200..299, the dispatcher
    first calls the caller's callback (when it is a function) with the
    value the promise is about to reject with, then the error handler
    with [data.Message] and the decoded body, and rejects; it neither
    updates the rate-limit snapshot nor writes to the store, so the
    request data is not extended.  When the decoded body is [null], the
    read of [data.Message] raises in the response callback after the
    caller's callback ran, and the promise is never settled. *)
Theorem settle_error (requestOptions : value) (m : string) (f : value) (full : bool)
    (statusCode : Z) (data response resolveArgument : value) (w : world)
    (Hs : statusCode < 200 \/ 299 < statusCode) :
  let r := settle' requestOptions m (CbUser f) full statusCode data response
             resolveArgument w in
  let called := match f with
                | VFun name => [ECallback name [resolveArgument; response]]
                | _ => []
                end in
  store (snd r) = store w
  /\ rateLimits (snd r) = rateLimits w
  /\ (forall message, Store.get (store w) data "Message" = Some message ->
        fst r = Rejected resolveArgument
        /\ trace (snd r) = trace w ++ called ++ [EErrorHandler message data])
  /\ (Store.get (store w) data "Message" = None ->
      fst r = Uncaught type_error /\ trace (snd r) = trace w ++ called).
Proof.
  intros r called. subst r called. unfold settle.
  assert (Hb : (statusCode <? 200) || (299 <? statusCode) = true).
  { apply orb_true_iff. destruct Hs; [left|right]; apply Z.ltb_lt; assumption. }
  rewrite Hb.
  set (w1 := match f with
             | VFun name => emit (ECallback name [resolveArgument; response]) w
             | _ => w
             end).
  assert (Hcall : (if callable (CbUser f)
                   then invoke (CbUser f) resolveArgument response w else w) = w1)
    by (destruct f; reflexivity).
  rewrite Hcall.
  assert (Hw1 : store w1 = store w /\ rateLimits w1 = rateLimits w
                /\ trace w1
                   = trace w ++ match f with
                                | VFun name => [ECallback name [resolveArgument; response]]
                                | _ => []
                                end)
    by (subst w1; destruct f; cbn [store rateLimits trace emit];
        rewrite ?app_nil_r; auto).
  destruct Hw1 as (S1 & S2 & S3). rewrite S1.
  destruct (Store.get (store w) data "Message") as [message|];
    cbn [fst snd store rateLimits trace emit reject hd].
  - split; [exact S1|]. split; [exact S2|]. split.
    + intros message' [= <-]. split; [reflexivity|].
      rewrite S3, <- app_assoc. reflexivity.
    + intros [=].
  - split; [exact S1|]. split; [exact S2|]. split.
    + intros message' [=].
    + intros _. split; [reflexivity|exact S3].
Qed.


End RequestFacts.

(** X7, witness: [get] without a [url], on a client with an empty store. *)
Lemma requestApi_validation_witness :
  let w := mkWorld [plain []] 0%nat VUndef None 0 [Response 1 200 [] JNull] [] in
  _requestApi NumberLiteral.Number Sdk.ObjectToString "sdk-unit-tests" "secret"
    Sdk.apiMethods Sdk.construct (fun _ _ _ w => (Pending, w)) (VObj 0%nat) "get"
    (CbUser VUndef) w
  = (Rejected (VErr "Url must be specified when doing a manual request"), w).
Proof.
  intros w.
  exact (proj2 (proj2 (requestApi_validation NumberLiteral.Number Sdk.ObjectToString
                         "sdk-unit-tests" "secret" Sdk.apiMethods Sdk.construct
                         (fun _ _ _ w => (Pending, w)) (VObj 0%nat) "get"
                         (CbUser VUndef) w)) eq_refl eq_refl).
Defined.

(** X8, witness: the connection is reset while listing users. *)
Lemma requestApi_transport_error_witness :
  let w := mkWorld [plain []] 0%nat VUndef None 0 [NetError 5 "ECONNRESET"] [] in
  dispatchable Sdk.apiMethods (store w) (VObj 0%nat) "Users_All"
  /\ fst (_requestApi NumberLiteral.Number Sdk.ObjectToString "sdk-unit-tests" "secret"
            Sdk.apiMethods Sdk.construct (fun _ _ _ w => (Pending, w)) (VObj 0%nat)
            "Users_All" (CbUser (VFun "cb")) w)
     = Rejected (VStr "ECONNRESET").
Proof.
  intros w.
  assert (Hd : dispatchable Sdk.apiMethods (store w) (VObj 0%nat) "Users_All")
    by (split; [discriminate|split; [discriminate|reflexivity]]).
  split; [exact Hd|].
  destruct (requestApi_transport_error NumberLiteral.Number Sdk.ObjectToString
              "sdk-unit-tests" "secret" Sdk.apiMethods Sdk.construct
              (fun _ _ _ w => (Pending, w)) (VObj 0%nat) "Users_All"
              (CbUser (VFun "cb")) w Hd) as [Herr _].
  rewrite (Herr 5 "ECONNRESET" [] eq_refl). reflexivity.
Defined.

(** X9, witness: a 404 with a message. *)
Lemma settle_error_witness :
  let w := mkWorld [plain [("Message", VStr "not found")]; plain []]
                   0%nat VUndef None 0 [] [] in
  let r := settle NumberLiteral.Number Sdk.construct (VObj 1%nat) "Users_All"
             (CbUser (VFun "cb")) false 404 (VObj 0%nat) VNull (VObj 0%nat) w in
  fst r = Rejected (VObj 0%nat)
  /\ trace (snd r) = [ECallback "cb" [VObj 0%nat; VNull];
                      EErrorHandler (VStr "not found") (VObj 0%nat)].
Proof.
  intros w r.
  destruct (settle_error NumberLiteral.Number Sdk.construct (VObj 1%nat) "Users_All"
              (VFun "cb") false 404 (VObj 0%nat) VNull (VObj 0%nat) w)
    as (_ & _ & Hmsg & _); [right; lia|].
  exact (Hmsg (VStr "not found") eq_refl).
Defined.


(** ** The data preparation of [method] *)

Section SerializeFacts.

Variable Number : string -> jsnum.
Variable ObjectToString : heap -> loc -> string.
Variable clientId : string.
Variable clientApiKey : string.
Variable debugMode : bool.
Variable apiMethods : list string.
Variable getReadOnlyProperties : object -> list string.
Variable toJSON : object -> option (list (string * value)).
Variable construct : string -> heap -> value -> object.

Local Abbreviation method' :=
  (method Number ObjectToString clientId clientApiKey debugMode apiMethods
          getReadOnlyProperties toJSON construct).

(** The loop of [buildRequestData] raises as soon as a designated key
    holds nothing that can be serialized. *)
Lemma inline_subs_fails l o rd ks : forall h ord,
  h !! l = Some o -> h !! rd = Some ord -> l <> rd ->
  (forall key s, Js.lookup key (props o) = Some (VObj s) -> s <> rd) ->
  (exists key, In key ks /\ canReadSubRequestData h (VObj l) key = true
               /\ serialized toJSON h (VObj l) key = None) ->
  snd (inline_subs toJSON h (VObj l) (VObj rd) ks) = Some not_a_function.
Proof.
  induction ks as [|key ks IH]; intros h ord Hl Hrd Hne Hrefs (bad & Hin & Hc & Hs).
  - destruct Hin.
  - simpl. destruct (canReadSubRequestData h (VObj l) key) eqn:C.
    + destruct (serialized toJSON h (VObj l) key) as [ps|] eqn:S; [|reflexivity].
      set (h1 := Store.extend_props h (VObj rd) ps).
      assert (H1o : forall x, x <> rd -> h1 !! x = h !! x)
        by (intros x Hx; apply extend_props_other; congruence).
      apply (IH h1 (Store.with_props ord (Store.assign_all ps (props ord)))).
      * rewrite H1o by exact Hne. exact Hl.
      * apply extend_props_target. exact Hrd.
      * exact Hne.
      * exact Hrefs.
      * exists bad. destruct Hin as [<-|Hin]; [congruence|].
        split; [exact Hin|]. split.
        -- rewrite (canRead_stable h h1 l bad) by (apply H1o, Hne). exact Hc.
        -- rewrite (serialized_stable toJSON h h1 l o bad); auto.
           ++ rewrite H1o by exact Hne. exact Hl.
           ++ intros s Hs'. apply H1o. eapply Hrefs. exact Hs'.
    + apply (IH h ord Hl Hrd Hne Hrefs).
      exists bad. destruct Hin as [<-|Hin]; [congruence|]. auto.
Qed.

Lemma buildRequestData_fails h l o :
  h !! l = Some o ->
  (forall key s, Js.lookup key (props o) = Some (VObj s) -> (s < length h)%nat) ->
  (exists key, In key (Js.keys (props o)) /\ designated h (VObj l) key
               /\ serialized toJSON h (VObj l) key = None) ->
  snd (buildRequestData getReadOnlyProperties toJSON h (VObj l)) = inr not_a_function.
Proof.
  intros Hl Hrefs (bad & Hin & Hd & Hs).
  pose proof (lookup_lt_Some _ _ _ Hl) as Hlt.
  unfold buildRequestData. unfold heap in *. rewrite Hl. unfold Store.alloc.
  set (picked := pick (props o) _).
  set (h1 := h ++ [plain picked]).
  assert (H1l : h1 !! l = Some o) by (apply lookup_app_l_Some; exact Hl).
  assert (H1rd : h1 !! length h = Some (plain picked))
    by (apply list_lookup_middle; reflexivity).
  pose proof (inline_subs_fails l o (length h) (Js.keys (props o)) h1 (plain picked)
                H1l H1rd) as Hf.
  destruct (inline_subs toJSON h1 (VObj l) (VObj (length h)) (Js.keys (props o)))
    as [h2 [e|]] eqn:E; simpl in Hf.
  - assert (Some e = Some not_a_function) as Heq; [|injection Heq as ->; reflexivity].
    apply Hf; [lia| | ].
    + intros key s Hk. apply Hrefs in Hk. lia.
    + exists bad. split; [exact Hin|]. split.
      * rewrite (canRead_stable h h1 l bad)
          by (transitivity (Some o); [exact H1l|symmetry; exact Hl]).
        apply canRead_designated. exact Hd.
      * rewrite (serialized_stable toJSON h h1 l o bad); auto.
        intros s Hk. subst h1. apply lookup_app_l. eapply Hrefs. exact Hk.
  - exfalso. assert (None = Some not_a_function) as Habs; [|discriminate Habs].
    apply Hf; [lia| | ].
    + intros key s Hk. apply Hrefs in Hk. lia.
    + exists bad. split; [exact Hin|]. split.
      * rewrite (canRead_stable h h1 l bad)
          by (transitivity (Some o); [exact H1l|symmetry; exact Hl]).
        apply canRead_designated. exact Hd.
      * rewrite (serialized_stable toJSON h h1 l o bad); auto.
        intros s Hk. subst h1. apply lookup_app_l. eapply Hrefs. exact Hk.
Qed.

(** X11: when [options.data] is a model entity and one of its designated
    sub-object fields (the [PaymentDetails] of a pay-in, say) holds
    something that has no [toJSON] (a plain object, [null], a string),
    [method] raises a TypeError synchronously, out of [buildRequestData],
    instead of returning a rejected promise; nothing has been sent at
    that point, neither a token request nor the API request. *)
Theorem method_throws_on_unserializable (fuel : nat) (m : string) (cb : callback)
    (w : world) (ol d : loc) (oo od : object)
    (HO : store w !! ol = Some oo)
    (Hdata : Js.lookup "data" (props oo) = Some (VObj d))
    (Hd : store w !! d = Some od)
    (Hentity : In "EntityBase" (chain od))
    (Hrefs : forall key s, Js.lookup key (props od) = Some (VObj s) ->
                           (s < length (store w))%nat)
    (Hbad : exists key, In key (Js.keys (props od))
              /\ designated (store w) (VObj d) key
              /\ serialized toJSON (store w) (VObj d) key = None) :
  let r := method' (S fuel) m cb (VObj ol) w in
  fst r = Thrown not_a_function
  /\ network (snd r) = network w
  /\ trace (snd r) = trace w ++ (if debugMode then [ELog m (VObj ol)] else []).
Proof.
  intros r. subst r. cbn [method _getOptions Js.truthy].
  set (w2 := if debugMode then emit (ELog m (VObj ol)) w else w).
  assert (Hw2 : store w2 = store w /\ network w2 = network w
                /\ trace w2 = trace w ++ (if debugMode then [ELog m (VObj ol)] else []))
    by (subst w2; destruct debugMode; cbn [store network trace emit];
        rewrite ?app_nil_r; auto).
  destruct Hw2 as (S2 & N2 & T2).
  unfold serializeData. rewrite S2.
  assert (Hread : default VUndef (Store.get (store w) (VObj ol) "data") = VObj d)
    by (unfold Store.get, heap in *; rewrite HO, Hdata; reflexivity).
  rewrite Hread. cbn [Js.truthy andb].
  assert (Hinst : Store.instance_of (store w) (VObj d) "EntityBase" = true)
    by (unfold Store.instance_of, heap in *; rewrite Hd;
        apply existsb_eqb_In; exact Hentity).
  rewrite Hinst.
  pose proof (buildRequestData_fails (store w) d od Hd Hrefs Hbad) as Hf.
  destruct (buildRequestData getReadOnlyProperties toJSON (store w) (VObj d))
    as [h1 [rd|e]]; simpl in Hf; [discriminate Hf|].
  injection Hf as ->. cbn [fst snd network trace set_store].
  split; [reflexivity|]. split; [exact N2|exact T2].
Qed.

End SerializeFacts.

(** X11, witness: a pay-in whose payment details are a plain object. *)
Lemma method_throws_on_unserializable_witness :
  let details := plain [("CardId", VStr "c9")] in
  let payIn := mkObject ["PayIn"; "EntityBase"; "Model"] false
                 [("Tag", VStr "t"); ("PaymentDetails", VObj 0%nat)] in
  let w := mkWorld [details; payIn; plain [("data", VObj 1%nat)]]
                   0%nat VUndef None 0 [] [] in
  Sdk.method 1 "PayIns_Create" (CbUser VUndef) (VObj 2%nat) w
  = (Thrown not_a_function, set_store (store w ++ [plain [("Tag", VStr "t");
                                                          ("PaymentDetails", VObj 0%nat)]]) w).
Proof.
  intros details payIn w.
  destruct (method_throws_on_unserializable NumberLiteral.Number Sdk.ObjectToString
              "sdk-unit-tests" "secret" false Sdk.apiMethods Sdk.getReadOnlyProperties
              Sdk.toJSON Sdk.construct 0 "PayIns_Create" (CbUser VUndef) w
              2%nat 1%nat (plain [("data", VObj 1%nat)]) payIn
              eq_refl eq_refl eq_refl) as (H1 & _ & _).
  - simpl. tauto.
  - intros key s H. apply lookup_Some_In in H.
    destruct H as [H|[H|[]]]; inversion H. simpl. lia.
  - exists "PaymentDetails". split; [simpl; tauto|]. split; [left; split; [reflexivity|tauto]|].
    reflexivity.
  - reflexivity.
Defined.

(** ** What the merge of the request options writes *)

Section MergeFrame.

Lemma read_kept h h' l o k :
  h !! l = Some o -> h' !! l = Some o -> read h' (VObj l) k = read h (VObj l) k.
Proof. intros H H'. rewrite (read_object _ _ _ _ H), (read_object _ _ _ _ H'). reflexivity. Qed.

(** The table [requestOptions[key]] of the fresh request options is the
    caller's, when the caller's options hold a truthy one. *)
Lemma fresh_table oo base key :
  well_keyed oo ->
  Js.truthy (default VUndef (Js.lookup key (props oo))) = true ->
  default VUndef (Js.lookup key (Store.assign_all (props oo) base))
  = default VUndef (Js.lookup key (props oo)).
Proof.
  intros Ko Ht. rewrite lookup_extend by exact Ko.
  destruct (Js.lookup key (props oo)); [reflexivity|discriminate Ht].
Qed.

(** X12: the merge of the request options writes to the store nothing but
    the caller's own [headers] and [path] tables (and the fresh request
    options object): every other object, in particular the instance
    defaults and their [headers] and [path] tables, is left as it was, so
    the headers and path parameters of one call do not leak into the
    defaults. *)
Theorem merge_keeps_the_rest (w : world) (ol x : loc) (oo o : object)
    (HO : store w !! ol = Some oo)
    (Ko : well_keyed oo)
    (HR : (self_requestOptions w < length (store w))%nat)
    (Hx : store w !! x = Some o)
    (Hh : allocated (store w) (read (store w) (VObj ol) "headers")
          /\ read (store w) (VObj ol) "headers" <> VObj ol
          /\ read (store w) (VObj ol) "headers" <> VObj x)
    (Hp : allocated (store w) (read (store w) (VObj ol) "path")
          /\ read (store w) (VObj ol) "path" <> VObj x) :
  store (snd (mergeRequestOptions (VObj ol) w)) !! x = Some o.
Proof.
  destruct Hh as (Ha & Hself & Hhx). destruct Hp as (Hpa & Hpx).
  unfold mergeRequestOptions. set (h := store w) in *.
  pose proof (lookup_lt_Some _ _ _ HO) as LO.
  pose proof (lookup_lt_Some _ _ _ Hx) as LX.
  destruct (extend_fresh_spec h (VObj (self_requestOptions w)) (VObj ol) HR LO)
    as (Hq & Hqo & _ & Hkept).
  destruct (Store.extend_fresh h (VObj (self_requestOptions w)) (VObj ol)) as [q h1].
  cbn [fst snd] in Hq, Hqo, Hkept. subst q.
  assert (Eo : Store.entries h (VObj ol) = props oo)
    by (unfold Store.entries, heap in *; rewrite HO; reflexivity).
  rewrite Eo in Hqo.
  set (base := Store.assign_all (Store.entries h (VObj (self_requestOptions w))) [])
    in Hqo.
  cbn [Js.truthy andb].
  (* the headers *)
  set (hv := read h (VObj ol) "headers") in *.
  assert (R1 : read h1 (VObj ol) "headers" = hv)
    by (apply (read_kept h h1 ol oo); auto).
  rewrite R1.
  set (h2 := if Js.truthy hv && is_undefined (read h1 hv "Content-Type")
             then mergeTables h1 "headers" (VObj (length h))
                    (VObj (self_requestOptions w)) (VObj ol)
             else h1).
  assert (H2 : forall y, hv <> VObj y -> h2 !! y = h1 !! y).
  { intros y Hy. subst h2.
    destruct (Js.truthy hv) eqn:T; cbn [andb]; [|reflexivity].
    destruct (is_undefined (read h1 hv "Content-Type")); [|reflexivity].
    apply mergeTables_other.
    assert (Hhv : hv = default VUndef (Js.lookup "headers" (props oo)))
      by (apply read_object; exact HO).
    rewrite Hhv in T, Hy.
    rewrite (read_object _ _ _ _ Hqo). cbn [props plain].
    rewrite (fresh_table oo base "headers" Ko T). exact Hy. }
  assert (Hvq : hv <> VObj (length h))
    by (intros E; rewrite E in Ha; simpl in Ha; lia).
  (* the path *)
  set (pv := read h (VObj ol) "path") in *.
  assert (R2 : read h2 (VObj ol) "path" = pv).
  { apply (read_kept h h2 ol oo); [exact HO|].
    rewrite H2 by exact Hself. apply Hkept, HO. }
  rewrite R2. cbn [snd store set_store].
  assert (H3 : (if Js.truthy pv
                then mergeTables h2 "path" (VObj (length h))
                       (VObj (self_requestOptions w)) (VObj ol)
                else h2) !! x = h2 !! x).
  { destruct (Js.truthy pv) eqn:T; [|reflexivity].
    apply mergeTables_other.
    assert (H2q : h2 !! length h = Some (plain (Store.assign_all (props oo) base)))
      by (rewrite H2 by exact Hvq; exact Hqo).
    assert (Hpv : pv = default VUndef (Js.lookup "path" (props oo)))
      by (apply read_object; exact HO).
    rewrite Hpv in T, Hpx.
    rewrite (read_object _ _ _ _ H2q). cbn [props plain].
    rewrite (fresh_table oo base "path" Ko T). exact Hpx. }
  rewrite H3, H2 by exact Hhx. apply Hkept, Hx.
Qed.

(** X13: for a call that brings a [path] table and no [headers], the
    request is made with the caller's own [path] table, over which the
    defaults have been copied: [clientId], [apiVersion] and every other
    default placeholder read as the defaults have them, whatever the
    caller put under these names, and the caller's other placeholders are
    kept. *)
Theorem merged_path (w : world) (ol cp dp : loc) (oR oo oc od : object)
    (HR : store w !! self_requestOptions w = Some oR)
    (Hd : Js.lookup "path" (props oR) = Some (VObj dp))
    (Hdp : store w !! dp = Some od)
    (HO : store w !! ol = Some oo)
    (Hnh : Js.lookup "headers" (props oo) = None)
    (Hc : Js.lookup "path" (props oo) = Some (VObj cp))
    (Hcp : store w !! cp = Some oc)
    (Hne : cp <> dp)
    (Hkeys : well_keyed oo /\ well_keyed oc /\ well_keyed od) :
  let r := mergeRequestOptions (VObj ol) w in
  read (store (snd r)) (VObj (fst r)) "path" = VObj cp
  /\ exists o', store (snd r) !! cp = Some o'
       /\ forall k, Js.lookup k (props o')
                    = match Js.lookup k (props od) with
                      | Some v => Some v
                      | None => Js.lookup k (props oc)
                      end.
Proof.
  destruct Hkeys as (Ko & Kc & Kd). intros r. subst r.
  unfold mergeRequestOptions. set (h := store w) in *.
  pose proof (lookup_lt_Some _ _ _ HR) as LR.
  pose proof (lookup_lt_Some _ _ _ HO) as LO.
  pose proof (lookup_lt_Some _ _ _ Hcp) as LC.
  destruct (extend_fresh_spec h (VObj (self_requestOptions w)) (VObj ol) LR LO)
    as (Hq & Hqo & _ & Hkept).
  destruct (Store.extend_fresh h (VObj (self_requestOptions w)) (VObj ol)) as [q h1].
  cbn [fst snd] in Hq, Hqo, Hkept. subst q.
  assert (Eo : Store.entries h (VObj ol) = props oo)
    by (unfold Store.entries, heap in *; rewrite HO; reflexivity).
  rewrite Eo in Hqo.
  set (base := Store.assign_all (Store.entries h (VObj (self_requestOptions w))) [])
    in Hqo.
  cbn [Js.truthy andb fst snd store set_store].
  assert (R1 : read h1 (VObj ol) "headers" = VUndef)
    by (rewrite (read_object _ _ _ _ (Hkept _ _ HO)), Hnh; reflexivity).
  rewrite R1. cbn [Js.truthy andb].
  assert (R2 : read h1 (VObj ol) "path" = VObj cp)
    by (rewrite (read_object _ _ _ _ (Hkept _ _ HO)), Hc; reflexivity).
  rewrite R2. cbn [Js.truthy].
  assert (R3 : read h1 (VObj (length h)) "path" = VObj cp).
  { rewrite (read_object _ _ _ _ Hqo). cbn [props plain].
    rewrite lookup_extend by exact Ko. rewrite Hc. reflexivity. }
  assert (R4 : read h1 (VObj (self_requestOptions w)) "path" = VObj dp)
    by (rewrite (read_object _ _ _ _ (Hkept _ _ HR)), Hd; reflexivity).
  destruct (mergeTables_target h1 "path" (VObj (length h))
              (VObj (self_requestOptions w)) (VObj ol) cp dp oc od
              R3 R2 R4 (Hkept _ _ Hcp) (Hkept _ _ Hdp) Hne Kc Kd) as (P & HP & HPk).
  split.
  - assert (Hq' : mergeTables h1 "path" (VObj (length h))
                    (VObj (self_requestOptions w)) (VObj ol) !! length h
                  = Some (plain (Store.assign_all (props oo) base)))
      by (rewrite mergeTables_other by (rewrite R3; intros [= E]; lia); exact Hqo).
    rewrite (read_object _ _ _ _ Hq'). cbn [props plain].
    rewrite lookup_extend by exact Ko. rewrite Hc. reflexivity.
  - eexists. split; [exact HP|exact HPk].
Qed.

End MergeFrame.

(** X12, witness: custom headers on a fresh client leave the default
    headers as they were. *)
Lemma merge_keeps_the_rest_witness :
  let o1 := Sdk.with_object (plain [("Idempotency-Key", VStr "k1")]) (Sdk.Api 0 []) in
  let o2 := Sdk.with_object (plain [("headers", fst o1)]) (snd o1) in
  store (snd (mergeRequestOptions (fst o2) (snd o2))) !! 5%nat
  = Some (plain [("Content-Type", VStr "application/json");
                 ("User-Agent", VStr "MangoPay V2 SDK Nodejs 1.0.0")]).
Proof.
  intros o1 o2.
  apply (merge_keeps_the_rest (snd o2) 7%nat 5%nat (plain [("headers", VObj 6%nat)])).
  - reflexivity.
  - unfold well_keyed. simpl. repeat constructor. rewrite list_elem_of_In. simpl. tauto.
  - simpl. lia.
  - reflexivity.
  - split; [simpl; lia|]. split; discriminate.
  - split; [exact I|discriminate].
Defined.

(** X13, witness: a caller that tries to override [clientId] in the
    path. *)
Lemma merged_path_witness :
  let o1 := Sdk.with_object (plain [("clientId", VStr "other"); ("id", VStr "42")])
              (Sdk.Api 0 []) in
  let o2 := Sdk.with_object (plain [("path", fst o1)]) (snd o1) in
  let r := mergeRequestOptions (fst o2) (snd o2) in
  exists o', store (snd r) !! 6%nat = Some o'
    /\ Js.lookup "clientId" (props o') = Some (VStr "sdk-unit-tests")
    /\ Js.lookup "id" (props o') = Some (VStr "42").
Proof.
  intros o1 o2 r. subst r.
  destruct (merged_path (snd o2) 7%nat 6%nat 4%nat
              (plain [("headers", VObj 5%nat); ("requestConfig", VObj 2%nat);
                      ("responseConfig", VObj 3%nat); ("path", VObj 4%nat)])
              (plain [("path", VObj 6%nat)])
              (plain [("clientId", VStr "other"); ("id", VStr "42")])
              (plain [("clientId", VStr "sdk-unit-tests"); ("apiVersion", VStr "v2.01")])
              eq_refl eq_refl eq_refl eq_refl eq_refl eq_refl eq_refl)
    as (_ & o' & Ho & Hk).
  - lia.
  - unfold well_keyed. simpl.
    repeat split; repeat constructor; rewrite ?list_elem_of_In; simpl; intuition discriminate.
  - exists o'. split; [exact Ho|]. rewrite !Hk. split; reflexivity.
Defined.

(** ** The first call of a client *)

Section FirstCall.

Variable Number : string -> jsnum.
Variable ObjectToString : heap -> loc -> string.
Variable clientId : string.
Variable clientApiKey : string.
Variable debugMode : bool.
Variable apiMethods : list string.
Variable getReadOnlyProperties : object -> list string.
Variable toJSON : object -> option (list (string * value)).
Variable construct : string -> heap -> value -> object.

Local Abbreviation method' :=
  (method Number ObjectToString clientId clientApiKey debugMode apiMethods
          getReadOnlyProperties toJSON construct).
Local Abbreviation authorize' := (authorize Number ObjectToString clientId clientApiKey).
Local Abbreviation request' := (authorize_request clientId clientApiKey).
Local Abbreviation requestApi' :=
  (_requestApi Number ObjectToString clientId clientApiKey apiMethods construct).
Local Abbreviation needs' := (needsAuthorization Number ObjectToString).
Local Abbreviation serialize' := (serializeData getReadOnlyProperties toJSON).

Local Abbreviation logged' := (logged debugMode).

Lemma logged_fields m options w :
  store (logged' m options w) = store w
  /\ self_requestOptions (logged' m options w) = self_requestOptions w
  /\ authorizationExpireTime (logged' m options w) = authorizationExpireTime w
  /\ rateLimits (logged' m options w) = rateLimits w
  /\ now (logged' m options w) = now w
  /\ network (logged' m options w) = network w
  /\ trace (logged' m options w) = trace w ++ debug_line debugMode m options.
Proof.
  unfold logged, debug_line. destruct debugMode; cbn; rewrite ?app_nil_r; auto 10.
Qed.

(** The two ways through [method]. *)
Lemma method_authorizes fuel m cb options w o1 w1 data w4 :
  _getOptions cb options None w = (o1, w1) ->
  serialize' o1 (logged' m o1 w1) = (None, logged' m o1 w1) ->
  needs' (logged' m o1 w1) = Some true ->
  authorize' VUndef (logged' m o1 w1) = (Resolved data, w4) ->
  method' (S fuel) m cb options w = in_then (method' fuel m (CbAfterAuthorize cb) o1 w4).
Proof.
  intros H1 H2 H3 H4. cbn [method]. rewrite H1. fold (logged debugMode m o1 w1).
  rewrite H2, H3, H4. reflexivity.
Qed.

Lemma method_dispatches fuel m cb options w o1 w1 :
  _getOptions cb options None w = (o1, w1) ->
  serialize' o1 (logged' m o1 w1) = (None, logged' m o1 w1) ->
  needs' (logged' m o1 w1) = Some false ->
  method' (S fuel) m cb options w
  = requestApi' (method' fuel) (VObj (fst (mergeRequestOptions o1 (logged' m o1 w1))))
      m cb (snd (mergeRequestOptions o1 (logged' m o1 w1))).
Proof.
  intros H1 H2 H3. cbn [method]. rewrite H1. fold (logged debugMode m o1 w1).
  rewrite H2, H3. destruct (mergeRequestOptions o1 (logged' m o1 w1)). reflexivity.
Qed.

Lemma getOptions_fresh v options w :
  Js.truthy options = false -> plain_callback v ->
  _getOptions (CbUser v) options None w
  = (VObj (length (store w)), set_store (store w ++ [plain []]) w).
Proof.
  intros Ht Hv. unfold _getOptions. rewrite Ht.
  destruct v; try contradiction; reflexivity.
Qed.

Lemma getOptions_given cb options w :
  Js.truthy options = true -> _getOptions cb options None w = (options, w).
Proof. intros Ht. unfold _getOptions. rewrite Ht. reflexivity. Qed.

Lemma serializeData_no_data l o w :
  store w !! l = Some o ->
  Js.truthy (default VUndef (Js.lookup "data" (props o))) = false ->
  serialize' (VObj l) w = (None, w).
Proof.
  intros Hl Ht. unfold serializeData.
  assert (E : default VUndef (Store.get (store w) (VObj l) "data")
              = default VUndef (Js.lookup "data" (props o)))
    by (unfold Store.get, heap in *; rewrite Hl; reflexivity).
  rewrite E, Ht. cbn [andb].
  destruct (default VUndef (Js.lookup "data" (props o))); try reflexivity.
  discriminate Ht.
Qed.

(** A successful [authorize], in full: what the world holds afterwards. *)
Lemma authorize_resolved w oR hl oh t status headers rest tt at_ n :
  store w !! self_requestOptions w = Some oR ->
  Js.lookup "headers" (props oR) = Some (VObj hl) ->
  store w !! hl = Some oh ->
  hl <> self_requestOptions w ->
  network w = Response t status headers (token_body tt at_ n) :: rest ->
  tt <> "" -> at_ <> "" ->
  exists data w4,
    authorize' VUndef w = (Resolved data, w4)
    /\ self_requestOptions w4 = self_requestOptions w
    /\ network w4 = rest /\ now w4 = t
    /\ authorizationExpireTime w4 = VNum (Num (t + n * 1000))
    /\ store w4 !! hl
       = Some (Store.with_props oh
                 (Js.assign "Authorization" (VStr (tt +:+ " " +:+ at_)) (props oh)))
    /\ (forall x o, x <> hl -> store w !! x = Some o -> store w4 !! x = Some o)
    /\ trace w4 = trace (request' w).
Proof.
  intros HR Hh Hl Hne Hnet Htt Hat.
  destruct (Store.alloc_json (token_body tt at_ n) (store (request' w)))
    as [data h] eqn:Halloc.
  destruct (authorize_response Number ObjectToString clientId clientApiKey VUndef w
              t status headers (token_body tt at_ n) rest data h Hnet Halloc)
    as (w2 & Hrun & Hs & Hn & [HR2 Hkept] & _ & Hnet2 & Htr2).
  remember (store (request' w)) as h0 eqn:Hh0.
  cbn in Halloc. injection Halloc as <- <-.
  assert (Hd : store w2 !! length h0
               = Some (plain [("access_token", VStr at_); ("token_type", VStr tt);
                              ("expires_in", VNum (Num n))]))
    by (rewrite Hs; apply list_lookup_middle; reflexivity).
  exists (VObj (length h0)). rewrite Hrun. unfold authorized.
  assert (G : forall k, Store.get (store w2) (VObj (length h0)) k
                = Some (default VUndef
                          (Js.lookup k [("access_token", VStr at_); ("token_type", VStr tt);
                                        ("expires_in", VNum (Num n))])))
    by (intros k; unfold Store.get, heap in *; rewrite Hd; reflexivity).
  rewrite !G. cbn [Js.lookup String.eqb Ascii.eqb Bool.eqb default].
  unfold id. apply String.eqb_neq in Htt, Hat.
  cbn [Js.truthy]. rewrite Htt, Hat. cbn [negb andb].
  assert (Hget : Store.get (store w2) (VObj (self_requestOptions w2)) "headers"
                 = Some (VObj hl))
    by (unfold Store.get, heap in *; rewrite HR2, (Hkept _ _ HR), Hh; reflexivity).
  rewrite Hget. cbn [default to_string to_number]. unfold id.
  eexists. split; [reflexivity|].
  cbn [self_requestOptions network now authorizationExpireTime store trace
       set_expire set_store Js.add Js.mul].
  split; [exact HR2|]. split; [exact Hnet2|]. split; [exact Hn|].
  split; [rewrite Hn; reflexivity|].
  split; [apply extend_props_target, Hkept, Hl|].
  split; [|exact Htr2].
  intros x o Hx Ho. rewrite extend_props_other by congruence. apply Hkept, Ho.
Qed.

(** What decides whether [method] authorizes first. *)
Lemma needs_of_header w oR hl oh :
  store w !! self_requestOptions w = Some oR ->
  Js.lookup "headers" (props oR) = Some (VObj hl) ->
  store w !! hl = Some oh ->
  needs' w
  = Some (negb (Js.truthy (default VUndef (Js.lookup "Authorization" (props oh))))
          || isExpired Number ObjectToString w).
Proof.
  intros HR Hh Hl. unfold needsAuthorization, authorizationHeader, Store.get, heap in *.
  rewrite HR, Hh. cbn [from_option]. unfold id. rewrite Hl. reflexivity.
Qed.

Lemma token_not_empty a b : a <> "" -> Js.truthy (VStr (a +:+ b)) = true.
Proof. destruct a; [congruence|reflexivity]. Qed.

(** Options without [headers] and [path]: the merged options hold the
    default headers table itself. *)
Lemma merge_no_tables w ol oo oR hl :
  store w !! ol = Some oo -> well_keyed oo ->
  Js.lookup "headers" (props oo) = None -> Js.lookup "path" (props oo) = None ->
  store w !! self_requestOptions w = Some oR -> well_keyed oR ->
  Js.lookup "headers" (props oR) = Some (VObj hl) ->
  exists q h,
    mergeRequestOptions (VObj ol) w = (q, set_store h w)
    /\ read h (VObj q) "headers" = VObj hl
    /\ (forall x o, store w !! x = Some o -> h !! x = Some o).
Proof.
  intros Ho Ko Hnh Hnp HR KR Hh. unfold mergeRequestOptions.
  destruct (extend_fresh_spec (store w) (VObj (self_requestOptions w)) (VObj ol))
    as (Hf & Hq & _ & Hkept).
  - eapply lookup_lt_Some, HR.
  - eapply lookup_lt_Some, Ho.
  - destruct (Store.extend_fresh (store w) (VObj (self_requestOptions w)) (VObj ol))
      as [q h1].
    cbn [fst snd] in Hf, Hq, Hkept. subst q.
    assert (E1 : read h1 (VObj ol) "headers" = VUndef)
      by (rewrite (read_object _ _ _ _ (Hkept _ _ Ho)), Hnh; reflexivity).
    assert (E2 : read h1 (VObj ol) "path" = VUndef)
      by (rewrite (read_object _ _ _ _ (Hkept _ _ Ho)), Hnp; reflexivity).
    rewrite E1. cbn [Js.truthy andb]. rewrite E2. cbn [Js.truthy andb].
    eexists _, h1. split; [reflexivity|]. split; [|exact Hkept].
    rewrite (read_object _ _ _ _ Hq). cbn [props plain].
    unfold Store.entries, heap in *. rewrite Ho, HR.
    rewrite (lookup_extend _ _ _ Ko), Hnh, (lookup_extend _ _ _ KR), Hh. reflexivity.
Qed.

(** X14: the first call of a client that holds no token.  With the
    callback given as a function (or left out) and no options, and a
    token endpoint that answers with a non-empty [token_type] and
    [access_token] valid for at least a minute, [method] authorizes once
    and then hands the call to [_requestApi]: up to there the trace holds
    exactly one token request, sent with the Basic credentials, the
    network has given that one answer only, and the request options the
    call goes out with carry [token_type + " " + access_token] as their
    Authorization header.  When the method name is a registered endpoint
    and the network gives no further answer, the API request is the one
    event that follows, and the call stays pending. *)
Theorem first_call_authorizes_once
    (fuel : nat) (m : string) (v : value) (w : world) (oR oh : object) (hl : loc)
    (t status : Z) (headers : list (string * string)) (rest : list arrival)
    (tt at_ : string) (n : Z)
    (HR : store w !! self_requestOptions w = Some oR)
    (Hh : Js.lookup "headers" (props oR) = Some (VObj hl))
    (Hl : store w !! hl = Some oh)
    (Hne : hl <> self_requestOptions w)
    (KR : well_keyed oR)
    (Hnone : Js.truthy (default VUndef (Js.lookup "Authorization" (props oh))) = false)
    (Hv : plain_callback v)
    (Hnet : network w = Response t status headers (token_body tt at_ n) :: rest)
    (Htt : tt <> "") (Hat : at_ <> "")
    (Hn : 60000 <= n * 1000) :
  exists q w5 hs,
    method' (S (S fuel)) m (CbUser v) VUndef w
    = in_then (requestApi' (method' fuel) (VObj q) m (CbAfterAuthorize (CbUser v)) w5)
    /\ trace w5
       = trace w ++ debug_line debugMode m (VObj (length (store w)))
           ++ [EAuthRequest hs] ++ debug_line debugMode m (VObj (length (store w)))
    /\ Js.lookup "Authorization" hs = Some (VStr (_getBasicAuthHash clientId clientApiKey))
    /\ network w5 = rest
    /\ Js.lookup "Authorization" (requestHeaders (store w5) (VObj q))
       = Some (VStr (tt +:+ " " +:+ at_))
    /\ (m <> "" -> manual m = false -> registered apiMethods m = true -> rest = [] ->
        method' (S (S fuel)) m (CbUser v) VUndef w
        = (Pending,
           emit (ERequest m (VObj q) (requestHeaders (store w5) (VObj q))) w5)).
Proof.
  set (l0 := length (store w)).
  set (w1 := set_store (store w ++ [plain []]) w).
  set (wl := logged' m (VObj l0) w1).
  destruct (logged_fields m (VObj l0) w1) as (Ls & Lr & _ & _ & _ & Lnet & Ltr).
  fold wl in Ls, Lr, Lnet, Ltr.
  cbn [store self_requestOptions network trace set_store w1] in Ls, Lr, Lnet, Ltr.
  assert (Hk1 : forall x o, store w !! x = Some o -> store wl !! x = Some o)
    by (intros x o Hx; rewrite Ls; apply lookup_app_l_Some, Hx).
  assert (H0 : store wl !! l0 = Some (plain []))
    by (rewrite Ls; apply list_lookup_middle; reflexivity).
  assert (Hl0 : l0 <> hl) by (apply lookup_lt_Some in Hl; subst l0; lia).
  assert (HlR : l0 <> self_requestOptions w) by (apply lookup_lt_Some in HR; subst l0; lia).
  assert (HRl : store wl !! self_requestOptions wl = Some oR) by (rewrite Lr; apply Hk1, HR).
  (* the first pass: no token, so authorize *)
  pose proof (getOptions_fresh v VUndef w eq_refl Hv) as G1.
  fold l0 w1 in G1.
  pose proof (serializeData_no_data l0 (plain []) wl H0 eq_refl) as S1.
  assert (N1 : needs' wl = Some true)
    by (rewrite (needs_of_header wl oR hl oh HRl Hh (Hk1 _ _ Hl)), Hnone; reflexivity).
  destruct (authorize_resolved wl oR hl oh t status headers rest tt at_ n)
    as (data & w4 & A & AR & Anet & Anow & Aexp & Ahl & Akept & Atr);
    [exact HRl|exact Hh|apply Hk1, Hl|rewrite Lr; exact Hne
    |rewrite Lnet; exact Hnet|exact Htt|exact Hat|].
  pose proof (method_authorizes (S fuel) m (CbUser v) VUndef w (VObj l0) w1 data w4
                G1 S1 N1 A) as E1.
  (* the second pass: the token is fresh, so dispatch *)
  set (wl4 := logged' m (VObj l0) w4).
  destruct (logged_fields m (VObj l0) w4) as (Ls4 & Lr4 & Le4 & _ & Ln4 & Lnet4 & Ltr4).
  fold wl4 in Ls4, Lr4, Le4, Ln4, Lnet4, Ltr4.
  assert (HR4 : store wl4 !! self_requestOptions wl4 = Some oR).
  { rewrite Ls4, Lr4, AR, Lr. apply Akept; [congruence|]. apply Hk1, HR. }
  assert (Hl4 : store wl4 !! hl
                = Some (Store.with_props oh
                          (Js.assign "Authorization" (VStr (tt +:+ " " +:+ at_)) (props oh))))
    by (rewrite Ls4; exact Ahl).
  assert (H04 : store wl4 !! l0 = Some (plain []))
    by (rewrite Ls4; apply Akept; [exact Hl0|exact H0]).
  pose proof (getOptions_given (CbAfterAuthorize (CbUser v)) (VObj l0) w4 eq_refl) as G2.
  pose proof (serializeData_no_data l0 (plain []) wl4 H04 eq_refl) as S2.
  assert (N2 : needs' wl4 = Some false).
  { rewrite (needs_of_header wl4 oR hl _ HR4 Hh Hl4). cbn [props Store.with_props].
    rewrite lookup_assign_eq. cbn [from_option]. unfold id.
    rewrite (token_not_empty _ _ Htt).
    unfold isExpired. rewrite Le4, Ln4, Aexp, Anow. cbn [to_number Js.sub Js.gt negb orb].
    f_equal. apply Z.ltb_ge. unfold THRESHOLD. lia. }
  pose proof (method_dispatches fuel m (CbAfterAuthorize (CbUser v)) (VObj l0) w4
                (VObj l0) w4 G2 S2 N2) as E2.
  fold wl4 in E2.
  destruct (merge_no_tables wl4 l0 (plain []) oR hl H04 (NoDup_nil_2 : well_keyed (plain []))
              eq_refl eq_refl HR4 KR Hh) as (q & h & M & Mh & Mkept).
  rewrite M in E2. cbn [fst snd] in E2.
  assert (Hsent : requestHeaders h (VObj q)
                  = Js.assign "Authorization" (VStr (tt +:+ " " +:+ at_)) (props oh)).
  { unfold requestHeaders. fold (read h (VObj q) "headers"). rewrite Mh.
    unfold Store.entries, heap in *. rewrite (Mkept _ _ Hl4). reflexivity. }
  assert (Htrace : trace (set_store h wl4)
                   = trace w ++ debug_line debugMode m (VObj l0)
                       ++ [EAuthRequest
                             (Store.assign_all
                                [("Authorization",
                                  VStr (_getBasicAuthHash clientId clientApiKey));
                                 ("Content-Type", form_urlencoded)]
                                (Store.assign_all (props oh) []))]
                       ++ debug_line debugMode m (VObj l0)).
  { cbn [trace set_store]. rewrite Ltr4, Atr.
    rewrite (request_headers clientId clientApiKey wl oR hl oh HRl Hh (Hk1 _ _ Hl)), Ltr.
    rewrite <- !app_assoc. reflexivity. }
  exists q, (set_store h wl4). eexists.
  split; [rewrite E1, E2; reflexivity|].
  split; [exact Htrace|].
  split; [rewrite lookup_assign_all; reflexivity|].
  split; [cbn [network set_store]; rewrite Lnet4; exact Anet|].
  cbn [store set_store]. rewrite Hsent.
  split; [apply lookup_assign_eq|].
  intros Hm Hman Hreg ->. rewrite E1, E2.
  rewrite (requestApi_sends Number ObjectToString clientId clientApiKey apiMethods
             construct (method' fuel) (VObj q) m (CbAfterAuthorize (CbUser v))
             (set_store h wl4)).
  - cbv zeta. unfold receive. cbn [network emit set_store store].
    rewrite Lnet4, Anet, Hsent. reflexivity.
  - split; [exact Hm|]. split; [congruence|]. intros _. exact Hreg.
Qed.

End FirstCall.

(** X14, witness: a fresh client asked for [Users_All]; the token endpoint
    grants [bearer abc] for an hour and the API does not answer. *)
Lemma first_call_authorizes_once_witness :
  let w := Sdk.Api 1000 [Sdk.token 1100] in
  exists q w5,
    Sdk.method 2 "Users_All" (CbUser (VFun "done")) VUndef w
    = (Pending,
       emit (ERequest "Users_All" (VObj q) (requestHeaders (store w5) (VObj q))) w5)
    /\ Js.lookup "Authorization" (requestHeaders (store w5) (VObj q))
       = Some (VStr "bearer abc")
    /\ network w5 = [].
Proof.
  intros w.
  destruct (first_call_authorizes_once NumberLiteral.Number Sdk.ObjectToString
              "sdk-unit-tests" "secret" false Sdk.apiMethods Sdk.getReadOnlyProperties
              Sdk.toJSON Sdk.construct 0 "Users_All" (VFun "done") w
              (plain [("headers", VObj 5%nat); ("requestConfig", VObj 2%nat);
                      ("responseConfig", VObj 3%nat); ("path", VObj 4%nat)])
              (plain [("Content-Type", VStr "application/json");
                      ("User-Agent", VStr "MangoPay V2 SDK Nodejs 1.0.0")])
              5%nat 1100 200 [] [] "bearer" "abc" 3600 eq_refl eq_refl eq_refl)
    as (q & w5 & hs & _ & _ & _ & Hnet & Hauth & Hp).
  - simpl. lia.
  - unfold well_keyed. simpl. repeat constructor; rewrite ?list_elem_of_In; simpl;
      intuition discriminate.
  - reflexivity.
  - exact I.
  - reflexivity.
  - discriminate.
  - discriminate.
  - lia.
  - exists q, w5. split; [|split; [exact Hauth|exact Hnet]].
    apply Hp; [discriminate|reflexivity|reflexivity|reflexivity].
Defined.

(** ** Responses wrapped in a model class *)

Section InstantiateFacts.

Variable Number : string -> jsnum.
Variable construct : string -> heap -> value -> object.

Local Abbreviation settle' := (settle Number construct).
Local Abbreviation instantiate_all' := (instantiate_all construct).

(** Array indices are index keys. *)
Lemma uint_digits d : Js.all_digits (NilEmpty.string_of_uint d) = true.
Proof. induction d; simpl; auto. Qed.

Lemma uint_empty d : NilEmpty.string_of_uint d = "" -> d = Decimal.Nil.
Proof. destruct d; simpl; congruence. Qed.

Lemma revapp_nonnil d : forall d', d' <> Decimal.Nil -> Decimal.revapp d d' <> Decimal.Nil.
Proof. induction d; intros d' H; simpl; try apply IHd; congruence. Qed.

Lemma little_succ_nonnil d : Decimal.Little.succ d <> Decimal.Nil.
Proof. destruct d; simpl; congruence. Qed.

Lemma to_little_uint_nonnil n : forall acc,
  acc <> Decimal.Nil -> Nat.to_little_uint n acc <> Decimal.Nil.
Proof.
  induction n; intros acc H; simpl; [exact H|]. apply IHn, little_succ_nonnil.
Qed.

Lemma to_uint_nonnil n : Nat.to_uint n <> Decimal.Nil.
Proof.
  unfold Nat.to_uint, Decimal.rev.
  destruct (Nat.to_little_uint n Decimal.zero) eqn:E;
    try (simpl; apply revapp_nonnil; congruence).
  exfalso. revert E. apply to_little_uint_nonnil. discriminate.
Qed.

Lemma is_index_of_nat i : Js.is_index (Js.string_of_nat i) = true.
Proof.
  unfold Js.is_index, Js.string_of_nat. rewrite uint_digits, andb_true_r.
  apply negb_true_iff, String.eqb_neq. intros E.
  apply uint_empty in E. exact (to_uint_nonnil i E).
Qed.

Lemma elements_indexed vs : forall i,
  map snd (filter (fun kv => Js.is_index (fst kv) = true) (Store.indexed i vs)) = vs.
Proof.
  induction vs as [|v vs IH]; intros i; [reflexivity|].
  cbn [Store.indexed]. rewrite filter_cons_True by apply is_index_of_nat.
  cbn [map snd]. rewrite IH. reflexivity.
Qed.

Lemma elements_array h l vs :
  h !! l = Some (Store.array vs) -> Store.elements h (VObj l) = vs.
Proof.
  intros H. unfold Store.elements, Store.entries, heap in *. rewrite H.
  apply elements_indexed.
Qed.

(** [_.map(data, item => new dataClass(item))]: one fresh instance per
    item, allocated in order on top of the store. *)
Lemma instantiate_all_spec C items : forall h,
  exists h2,
    instantiate_all' (VFun C) h items
    = Some (imap (fun i _ => VObj (length h + i)%nat) items, h2)
    /\ length h2 = (length h + length items)%nat
    /\ take (length h) h2 = h
    /\ forall i item, items !! i = Some item ->
         h2 !! (length h + i)%nat = Some (construct C (take (length h + i) h2) item).
Proof.
  induction items as [|item rest IH]; intros h.
  - exists h. split; [reflexivity|]. split; [simpl; lia|].
    split; [apply take_ge; lia|]. intros i item [=].
  - cbn [instantiate_all instantiate Store.alloc].
    destruct (IH (h ++ [construct C h item])) as (h2 & E & L & T & F).
    rewrite E. exists h2.
    assert (Lh : length (h ++ [construct C h item]) = S (length h))
      by (rewrite length_app; simpl; lia).
    assert (T0 : take (length h) h2 = h).
    { replace (length h) with (length h `min` length (h ++ [construct C h item]))%nat at 1
        by (rewrite Lh; lia).
      rewrite <- take_take, T. apply take_app_length. }
    split.
    { f_equal. cbn [imap]. f_equal. f_equal; [f_equal; lia|].
      apply imap_ext. intros i x _. cbn. f_equal. rewrite Lh. lia. }
    split; [rewrite L, Lh; simpl; lia|]. split; [exact T0|].
    intros [|i] item' Hi.
    + injection Hi as <-. rewrite Nat.add_0_r, T0.
      rewrite <- (take_drop (length (h ++ [construct C h item])) h2), T.
      apply lookup_app_l_Some, list_lookup_middle. reflexivity.
    + replace (length h + S i)%nat with (length (h ++ [construct C h item]) + i)%nat
        by (rewrite Lh; lia).
      apply F, Hi.
Qed.

(** [_.extend(requestOptions.data, data, {data: data})] writes to the
    request data only. *)
Lemma request_data_other h target data l :
  target <> VObj l ->
  Store.extend_props (Store.extend h target data) target [("data", data)] !! l = h !! l.
Proof.
  intros H. unfold Store.extend. rewrite !extend_props_other by exact H. reflexivity.
Qed.

Lemma read_same h h' o k :
  (forall l, o = VObj l -> h' !! l = h !! l) -> read h' o k = read h o k.
Proof.
  intros H. unfold read, Store.get. destruct o; try reflexivity.
  unfold heap in *. rewrite (H l eq_refl). reflexivity.
Qed.

Lemma entries_same h h' o :
  (forall l, o = VObj l -> h' !! l = h !! l) -> Store.entries h' o = Store.entries h o.
Proof.
  intros H. unfold Store.entries. destruct o; try reflexivity.
  unfold heap in *. rewrite (H l eq_refl). reflexivity.
Qed.

Lemma isArray_same h h' o :
  (forall l, o = VObj l -> h' !! l = h !! l) -> Store.isArray h' o = Store.isArray h o.
Proof.
  intros H. unfold Store.isArray. destruct o; try reflexivity.
  unfold heap in *. rewrite (H l eq_refl). reflexivity.
Qed.

(** X15: a 2xx response to a registered endpoint whose request options
    name a model class, outside full-response mode, with request data
    that is neither the options object nor the payload.  For an array
    payload the call resolves with a fresh array holding one fresh
    instance per element, in the order of the payload, each constructed
    from its element; for any other payload it resolves with one instance
    constructed from the payload. *)
Theorem settle_instantiates (requestOptions : value) (m : string) (cb : callback)
    (statusCode : Z) (data response resolveArgument : value) (w : world) (C : string)
    (Hs : 200 <= statusCode <= 299) (Hm : manual m = false)
    (HC : read (store w) requestOptions "dataClass" = VFun C)
    (Hd1 : read (store w) requestOptions "data" <> requestOptions)
    (Hd2 : read (store w) requestOptions "data" <> data) :
  let r := settle' requestOptions m cb false statusCode data response resolveArgument w in
  let n := length (store w) in
  let items := Store.elements (store w) data in
  if Store.isArray (store w) data then
    fst r = Resolved (VObj (n + length items))
    /\ Store.isArray (store (snd r)) (VObj (n + length items)) = true
    /\ Store.elements (store (snd r)) (VObj (n + length items))
       = imap (fun i _ => VObj (n + i)%nat) items
    /\ (forall i item, items !! i = Some item ->
          store (snd r) !! (n + i)%nat
          = Some (construct C (take (n + i) (store (snd r))) item))
  else
    fst r = Resolved (VObj n)
    /\ store (snd r) !! n = Some (construct C (take n (store (snd r))) data).
Proof.
  intros r n items. subst r. unfold settle.
  assert (Hb : (statusCode <? 200) || (299 <? statusCode) = false).
  { apply orb_false_iff. split; apply Z.ltb_ge; lia. }
  rewrite Hb, Hm. cbn [negb]. cbv zeta. rewrite !setRateLimits_store.
  fold (read (store w) requestOptions "data").
  set (target := read (store w) requestOptions "data") in *.
  set (h1 := Store.extend_props (Store.extend (store w) target data) target
               [("data", data)]).
  assert (K1 : forall l, requestOptions = VObj l -> h1 !! l = store w !! l)
    by (intros l ->; apply request_data_other, Hd1).
  assert (K2 : forall l, data = VObj l -> h1 !! l = store w !! l)
    by (intros l ->; apply request_data_other, Hd2).
  assert (L1 : length h1 = n)
    by (subst h1; unfold Store.extend; rewrite !extend_props_length; reflexivity).
  fold (read h1 requestOptions "dataClass").
  rewrite (read_same _ _ _ _ K1), HC. cbn [Js.truthy andb negb].
  rewrite (isArray_same _ _ _ K2).
  set (w1 := set_store h1 (setRateLimits Number w
                             (default VUndef (Store.get (store w) response "headers")))).
  assert (Hfin : forall v h, store (if callable cb
                                    then invoke cb v response (set_store h w1)
                                    else set_store h w1) = h).
  { intros v h. destruct (callable cb); [|reflexivity].
    destruct (invoke_frame cb v response (set_store h w1)) as (-> & _). reflexivity. }
  destruct (Store.isArray (store w) data).
  - assert (Hit : Store.elements h1 data = items)
      by (unfold items, Store.elements; rewrite (entries_same _ _ _ K2); reflexivity).
    rewrite Hit.
    destruct (instantiate_all_spec C items h1) as (h2 & E & L & T & F).
    rewrite E. unfold Store.alloc. cbn [fst snd resolve hd]. rewrite Hfin.
    rewrite L1 in L, F, E |- *.
    assert (Harr : (h2 ++ [Store.array (imap (fun i _ => VObj (n + i)%nat) items)])
                     !! (n + length items)%nat
                   = Some (Store.array (imap (fun i _ => VObj (n + i)%nat) items)))
      by (apply list_lookup_middle; lia).
    split; [rewrite L; reflexivity|].
    split; [unfold Store.isArray, heap in *; rewrite Harr; reflexivity|].
    split; [apply elements_array, Harr|].
    intros i item Hi. pose proof (lookup_lt_Some _ _ _ Hi) as Hlt.
    rewrite take_app_le by lia.
    apply lookup_app_l_Some, F, Hi.
  - cbn [instantiate Store.alloc fst snd resolve hd]. rewrite Hfin, L1.
    split; [reflexivity|].
    rewrite (take_app_length' h1 _ n) by (symmetry; exact L1).
    apply list_lookup_middle. symmetry. exact L1.
Qed.

Lemma instantiate_old dataClass h item v h2 l o :
  instantiate construct dataClass h item = Some (v, h2) -> h !! l = Some o -> h2 !! l = Some o.
Proof.
  destruct dataClass; try discriminate. cbn [instantiate Store.alloc].
  intros [= _ <-] H. apply lookup_app_l_Some, H.
Qed.

Lemma instantiate_all_old dataClass items : forall h vs h2 l o,
  instantiate_all' dataClass h items = Some (vs, h2) -> h !! l = Some o -> h2 !! l = Some o.
Proof.
  induction items as [|item rest IH]; intros h vs h2 l o; cbn [instantiate_all].
  - intros [= _ <-] H. exact H.
  - destruct (instantiate construct dataClass h item) as [[v h1]|] eqn:E1; [|discriminate].
    destruct (instantiate_all' dataClass h1 rest) as [[vs' h2']|] eqn:E2; [|discriminate].
    intros [= _ <-] H. eapply IH; [exact E2|]. eapply instantiate_old; [exact E1|exact H].
Qed.

(** X16: what a 2xx response to a registered endpoint writes to the
    store.  When the request options hold a data object, that object (the
    one the request was sent with) receives every own property of the
    payload and the payload itself under [data]; this happens whatever
    the callback, the full-response flag and the model class are, and also
    when the instantiation fails.  No other object that was in the store
    is changed; in particular nothing is, when the request has no data
    object. *)
Theorem settle_extends_request_data (requestOptions : value) (m : string) (cb : callback)
    (full : bool) (statusCode : Z) (data response resolveArgument : value) (w : world)
    (Hs : 200 <= statusCode <= 299) (Hm : manual m = false) :
  let r := settle' requestOptions m cb full statusCode data response resolveArgument w in
  (forall d od,
      read (store w) requestOptions "data" = VObj d -> store w !! d = Some od ->
      store (snd r) !! d
      = Some (Store.with_props od
                (Js.assign "data" data
                   (Store.assign_all (Store.entries (store w) data) (props od)))))
  /\ (forall l o,
        read (store w) requestOptions "data" <> VObj l ->
        store w !! l = Some o -> store (snd r) !! l = Some o).
Proof.
  intros r. subst r. unfold settle.
  assert (Hb : (statusCode <? 200) || (299 <? statusCode) = false).
  { apply orb_false_iff. split; apply Z.ltb_ge; lia. }
  rewrite Hb, Hm. cbn [negb]. cbv zeta. rewrite !setRateLimits_store.
  fold (read (store w) requestOptions "data").
  set (target := read (store w) requestOptions "data") in *.
  set (h1 := Store.extend_props (Store.extend (store w) target data) target
               [("data", data)]).
  set (w1 := set_store h1 (setRateLimits Number w
                             (default VUndef (Store.get (store w) response "headers")))).
  assert (Hfin : forall v h, store (if callable cb
                                    then invoke cb v response (set_store h w1)
                                    else set_store h w1) = h).
  { intros v h. destruct (callable cb); [|reflexivity].
    destruct (invoke_frame cb v response (set_store h w1)) as (-> & _). reflexivity. }
  assert (Hfin1 : forall v, store (if callable cb then invoke cb v response w1 else w1) = h1).
  { intros v. destruct (callable cb); [|reflexivity].
    destruct (invoke_frame cb v response w1) as (-> & _). reflexivity. }
  match goal with |- context [snd ?R] => set (R0 := R) end.
  assert (Hkeep : forall l o, h1 !! l = Some o -> store (snd R0) !! l = Some o).
  { intros l o H. subst R0.
    destruct (Js.truthy (default VUndef (Store.get h1 requestOptions "dataClass"))
              && negb full); [destruct (Store.isArray h1 data)|].
    - destruct (instantiate_all' _ h1 (Store.elements h1 data)) as [[vs h2]|] eqn:E.
      + unfold Store.alloc. cbn [snd]. rewrite Hfin.
        apply lookup_app_l_Some. eapply instantiate_all_old; [exact E|exact H].
      + exact H.
    - destruct (instantiate construct _ h1 data) as [[v h2]|] eqn:E.
      + cbn [snd]. rewrite Hfin. eapply instantiate_old; [exact E|exact H].
      + exact H.
    - cbn [snd]. rewrite Hfin1. exact H. }
  split.
  - intros d od Hd Ho. apply Hkeep. subst h1. rewrite Hd. unfold Store.extend.
    erewrite extend_props_target by (apply extend_props_target, Ho).
    reflexivity.
  - intros l o Hl Ho. apply Hkeep. subst h1. rewrite request_data_other by exact Hl.
    exact Ho.
Qed.

End InstantiateFacts.

(** X15, witness: two users come back for [Users_All]. *)
Lemma settle_instantiates_witness :
  let w := mkWorld [plain [("Id", VStr "u1")]; plain [("Id", VStr "u2")];
                    Store.array [VObj 0%nat; VObj 1%nat];
                    plain [("dataClass", VFun "User")];
                    mkObject ["IncomingMessage"] false [("statusCode", VNum (Num 200))]]
                   0%nat VUndef None 0 [] [] in
  let r := settle NumberLiteral.Number Sdk.construct (VObj 3%nat) "Users_All"
             (CbUser VUndef) false 200 (VObj 2%nat) (VObj 4%nat) (VObj 2%nat) w in
  fst r = Resolved (VObj 7%nat)
  /\ Store.elements (store (snd r)) (VObj 7%nat) = [VObj 5%nat; VObj 6%nat]
  /\ store (snd r) !! 6%nat
     = Some (mkObject ["User"; "EntityBase"; "Model"] false [("Id", VStr "u2")]).
Proof.
  intros w r.
  assert (Hs : 200 <= 200 <= 299) by lia.
  assert (Hd : read (store w) (VObj 3%nat) "data" <> VObj 3%nat) by discriminate.
  assert (Hp : read (store w) (VObj 3%nat) "data" <> VObj 2%nat) by discriminate.
  pose proof (settle_instantiates NumberLiteral.Number Sdk.construct (VObj 3%nat)
                "Users_All" (CbUser VUndef) 200 (VObj 2%nat) (VObj 4%nat) (VObj 2%nat)
                w "User" Hs eq_refl eq_refl Hd Hp) as H.
  cbv zeta in H.
  assert (A : Store.isArray (store w) (VObj 2%nat) = true) by reflexivity.
  rewrite A in H. destruct H as (H1 & _ & H3 & H4).
  split; [exact H1|]. split; [exact H3|].
  exact (H4 1%nat (VObj 1%nat) eq_refl).
Defined.

(** X16, witness: a created user comes back; the request data receives
    the [Id] and the payload. *)
Lemma settle_extends_request_data_witness :
  let w := mkWorld [plain [("FirstName", VStr "Ada")];
                    plain [("data", VObj 0%nat)];
                    plain [("Id", VStr "u1"); ("FirstName", VStr "Ada")]]
                   0%nat VUndef None 0 [] [] in
  let r := settle NumberLiteral.Number Sdk.construct (VObj 1%nat) "Users_Create"
             (CbUser VUndef) false 201 (VObj 2%nat) VUndef (VObj 2%nat) w in
  store (snd r) !! 0%nat
  = Some (plain [("FirstName", VStr "Ada"); ("Id", VStr "u1"); ("data", VObj 2%nat)]).
Proof.
  intros w r.
  assert (Hs : 200 <= 201 <= 299) by lia.
  destruct (settle_extends_request_data NumberLiteral.Number Sdk.construct (VObj 1%nat)
              "Users_Create" (CbUser VUndef) false 201 (VObj 2%nat) VUndef (VObj 2%nat)
              w Hs eq_refl) as [H _].
  exact (H 0%nat (plain [("FirstName", VStr "Ada")]) eq_refl eq_refl).
Defined.

(** ** The retry after a 401 *)

Section RetryFacts.

Variable Number : string -> jsnum.
Variable ObjectToString : heap -> loc -> string.
Variable clientId : string.
Variable clientApiKey : string.
Variable debugMode : bool.
Variable apiMethods : list string.
Variable getReadOnlyProperties : object -> list string.
Variable toJSON : object -> option (list (string * value)).
Variable construct : string -> heap -> value -> object.

Local Abbreviation method' :=
  (method Number ObjectToString clientId clientApiKey debugMode apiMethods
          getReadOnlyProperties toJSON construct).
Local Abbreviation authorize' := (authorize Number ObjectToString clientId clientApiKey).
Local Abbreviation request' := (authorize_request clientId clientApiKey).
Local Abbreviation requestApi' :=
  (_requestApi Number ObjectToString clientId clientApiKey apiMethods construct).
Local Abbreviation needs' := (needsAuthorization Number ObjectToString).
Local Abbreviation serialize' := (serializeData getReadOnlyProperties toJSON).
Local Abbreviation logged' := (logged debugMode).
Local Abbreviation in_flight' := (in_flight toJSON).

(** Data that [method] leaves alone. *)
Lemma serializeData_settled l o w :
  store w !! l = Some o ->
  (forall d, Js.lookup "data" (props o) = Some (VObj d) ->
     exists od, store w !! d = Some od
                /\ existsb (String.eqb "EntityBase") (chain od) = false
                /\ toJSON od = None) ->
  serialize' (VObj l) w = (None, w).
Proof.
  intros Hl Hd. unfold serializeData.
  assert (E : default VUndef (Store.get (store w) (VObj l) "data")
              = default VUndef (Js.lookup "data" (props o)))
    by (unfold Store.get, heap in *; rewrite Hl; reflexivity).
  rewrite E. destruct (Js.lookup "data" (props o)) as [dv|] eqn:Hdv; [|reflexivity].
  cbn [from_option]. unfold id.
  destruct dv; cbn [Store.instance_of]; rewrite ?andb_false_r; try reflexivity.
  destruct (Hd _ eq_refl) as (od & Hod & Hc & Hj).
  unfold heap in *. rewrite Hod, Hc. cbn [Js.truthy andb mbind option_bind].
  rewrite Hj. reflexivity.
Qed.

(** Merging request options that were merged before: the new options
    read as the old ones, key by key, and are sent with the same headers
    table; only the path table is written to. *)
Lemma merge_retry w q oQ oR c oc :
  store w !! q = Some oQ -> well_keyed oQ ->
  store w !! self_requestOptions w = Some oR -> well_keyed oR ->
  (forall k, In k (Js.keys (props oR)) -> In k (Js.keys (props oQ))) ->
  Js.lookup "headers" (props oQ) = Some (VObj c) ->
  store w !! c = Some oc ->
  default VUndef (Js.lookup "Content-Type" (props oc)) <> VUndef ->
  (forall p, Js.lookup "path" (props oQ) = Some (VObj p) -> is_Some (store w !! p)) ->
  exists h oQ',
    mergeRequestOptions (VObj q) w = (length (store w), set_store h w)
    /\ h !! length (store w) = Some oQ'
    /\ well_keyed oQ'
    /\ (forall k, Js.lookup k (props oQ') = Js.lookup k (props oQ))
    /\ (forall k, In k (Js.keys (props oR)) -> In k (Js.keys (props oQ')))
    /\ length h = S (length (store w))
    /\ (forall x o, store w !! x = Some o ->
          Js.lookup "path" (props oQ) <> Some (VObj x) -> h !! x = Some o).
Proof.
  intros HQ KQ HR KR Hsub Hh Hc Hct Hpa. unfold mergeRequestOptions.
  destruct (extend_fresh_spec (store w) (VObj (self_requestOptions w)) (VObj q))
    as (Hf & Hq & Hlen & Hkept).
  - eapply lookup_lt_Some, HR.
  - eapply lookup_lt_Some, HQ.
  - destruct (Store.extend_fresh (store w) (VObj (self_requestOptions w)) (VObj q))
      as [q' h1].
    cbn [fst snd] in Hf, Hq, Hlen, Hkept. subst q'.
    assert (Ee : Store.entries (store w) (VObj q) = props oQ)
      by (unfold Store.entries, heap in *; rewrite HQ; reflexivity).
    assert (Er : Store.entries (store w) (VObj (self_requestOptions w)) = props oR)
      by (unfold Store.entries, heap in *; rewrite HR; reflexivity).
    rewrite Ee, Er in Hq.
    set (ps := Store.assign_all (props oQ) (Store.assign_all (props oR) [])) in *.
    assert (Hlk : forall k, Js.lookup k ps = Js.lookup k (props oQ)).
    { intros k. subst ps. rewrite (lookup_extend _ _ _ KQ).
      destruct (Js.lookup k (props oQ)) eqn:E; [reflexivity|].
      rewrite (lookup_extend _ _ _ KR).
      destruct (Js.lookup k (props oR)) eqn:E'; [|reflexivity].
      exfalso. apply lookup_keys, Hsub, In_keys_lookup in E'. destruct E' as [v' E'].
      congruence. }
    assert (E1 : read h1 (VObj q) "headers" = VObj c)
      by (rewrite (read_object _ _ _ _ (Hkept _ _ HQ)), Hh; reflexivity).
    assert (E2 : is_undefined (read h1 (VObj c) "Content-Type") = false).
    { rewrite (read_object _ _ _ _ (Hkept _ _ Hc)).
      destruct (default VUndef (Js.lookup "Content-Type" (props oc))); try reflexivity.
      congruence. }
    rewrite E1, E2. cbn [Js.truthy andb].
    assert (Ep : read h1 (VObj (length (store w))) "path"
                 = default VUndef (Js.lookup "path" (props oQ)))
      by (rewrite (read_object _ _ _ _ Hq); cbn [props plain]; rewrite Hlk; reflexivity).
    eexists _, (plain ps). split; [reflexivity|].
    assert (Hq' : (if Js.truthy (read h1 (VObj q) "path")
                   then mergeTables h1 "path" (VObj (length (store w)))
                          (VObj (self_requestOptions w)) (VObj q)
                   else h1) !! length (store w) = Some (plain ps)
                  /\ length (if Js.truthy (read h1 (VObj q) "path")
                             then mergeTables h1 "path" (VObj (length (store w)))
                                    (VObj (self_requestOptions w)) (VObj q)
                             else h1) = S (length (store w))
                  /\ forall x o, store w !! x = Some o ->
                       Js.lookup "path" (props oQ) <> Some (VObj x) ->
                       (if Js.truthy (read h1 (VObj q) "path")
                        then mergeTables h1 "path" (VObj (length (store w)))
                               (VObj (self_requestOptions w)) (VObj q)
                        else h1) !! x = Some o).
    { destruct (Js.truthy (read h1 (VObj q) "path")) eqn:Tp;
        [|split; [exact Hq|split; [exact Hlen|intros; apply Hkept; assumption]]].
      assert (Hother : forall x, Js.lookup "path" (props oQ) <> Some (VObj x) ->
                read h1 (VObj (length (store w))) "path" <> VObj x).
      { intros x Hx. rewrite Ep. destruct (Js.lookup "path" (props oQ)); [|discriminate].
        cbn [from_option]. unfold id. congruence. }
      split; [|split].
      - rewrite mergeTables_other; [exact Hq|]. apply Hother.
        intros Hp. destruct (Hpa _ Hp) as [op Hop]. apply lookup_lt_Some in Hop. lia.
      - unfold mergeTables, Store.extend. rewrite !extend_props_length. exact Hlen.
      - intros x o Hx Hp. rewrite mergeTables_other by (apply Hother, Hp).
        apply Hkept, Hx. }
    destruct Hq' as (A & B & D).
    split; [exact A|]. split; [apply assign_all_NoDup, assign_all_NoDup; constructor|].
    split; [exact Hlk|]. split; [|split; [exact B|exact D]].
    intros k Hk. apply lookup_in_keys. cbn [props plain]. rewrite Hlk.
    apply lookup_in_keys, Hsub, Hk.
Qed.

(** A 401: the request went out, the response was decoded on top of the
    store, and what follows is up to [authorize]. *)
Lemma requestApi_unauthorized retry requestOptions m cb w t headers body net' :
  dispatchable apiMethods (store w) requestOptions m ->
  network w = Response t 401 headers body :: net' ->
  exists w3,
    requestApi' retry requestOptions m cb w
    = match authorize' VUndef w3 with
      | (Resolved _, w4) =>
          in_then (retry m (CbAfterRetry
                              (Js.truthy (read (store w) requestOptions
                                            "resolveWithFullResponse")) cb)
                         requestOptions w4)
      | other => other
      end
    /\ (forall x o, store w !! x = Some o -> store w3 !! x = Some o)
    /\ self_requestOptions w3 = self_requestOptions w
    /\ network w3 = net'
    /\ trace w3
       = trace w ++ [ERequest m requestOptions (requestHeaders (store w) requestOptions)].
Proof.
  intros Hm Hnet.
  rewrite (requestApi_sends Number ObjectToString clientId clientApiKey apiMethods
             construct _ _ _ _ _ Hm).
  cbv zeta. unfold receive.
  cbn [network emit store self_requestOptions authorizationExpireTime rateLimits now trace].
  rewrite Hnet. cbn [store].
  pose proof (alloc_json_old body (store w)) as Hj.
  destruct (Store.alloc_json body (store w)) as [data h1].
  cbn [snd] in Hj. unfold Store.alloc. change (401 =? 401) with true. cbv iota.
  eexists. split; [reflexivity|].
  cbn [store set_store self_requestOptions network trace].
  split; [|auto].
  intros x o Hx.
  assert (Hx' : ((h1 ++ [plain (map (fun kv : string * string => (kv.1, VStr kv.2)) headers)])
                 ++ [mkObject ["IncomingMessage"] false
                       [("statusCode", VNum (Num 401)); ("headers", VObj (length h1))]])
                !! x = Some o)
    by (apply lookup_app_l_Some, lookup_app_l_Some, Hj, Hx).
  destruct (Js.truthy (read (store w) requestOptions "resolveWithFullResponse"));
    [|exact Hx'].
  rewrite extend_props_other; [exact Hx'|].
  intros [= E]. apply Hj, lookup_lt_Some in Hx. rewrite length_app in E. simpl in E. lia.
Qed.


(** One round: a 401, a grant, and the call is handed to [_requestApi]
    again. *)
Lemma retry_round fuel m cb w q hl c t1 hd1 body1 t2 s2 hd2 tt access n rest :
  in_flight' w q hl c ->
  dispatchable apiMethods (store w) (VObj q) m ->
  network w = Response t1 401 hd1 body1
              :: Response t2 s2 hd2 (token_body tt access n) :: rest ->
  tt <> "" -> access <> "" -> 60000 <= n * 1000 ->
  exists q' w' hs,
    requestApi' (method' (S fuel)) (VObj q) m cb w
    = in_then (requestApi' (method' fuel) (VObj q') m
                 (CbAfterRetry
                    (Js.truthy (read (store w) (VObj q) "resolveWithFullResponse")) cb) w')
    /\ network w' = rest
    /\ trace w'
       = trace w ++ [ERequest m (VObj q) (requestHeaders (store w) (VObj q));
                     EAuthRequest hs] ++ debug_line debugMode m (VObj q)
    /\ in_flight' w' q' hl c
    /\ dispatchable apiMethods (store w') (VObj q') m
    /\ requestHeaders (store w') (VObj q')
       = (if decide (c = hl)
          then Js.assign "Authorization" (VStr (tt +:+ " " +:+ access))
                 (requestHeaders (store w) (VObj q))
          else requestHeaders (store w) (VObj q))
    /\ authorizationHeader w' = Some (VStr (tt +:+ " " +:+ access)).
Proof.
  intros (oR & oQ & oh & oc & HR & Hl & HQ & Hc & KR & KQ & Hsub & Hh & Hqh & Hct
          & Hne & Hqhl & Hpath & Hdata) Hm Hnet Htt Hat Hn.
  destruct (requestApi_unauthorized (method' (S fuel)) (VObj q) m cb w t1 hd1 body1 _
              Hm Hnet) as (w3 & Erun & K3 & R3 & N3 & T3).
  set (full := Js.truthy (read (store w) (VObj q) "resolveWithFullResponse")) in *.
  set (sent := requestHeaders (store w) (VObj q)) in *.
  (* the grant *)
  destruct (authorize_resolved Number ObjectToString clientId clientApiKey
              w3 oR hl oh t2 s2 hd2 rest tt access n)
    as (data & w4 & A & AR & Anet & Anow & Aexp & Ahl & Akept & Atr);
    [rewrite R3; apply K3, HR|exact Hh|apply K3, Hl|rewrite R3; exact Hne
    |exact N3|exact Htt|exact Hat|].
  rewrite A in Erun.
  (* the retry *)
  set (wl4 := logged' m (VObj q) w4).
  destruct (logged_fields debugMode m (VObj q) w4)
    as (Ls4 & Lr4 & Le4 & _ & Ln4 & Lnet4 & Ltr4).
  fold wl4 in Ls4, Lr4, Le4, Ln4, Lnet4, Ltr4.
  assert (K4 : forall x o, x <> hl -> store w !! x = Some o -> store wl4 !! x = Some o)
    by (intros x o Hx Ho; rewrite Ls4; apply Akept; [exact Hx|apply K3, Ho]).
  assert (R4 : self_requestOptions wl4 = self_requestOptions w) by congruence.
  assert (HR4 : store wl4 !! self_requestOptions wl4 = Some oR)
    by (rewrite R4; apply K4; [congruence|exact HR]).
  assert (Hl4 : store wl4 !! hl
                = Some (Store.with_props oh
                          (Js.assign "Authorization" (VStr (tt +:+ " " +:+ access))
                             (props oh))))
    by (rewrite Ls4; exact Ahl).
  assert (HQ4 : store wl4 !! q = Some oQ) by (apply K4; [exact Hqhl|exact HQ]).
  assert (Hc4 : exists oc4,
             store wl4 !! c = Some oc4
             /\ default VUndef (Js.lookup "Content-Type" (props oc4)) <> VUndef
             /\ props oc4 = if decide (c = hl)
                            then Js.assign "Authorization" (VStr (tt +:+ " " +:+ access))
                                   (props oc)
                            else props oc).
  { destruct (decide (c = hl)) as [->|Hchl].
    - assert (oc = oh) by congruence. subst oc.
      eexists. split; [exact Hl4|]. cbn [props Store.with_props]. split; [|reflexivity].
      rewrite lookup_assign_ne by discriminate. exact Hct.
    - exists oc. split; [apply K4; [exact Hchl|exact Hc]|]. split; [exact Hct|reflexivity]. }
  destruct Hc4 as (oc4 & Hc4 & Hct4 & Hp4).
  pose proof (getOptions_given (CbAfterRetry full cb) (VObj q) w4 eq_refl) as G2.
  assert (S2 : serialize' (VObj q) wl4 = (None, wl4)).
  { apply (serializeData_settled q oQ wl4 HQ4). intros d Hd.
    destruct (Hdata d Hd) as (Hdh & _ & od & Hod & Hch & Hj).
    exists od. split; [apply K4; [exact Hdh|exact Hod]|]. split; [exact Hch|exact Hj]. }
  assert (N2 : needs' wl4 = Some false).
  { rewrite (needs_of_header Number ObjectToString wl4 oR hl _ HR4 Hh Hl4).
    cbn [props Store.with_props].
    rewrite lookup_assign_eq. cbn [from_option]. unfold id.
    rewrite (token_not_empty _ _ Htt).
    unfold isExpired. rewrite Le4, Ln4, Aexp, Anow. cbn [to_number Js.sub Js.gt negb orb].
    f_equal. apply Z.ltb_ge. unfold THRESHOLD. lia. }
  pose proof (method_dispatches Number ObjectToString clientId clientApiKey debugMode
                apiMethods getReadOnlyProperties toJSON construct
                fuel m (CbAfterRetry full cb) (VObj q) w4 (VObj q) w4 G2 S2 N2) as E2.
  fold wl4 in E2.
  destruct (merge_retry wl4 q oQ oR c oc4 HQ4 KQ HR4 KR Hsub Hqh Hc4 Hct4)
    as (h & oQ' & M & Hq' & KQ' & Hlk & Hsub' & Hlen & Hkept).
  { intros p Hp. destruct (Hpath p Hp) as (_ & Hph & _ & [op Hop]).
    exists op. apply K4; [exact Hph|exact Hop]. }
  rewrite M in E2. cbn [fst snd] in E2.
  assert (Hnp : forall x, x = self_requestOptions w \/ x = hl \/ x = c ->
                          Js.lookup "path" (props oQ) <> Some (VObj x)).
  { intros x Hx Hp. destruct (Hpath x Hp) as (P1 & P2 & P3 & _).
    destruct Hx as [E|[E|E]]; congruence. }
  assert (HRf : h !! self_requestOptions w = Some oR)
    by (apply Hkept; [rewrite <- R4; exact HR4|apply Hnp; auto]).
  assert (Hlf : h !! hl = Some (Store.with_props oh
                                  (Js.assign "Authorization"
                                     (VStr (tt +:+ " " +:+ access)) (props oh))))
    by (apply Hkept; [exact Hl4|apply Hnp; auto]).
  assert (Hcf : h !! c = Some oc4) by (apply Hkept; [exact Hc4|apply Hnp; auto]).
  assert (Hsent : requestHeaders h (VObj (length (store wl4))) = props oc4).
  { unfold requestHeaders. fold (read h (VObj (length (store wl4))) "headers").
    rewrite (read_object _ _ _ _ Hq'), Hlk, Hqh. cbn [from_option]. unfold id.
    unfold Store.entries, heap in *. rewrite Hcf. reflexivity. }
  assert (Hsent0 : sent = props oc).
  { subst sent. unfold requestHeaders. fold (read (store w) (VObj q) "headers").
    rewrite (read_object _ _ _ _ HQ), Hqh. cbn [from_option]. unfold id.
    unfold Store.entries, heap in *. rewrite Hc. reflexivity. }
  exists (length (store wl4)), (set_store h wl4). eexists.
  split; [rewrite Erun, E2; reflexivity|].
  split; [cbn [network set_store]; rewrite Lnet4; exact Anet|].
  split.
  { cbn [trace set_store]. rewrite Ltr4, Atr.
    rewrite (request_headers clientId clientApiKey w3 oR hl oh
               ltac:(rewrite R3; apply K3, HR) Hh (K3 _ _ Hl)), T3.
    rewrite <- !app_assoc. reflexivity. }
  split.
  { exists oR, oQ', (Store.with_props oh
                       (Js.assign "Authorization" (VStr (tt +:+ " " +:+ access))
                          (props oh))), oc4.
    cbn [store set_store self_requestOptions]. rewrite R4.
    split; [exact HRf|]. split; [exact Hlf|]. split; [exact Hq'|]. split; [exact Hcf|].
    split; [exact KR|]. split; [exact KQ'|]. split; [exact Hsub'|]. split; [exact Hh|].
    split; [rewrite Hlk; exact Hqh|]. split; [exact Hct4|]. split; [exact Hne|].
    split; [apply lookup_lt_Some in Hl4; lia|]. split.
    - intros p Hp. rewrite Hlk in Hp. destruct (Hpath p Hp) as (P1 & P2 & P3 & [op Hop]).
      split; [exact P1|]. split; [exact P2|]. split; [exact P3|].
      apply lookup_lt_is_Some. rewrite Hlen.
      pose proof (lookup_lt_Some _ _ _ (K4 _ _ P2 Hop)). lia.
    - intros d Hd. rewrite Hlk in Hd. destruct (Hdata d Hd) as (Hdh & Hdp & od & Hod & Hch & Hj).
      split; [exact Hdh|]. split; [rewrite Hlk; exact Hdp|].
      exists od. split; [|split; [exact Hch|exact Hj]].
      apply Hkept; [apply K4; [exact Hdh|exact Hod]|exact Hdp]. }
  split.
  { destruct Hm as (Hm1 & Hm2 & Hm3). split; [exact Hm1|]. split; [|exact Hm3].
    intros Hman. cbn [store set_store]. rewrite (read_object _ _ _ _ Hq'), Hlk.
    rewrite <- (read_object _ _ _ _ HQ). apply Hm2, Hman. }
  split.
  { cbn [store set_store]. rewrite Hsent, Hp4, Hsent0. reflexivity. }
  unfold authorizationHeader, Store.get, heap in *.
  cbn [store set_store self_requestOptions]. rewrite R4, HRf, Hh.
  cbn [from_option]. unfold id. rewrite Hlf. cbn [props Store.with_props].
  rewrite lookup_assign_eq. reflexivity.
Qed.

(** X17: the headers of the retry.  A request in flight is answered with
    401 and the token endpoint then grants a token good for a minute at
    least: [_requestApi] re-authorizes, the new token becomes the default
    Authorization header, and the call is handed to [_requestApi] again
    through [method].  The retry is sent with the headers table of the
    first attempt: when that is the default table the retry carries the new
    token; when it is a table of the caller's own, the retry carries
    exactly the headers of the attempt that was refused, not the new
    token. *)
Theorem retry_headers (fuel : nat) (m : string) (cb : callback) (w : world)
    (q hl c : loc) (t1 t2 s2 : Z) (hd1 hd2 : list (string * string)) (body1 : json)
    (tt access : string) (n : Z) (rest : list arrival)
    (Hf : in_flight' w q hl c)
    (Hm : dispatchable apiMethods (store w) (VObj q) m)
    (Hnet : network w = Response t1 401 hd1 body1
                        :: Response t2 s2 hd2 (token_body tt access n) :: rest)
    (Htt : tt <> "") (Hat : access <> "") (Hn : 60000 <= n * 1000) :
  exists q' w',
    requestApi' (method' (S fuel)) (VObj q) m cb w
    = in_then (requestApi' (method' fuel) (VObj q') m
                 (CbAfterRetry
                    (Js.truthy (read (store w) (VObj q) "resolveWithFullResponse")) cb) w')
    /\ network w' = rest
    /\ authorizationHeader w' = Some (VStr (tt +:+ " " +:+ access))
    /\ (c = hl ->
        Js.lookup "Authorization" (requestHeaders (store w') (VObj q'))
        = Some (VStr (tt +:+ " " +:+ access)))
    /\ (c <> hl ->
        requestHeaders (store w') (VObj q') = requestHeaders (store w) (VObj q)).
Proof.
  destruct (retry_round fuel m cb w q hl c t1 hd1 body1 t2 s2 hd2 tt access n rest
              Hf Hm Hnet Htt Hat Hn)
    as (q' & w' & hs & E & N & _ & _ & _ & Hs & Ha).
  exists q', w'. split; [exact E|]. split; [exact N|]. split; [exact Ha|].
  rewrite Hs. split; intros Hc; destruct (decide (c = hl)); try congruence.
  apply lookup_assign_eq.
Qed.

Lemma count_app f a b : count f (a ++ b) = (count f a + count f b)%nat.
Proof. unfold count. rewrite List.filter_app, length_app. reflexivity. Qed.

Lemma count_debug_line f m options :
  f (ELog m options) = false -> count f (debug_line debugMode m options) = 0%nat.
Proof. intros H. unfold count, debug_line. destruct debugMode; simpl; rewrite ?H; reflexivity. Qed.

(** X18: retries are not bounded.  When the API refuses a request in
    flight [k] times in a row, the token endpoint granting a token after
    each refusal, and then no more answers arrive, the call is pending
    after [k + 1] API requests and [k] token requests: every 401 is
    followed by a re-authorization and a further attempt, the second like
    the first. *)
Theorem refused_call_retries (k fuel : nat) (m : string) :
  forall (cb : callback) (w : world) (q hl c : loc)
    (Hf : in_flight' w q hl c)
    (Hm : dispatchable apiMethods (store w) (VObj q) m)
    (Hnet : refused k (network w)),
  exists w',
    requestApi' (method' (k + fuel)) (VObj q) m cb w = (Pending, w')
    /\ count is_request (trace w') = (count is_request (trace w) + S k)%nat
    /\ count is_token_request (trace w') = (count is_token_request (trace w) + k)%nat.
Proof.
  induction k as [|k IH]; intros cb w q hl c Hf Hm Hnet.
  - cbn [refused] in Hnet.
    rewrite (requestApi_sends Number ObjectToString clientId clientApiKey apiMethods
               construct _ _ _ _ _ Hm).
    cbv zeta. unfold receive. cbn [network emit]. rewrite Hnet.
    eexists. split; [reflexivity|]. cbn [trace emit]. rewrite !count_app.
    split; reflexivity.
  - destruct Hnet as (a & b & net' & Hnet & (t1 & hd1 & body1 & ->)
                      & (t2 & s2 & hd2 & tt & access & n & -> & Htt & Hat & Hn) & Hrest).
    destruct (retry_round (k + fuel) m cb w q hl c t1 hd1 body1 t2 s2 hd2 tt access n net'
                Hf Hm Hnet Htt Hat Hn)
      as (q' & w' & hs & E & N & T & Hf' & Hm' & _).
    rewrite <- N in Hrest.
    destruct (IH (CbAfterRetry
                    (Js.truthy (read (store w) (VObj q) "resolveWithFullResponse")) cb)
                 w' q' hl c Hf' Hm' Hrest) as (w'' & E' & C1 & C2).
    exists w''. cbn [Nat.add]. rewrite E, E'. split; [reflexivity|].
    rewrite C1, C2, T, !count_app, !count_debug_line by reflexivity.
    cbn. split; lia.
Qed.

End RetryFacts.

(** X17, witness: a call sent with the caller's own headers table is
    refused; the retry goes out with the old token although the default
    header holds the new one. *)
Lemma retry_headers_witness :
  let own := [("X-Tenant", VStr "t1"); ("Content-Type", VStr "application/json");
              ("User-Agent", VStr "MangoPay V2 SDK Nodejs 1.0.0");
              ("Authorization", VStr "bearer old")] in
  let w := mkWorld (store (Sdk.Api 0 [])
                    ++ [plain own;
                        plain [("headers", VObj 6%nat); ("requestConfig", VObj 2%nat);
                               ("responseConfig", VObj 3%nat); ("path", VObj 4%nat)]])
                   1%nat (VNum (Num 900)) (Some []) 1000
                   [Response 1100 401 [] JNull;
                    Response 1200 200 [] (token_body "bearer" "abc" 3600)] [] in
  exists q' w',
    _requestApi NumberLiteral.Number Sdk.ObjectToString "sdk-unit-tests" "secret"
      Sdk.apiMethods Sdk.construct (Sdk.method 1) (VObj 7%nat) "Users_All"
      (CbUser VUndef) w
    = in_then (_requestApi NumberLiteral.Number Sdk.ObjectToString "sdk-unit-tests"
                 "secret" Sdk.apiMethods Sdk.construct (Sdk.method 0) (VObj q')
                 "Users_All" (CbAfterRetry false (CbUser VUndef)) w')
    /\ requestHeaders (store w') (VObj q') = own
    /\ authorizationHeader w' = Some (VStr "bearer abc").
Proof.
  intros own w.
  assert (Hf : in_flight Sdk.toJSON w 7%nat 5%nat 6%nat).
  { exists (plain [("headers", VObj 5%nat); ("requestConfig", VObj 2%nat);
                   ("responseConfig", VObj 3%nat); ("path", VObj 4%nat)]),
           (plain [("headers", VObj 6%nat); ("requestConfig", VObj 2%nat);
                   ("responseConfig", VObj 3%nat); ("path", VObj 4%nat)]),
           (plain [("Content-Type", VStr "application/json");
                   ("User-Agent", VStr "MangoPay V2 SDK Nodejs 1.0.0")]),
           (plain own).
    split; [reflexivity|]. split; [reflexivity|]. split; [reflexivity|].
    split; [reflexivity|].
    split; [unfold well_keyed; simpl; repeat constructor; rewrite ?list_elem_of_In; simpl;
            intuition discriminate|].
    split; [unfold well_keyed; simpl; repeat constructor; rewrite ?list_elem_of_In; simpl;
            intuition discriminate|].
    split; [intros k Hk; exact Hk|]. split; [reflexivity|]. split; [reflexivity|].
    split; [discriminate|]. split; [discriminate|]. split; [discriminate|].
    split.
    - intros p [= <-]. split; [discriminate|]. split; [discriminate|].
      split; [discriminate|]. eexists. reflexivity.
    - intros d [=]. }
  assert (Hm : dispatchable Sdk.apiMethods (store w) (VObj 7%nat) "Users_All")
    by (split; [discriminate|split; [intros [=]|reflexivity]]).
  assert (Hn : 60000 <= 3600 * 1000) by lia.
  destruct (retry_headers NumberLiteral.Number Sdk.ObjectToString "sdk-unit-tests"
              "secret" false Sdk.apiMethods Sdk.getReadOnlyProperties Sdk.toJSON
              Sdk.construct 0 "Users_All" (CbUser VUndef) w 7%nat 5%nat 6%nat
              1100 1200 200 [] [] JNull "bearer" "abc" 3600 [] Hf Hm eq_refl
              ltac:(discriminate) ltac:(discriminate) Hn)
    as (q' & w' & E & _ & A & _ & S).
  exists q', w'. split; [exact E|]. split; [|exact A].
  rewrite S by discriminate. reflexivity.
Defined.

(** X18, witness: two refusals in a row; three requests and two token
    requests were made, and the call is still pending. *)
Lemma refused_call_retries_witness :
  let w := mkWorld (store (Sdk.Api 0 [])
                    ++ [plain [("headers", VObj 5%nat); ("requestConfig", VObj 2%nat);
                               ("responseConfig", VObj 3%nat); ("path", VObj 4%nat)]])
                   1%nat (VNum (Num 900)) (Some []) 1000
                   [Response 1100 401 [] JNull;
                    Response 1200 200 [] (token_body "bearer" "abc" 3600);
                    Response 1300 401 [] JNull;
                    Response 1400 200 [] (token_body "bearer" "def" 3600)] [] in
  exists w',
    _requestApi NumberLiteral.Number Sdk.ObjectToString "sdk-unit-tests" "secret"
      Sdk.apiMethods Sdk.construct (Sdk.method 2) (VObj 6%nat) "Users_All"
      (CbUser VUndef) w
    = (Pending, w')
    /\ count is_request (trace w') = 3%nat
    /\ count is_token_request (trace w') = 2%nat.
Proof.
  intros w.
  assert (Hf : in_flight Sdk.toJSON w 6%nat 5%nat 5%nat).
  { exists (plain [("headers", VObj 5%nat); ("requestConfig", VObj 2%nat);
                   ("responseConfig", VObj 3%nat); ("path", VObj 4%nat)]),
           (plain [("headers", VObj 5%nat); ("requestConfig", VObj 2%nat);
                   ("responseConfig", VObj 3%nat); ("path", VObj 4%nat)]),
           (plain [("Content-Type", VStr "application/json");
                   ("User-Agent", VStr "MangoPay V2 SDK Nodejs 1.0.0")]),
           (plain [("Content-Type", VStr "application/json");
                   ("User-Agent", VStr "MangoPay V2 SDK Nodejs 1.0.0")]).
    split; [reflexivity|]. split; [reflexivity|]. split; [reflexivity|].
    split; [reflexivity|].
    split; [unfold well_keyed; simpl; repeat constructor; rewrite ?list_elem_of_In; simpl;
            intuition discriminate|].
    split; [unfold well_keyed; simpl; repeat constructor; rewrite ?list_elem_of_In; simpl;
            intuition discriminate|].
    split; [intros k Hk; exact Hk|]. split; [reflexivity|]. split; [reflexivity|].
    split; [discriminate|]. split; [discriminate|]. split; [discriminate|].
    split.
    - intros p [= <-]. split; [discriminate|]. split; [discriminate|].
      split; [discriminate|]. eexists. reflexivity.
    - intros d [=]. }
  assert (Hm : dispatchable Sdk.apiMethods (store w) (VObj 6%nat) "Users_All")
    by (split; [discriminate|split; [intros [=]|reflexivity]]).
  assert (Hn : 60000 <= 3600 * 1000) by lia.
  assert (Hnet : refused 2 (network w)).
  { do 3 eexists. split; [reflexivity|]. split; [do 3 eexists; reflexivity|].
    split; [do 6 eexists; split; [reflexivity|];
            split; [discriminate|split; [discriminate|exact Hn]]|].
    do 3 eexists. split; [reflexivity|]. split; [do 3 eexists; reflexivity|].
    split; [do 6 eexists; split; [reflexivity|];
            split; [discriminate|split; [discriminate|exact Hn]]|].
    reflexivity. }
  exact (refused_call_retries NumberLiteral.Number Sdk.ObjectToString "sdk-unit-tests"
           "secret" false Sdk.apiMethods Sdk.getReadOnlyProperties Sdk.toJSON
           Sdk.construct 2 0 "Users_All" (CbUser VUndef) w 6%nat 5%nat 5%nat Hf Hm Hnet).
Defined.

(** ** A call that cannot get a token *)

Section TokenRefused.

Variable Number : string -> jsnum.
Variable ObjectToString : heap -> loc -> string.
Variable clientId : string.
Variable clientApiKey : string.
Variable debugMode : bool.
Variable apiMethods : list string.
Variable getReadOnlyProperties : object -> list string.
Variable toJSON : object -> option (list (string * value)).
Variable construct : string -> heap -> value -> object.

Local Abbreviation method' :=
  (method Number ObjectToString clientId clientApiKey debugMode apiMethods
          getReadOnlyProperties toJSON construct).
Local Abbreviation authorize' := (authorize Number ObjectToString clientId clientApiKey).
Local Abbreviation authorized' := (authorized Number ObjectToString).
Local Abbreviation request' := (authorize_request clientId clientApiKey).
Local Abbreviation needs' := (needsAuthorization Number ObjectToString).
Local Abbreviation logged' := (logged debugMode).









End TokenRefused.


(** ** The caller's callback *)

Section CallbackFacts.

Variable Number : string -> jsnum.
Variable construct : string -> heap -> value -> object.

Local Abbreviation settle' := (settle Number construct).

(** Through any number of wrappers the caller's function, if it is one,
    is called once; anything else is never called. *)
Lemma invoke_called cb : forall x response w,
  trace (if callable cb then invoke cb x response w else w)
  = trace w ++ called cb x response.
Proof.
  unfold called.
  induction cb as [v|inner IH|full inner IH]; intros x response w.
  - destruct v; cbn; rewrite ?app_nil_r; reflexivity.
  - cbn [callable invoke user_callback passes_response]. apply IH.
  - cbn [callable invoke user_callback passes_response]. rewrite IH.
    destruct (user_callback inner); try reflexivity.
    destruct full, (passes_response inner); reflexivity.
Qed.

(** X20: whenever a 2xx response resolves the call, the caller's callback
    was called just before, exactly once if it is a function and not at
    all otherwise, after the rate-limit update and with the response as
    second argument; its first argument is the value the call resolves
    with, whether raw payload, model instances or full response, except
    behind a retry wrapper in full-response mode, which passes the
    response.  This holds at every depth of wrapping, so also for a call
    that had to authorize or to retry first. *)
Theorem settle_calls_back (requestOptions : value) (m : string) (cb : callback)
    (full : bool) (statusCode : Z) (data response resolveArgument : value) (w : world)
    (Hs : 200 <= statusCode <= 299) :
  let r := settle' requestOptions m cb full statusCode data response resolveArgument w in
  forall x, fst r = Resolved x ->
    trace (snd r)
    = trace (setRateLimits Number w (read (store w) response "headers"))
        ++ called cb x response.
Proof.
  intros r x. subst r. unfold settle.
  assert (Hb : (statusCode <? 200) || (299 <? statusCode) = false).
  { apply orb_false_iff. split; apply Z.ltb_ge; lia. }
  rewrite Hb. cbv zeta. fold (read (store w) response "headers").
  set (w1 := setRateLimits Number w (read (store w) response "headers")).
  assert (Hfin : forall v h, trace (if callable cb
                                    then invoke cb v response (set_store h w1)
                                    else set_store h w1)
                             = trace w1 ++ called cb v response)
    by (intros v h; rewrite invoke_called; reflexivity).
  destruct (negb (manual m)).
  - destruct (Js.truthy _ && negb full); [destruct (Store.isArray _ data)|].
    + destruct (instantiate_all construct _ _ _) as [[vs h2]|]; [|discriminate].
      unfold Store.alloc. cbn [fst snd resolve hd]. intros [= <-]. apply Hfin.
    + destruct (instantiate construct _ _ data) as [[v h2]|]; [|discriminate].
      cbn [fst snd resolve hd]. intros [= <-]. apply Hfin.
    + cbn [fst snd resolve hd]. intros [= <-]. apply Hfin.
  - cbn [fst snd resolve hd]. intros [= <-]. apply invoke_called.
Qed.

End CallbackFacts.

(** X20, witness: the retried call of a client in full-response mode
    comes back; the caller's function gets the response, which is what
    the call resolves with. *)
Lemma settle_calls_back_witness :
  let w := mkWorld [plain []; plain [("Id", VStr "u1")];
                    mkObject ["IncomingMessage"] false
                      [("statusCode", VNum (Num 200)); ("body", VObj 1%nat)]]
                   0%nat VUndef None 0 [] [] in
  let r := settle NumberLiteral.Number Sdk.construct (VObj 0%nat) "Users_All"
             (CbAfterRetry true (CbUser (VFun "done"))) true 200
             (VObj 1%nat) (VObj 2%nat) (VObj 2%nat) w in
  fst r = Resolved (VObj 2%nat)
  /\ trace (snd r) = [ECallback "done" [VObj 2%nat; VObj 2%nat]].
Proof.
  intros w r. split; [reflexivity|].
  assert (Hs : 200 <= 200 <= 299) by lia.
  exact (settle_calls_back NumberLiteral.Number Sdk.construct (VObj 0%nat) "Users_All"
           (CbAfterRetry true (CbUser (VFun "done"))) true 200
           (VObj 1%nat) (VObj 2%nat) (VObj 2%nat) w Hs (VObj 2%nat) eq_refl).
Defined.

(** ** What the data preparation of [method] writes *)

Section SerializeFrame.

Variable getReadOnlyProperties : object -> list string.
Variable toJSON : object -> option (list (string * value)).

Local Abbreviation serialize' := (serializeData getReadOnlyProperties toJSON).
Local Abbreviation inline' := (inline_subs toJSON).

(** The loop of [buildRequestData] on an entity without a designated
    sub-object: [canReadSubRequestData] is false at every key, so no
    [toJSON] is called and nothing is written. *)
Lemma inline_subs_idle entity requestData ks : forall h,
  (forall key, In key ks -> canReadSubRequestData h entity key = false) ->
  inline' h entity requestData ks = (h, None).
Proof.
  induction ks as [|key ks IH]; intros h Hk; cbn [inline_subs]; [reflexivity|].
  rewrite (Hk key) by (left; reflexivity). apply IH.
  intros key' Hin. apply Hk. right. exact Hin.
Qed.

(** X21: the data preparation at the head of [method], for an entity
    ([EntityBase]) none of whose own keys is a designated sub-object, so
    that no [toJSON] is called.  It does not throw; one object is added to
    the store, the payload, holding the entity's own fields whose names
    are not read-only; the [data] property of the options object is
    pointed at it; and the entity, like every other object than the
    options, is as before. *)
Theorem serializeData_frame (ol e : loc) (oo oe : object) (w : world)
    (HO : store w !! ol = Some oo)
    (Hd : Js.lookup "data" (props oo) = Some (VObj e))
    (HE : store w !! e = Some oe)
    (Hent : existsb (String.eqb "EntityBase") (chain oe) = true)
    (Hplain : forall key, In key (Js.keys (props oe)) ->
                canReadSubRequestData (store w) (VObj e) key = false) :
  let r := serialize' (VObj ol) w in
  let payload := length (store w) in
  fst r = None
  /\ length (store (snd r)) = S (length (store w))
  /\ store (snd r) !! payload
     = Some (plain (pick (props oe)
                      (difference (Js.keys (props oe)) (getReadOnlyProperties oe))))
  /\ store (snd r) !! ol
     = Some (Store.with_props oo (Js.assign "data" (VObj payload) (props oo)))
  /\ (forall x o, x <> ol -> store w !! x = Some o -> store (snd r) !! x = Some o).
Proof.
  intros r payload. subst r payload. unfold serializeData.
  assert (Ed : default VUndef (Store.get (store w) (VObj ol) "data") = VObj e)
    by (unfold Store.get, heap in *; rewrite HO, Hd; reflexivity).
  rewrite Ed.
  assert (Ei : Store.instance_of (store w) (VObj e) "EntityBase" = true)
    by (unfold Store.instance_of, heap in *; rewrite HE; exact Hent).
  rewrite Ei. cbn [Js.truthy andb].
  unfold buildRequestData, heap in *. rewrite HE. unfold Store.alloc.
  set (picked := plain (pick (props oe)
                          (difference (Js.keys (props oe)) (getReadOnlyProperties oe)))).
  set (h1 := store w ++ [picked]).
  rewrite (inline_subs_idle (VObj e) (VObj (length (store w))) (Js.keys (props oe)) h1).
  - cbn [fst snd store set_store].
    pose proof (lookup_lt_Some _ _ _ HO) as LO.
    assert (HO1 : h1 !! ol = Some oo) by (apply lookup_app_l_Some, HO).
    split; [reflexivity|]. split; [|split; [|split]].
    + unfold Store.set, heap in *. rewrite HO1, length_insert. subst h1.
      rewrite length_app. simpl. lia.
    + rewrite set_other by (intros [= E]; lia). apply list_lookup_middle. reflexivity.
    + apply set_target, HO1.
    + intros x o Hx Ho. rewrite set_other by congruence. apply lookup_app_l_Some, Ho.
  - intros key Hin. rewrite <- (Hplain key Hin). apply canRead_stable.
    unfold heap in *. rewrite HE. apply lookup_app_l_Some, HE.
Qed.

End SerializeFrame.

(** X21, witness: a user is prepared for sending; the options now hold
    the payload, without the read-only [Id], and the user is intact. *)
Lemma serializeData_frame_witness :
  let user := mkObject ["UserNatural"; "User"; "EntityBase"; "Model"] false
                [("Id", VStr "u1"); ("FirstName", VStr "Ada"); ("Tag", VStr "t")] in
  let w := mkWorld [user; plain [("data", VObj 0%nat)]] 0%nat VUndef None 0 [] [] in
  let r := serializeData Sdk.getReadOnlyProperties Sdk.toJSON (VObj 1%nat) w in
  fst r = None
  /\ store (snd r) !! 0%nat = Some user
  /\ store (snd r) !! 1%nat = Some (plain [("data", VObj 2%nat)])
  /\ store (snd r) !! 2%nat
     = Some (plain [("FirstName", VStr "Ada"); ("Tag", VStr "t")]).
Proof.
  intros user w r.
  destruct (serializeData_frame Sdk.getReadOnlyProperties Sdk.toJSON 1%nat 0%nat
              (plain [("data", VObj 0%nat)]) user w eq_refl eq_refl eq_refl eq_refl)
    as (R1 & _ & R3 & R4 & R5).
  - intros key Hin. reflexivity.
  - split; [exact R1|]. split; [apply R5; [discriminate|reflexivity]|].
    split; [exact R4|exact R3].
Defined.

(** ** Full-response mode *)

Section FullResponse.

Variable Number : string -> jsnum.
Variable ObjectToString : heap -> loc -> string.
Variable clientId : string.
Variable clientApiKey : string.
Variable apiMethods : list string.
Variable construct : string -> heap -> value -> object.

Local Abbreviation requestApi' :=
  (_requestApi Number ObjectToString clientId clientApiKey apiMethods construct).

Lemma setRateLimits_network w headers :
  network (setRateLimits Number w headers) = network w.
Proof.
  unfold setRateLimits.
  destruct headers; try reflexivity;
    destruct (read_headers Number _ _ _) as [rl' [|]]; reflexivity.
Qed.

(** X22: with [resolveWithFullResponse] set, a 2xx response resolves the
    call with the response object itself, to which the decoded payload
    was added under [body] next to the status code and the headers; no
    model instance is built, whatever [dataClass] is: the response is the
    last object of the store.  No retry is made: the network has given
    that one answer only. *)
Theorem requestApi_full_response
    (retry : string -> callback -> value -> world -> outcome * world)
    (q : loc) (oQ : object) (m : string) (cb : callback) (w : world)
    (t statusCode : Z) (headers : list (string * string)) (body : json)
    (rest : list arrival)
    (HQ : store w !! q = Some oQ)
    (Hfull : Js.truthy (default VUndef (Js.lookup "resolveWithFullResponse" (props oQ)))
             = true)
    (Hdata : forall d, Js.lookup "data" (props oQ) = Some (VObj d) ->
                       (d < length (store w))%nat)
    (Hm : dispatchable apiMethods (store w) (VObj q) m)
    (Hnet : network w = Response t statusCode headers body :: rest)
    (Hs : 200 <= statusCode <= 299) :
  let decoded := Store.alloc_json body (store w) in
  let hl := length (snd decoded) in
  let r := requestApi' retry (VObj q) m cb w in
  fst r = Resolved (VObj (S hl))
  /\ store (snd r) !! S hl
     = Some (mkObject ["IncomingMessage"] false
               [("statusCode", VNum (Num statusCode)); ("headers", VObj hl);
                ("body", fst decoded)])
  /\ store (snd r) !! hl
     = Some (plain (map (fun kv => (fst kv, VStr (snd kv))) headers))
  /\ length (store (snd r)) = S (S hl)
  /\ network (snd r) = rest.
Proof.
  intros decoded hl r. subst r.
  rewrite (requestApi_sends Number ObjectToString clientId clientApiKey apiMethods
             construct _ _ _ _ _ Hm).
  cbv zeta. unfold receive.
  cbn [network emit store self_requestOptions authorizationExpireTime rateLimits now trace].
  rewrite Hnet. cbn [store].
  rewrite (read_object _ _ _ _ HQ), Hfull.
  pose proof (alloc_json_old body (store w)) as Hj.
  pose proof (prefix_length _ _ (alloc_json_prefix body (store w))) as Hlen.
  subst hl decoded.
  destruct (Store.alloc_json body (store w)) as [data h1].
  cbn [fst snd] in *. unfold Store.alloc.
  assert (E401 : (statusCode =? 401) = false) by (apply Z.eqb_neq; lia).
  rewrite E401.
  set (hdo := plain (map (fun kv : string * string => (kv.1, VStr kv.2)) headers)).
  set (h3 := (h1 ++ [hdo])
             ++ [mkObject ["IncomingMessage"] false
                   [("statusCode", VNum (Num statusCode)); ("headers", VObj (length h1))]]).
  assert (Lr : length (h1 ++ [hdo]) = S (length h1)) by (rewrite length_app; simpl; lia).
  rewrite Lr.
  set (h4 := Store.extend_props h3 (VObj (S (length h1))) [("body", data)]).
  assert (L4 : length h4 = S (S (length h1))).
  { subst h4 h3. rewrite extend_props_length, length_app, Lr. simpl. lia. }
  assert (Hresp : h4 !! S (length h1)
                  = Some (mkObject ["IncomingMessage"] false
                            [("statusCode", VNum (Num statusCode));
                             ("headers", VObj (length h1)); ("body", data)])).
  { subst h4.
    rewrite (extend_props_target h3 _
               (mkObject ["IncomingMessage"] false
                  [("statusCode", VNum (Num statusCode)); ("headers", VObj (length h1))]));
      [reflexivity|].
    subst h3. apply list_lookup_middle. symmetry. exact Lr. }
  assert (Hhd : h4 !! length h1 = Some hdo).
  { subst h4. rewrite extend_props_other by (intros [= E]; lia).
    subst h3. apply lookup_app_l_Some, list_lookup_middle. reflexivity. }
  assert (HQ4 : h4 !! q = Some oQ).
  { subst h4. pose proof (lookup_lt_Some _ _ _ HQ).
    rewrite extend_props_other by (intros [= E]; lia).
    subst h3. apply lookup_app_l_Some, lookup_app_l_Some, Hj, HQ. }
  match goal with |- context [settle _ _ _ _ _ _ _ _ _ _ ?x] => set (w3 := x) end.
  unfold settle.
  assert (Hb : (statusCode <? 200) || (299 <? statusCode) = false).
  { apply orb_false_iff. split; apply Z.ltb_ge; lia. }
  rewrite Hb. cbv zeta. rewrite !setRateLimits_store.
  cbn [store set_store w3].
  set (w1 := setRateLimits Number w3 (default VUndef (Store.get h4 (VObj (S (length h1)))
                                                        "headers"))).
  assert (N1 : network w1 = rest) by (subst w1; rewrite setRateLimits_network; reflexivity).
  assert (S1 : store w1 = h4) by (subst w1; rewrite setRateLimits_store; reflexivity).
  rewrite andb_false_r.
  set (target := default VUndef (Store.get h4 (VObj q) "data")).
  assert (Ht : forall x, (length (store w) <= x)%nat -> target <> VObj x).
  { intros x Hx E. subst target. unfold Store.get, heap in *. rewrite HQ4 in E.
    cbn [from_option] in E. unfold id in E.
    destruct (Js.lookup "data" (props oQ)) as [dv|]; [|discriminate].
    cbn [from_option] in E. subst dv. specialize (Hdata x eq_refl). lia. }
  set (h5 := Store.extend_props (Store.extend h4 target data) target [("data", data)]).
  assert (H5 : forall x, (length (store w) <= x)%nat -> h5 !! x = h4 !! x)
    by (intros x Hx; apply request_data_other, Ht, Hx).
  assert (L5 : length h5 = length h4)
    by (subst h5; unfold Store.extend; rewrite !extend_props_length; reflexivity).
  assert (Hgoal : forall W, store W = h4 \/ store W = h5 -> network W = rest ->
            store W !! S (length h1)
            = Some (mkObject ["IncomingMessage"] false
                      [("statusCode", VNum (Num statusCode));
                       ("headers", VObj (length h1)); ("body", data)])
            /\ store W !! length h1 = Some hdo
            /\ length (store W) = S (S (length h1))
            /\ network W = rest).
  { intros W [-> | ->] HN; rewrite ?H5, ?L5 by lia; auto. }
  destruct (negb (manual m)); cbn [fst snd resolve hd]; (split; [reflexivity|]);
    apply Hgoal.
  - right. destruct (callable cb); [|reflexivity].
    destruct (invoke_frame cb (VObj (S (length h1))) (VObj (S (length h1)))
                (set_store h5 w1)) as (-> & _). reflexivity.
  - destruct (callable cb); [|exact N1].
    destruct (invoke_frame cb (VObj (S (length h1))) (VObj (S (length h1)))
                (set_store h5 w1)) as (_ & _ & _ & ->). exact N1.
  - left. destruct (callable cb); [|exact S1].
    destruct (invoke_frame cb (VObj (S (length h1))) (VObj (S (length h1))) w1)
      as (-> & _). exact S1.
  - destruct (callable cb); [|exact N1].
    destruct (invoke_frame cb (VObj (S (length h1))) (VObj (S (length h1))) w1)
      as (_ & _ & _ & ->). exact N1.
Qed.

End FullResponse.

(** X22, witness: a user list asked for in full-response mode, with a
    model class that is then not used. *)
Lemma requestApi_full_response_witness :
  let w := mkWorld [plain [("resolveWithFullResponse", VBool true);
                           ("dataClass", VFun "User")]]
                   0%nat VUndef None 1000
                   [Response 1100 200 [("x-ratelimit", "1, 2, 3, 4")]
                      (JObj [("Id", JStr "u1")])] [] in
  let r := _requestApi NumberLiteral.Number Sdk.ObjectToString "sdk-unit-tests" "secret"
             Sdk.apiMethods Sdk.construct (Sdk.method 0) (VObj 0%nat) "Users_All"
             (CbUser VUndef) w in
  fst r = Resolved (VObj 3%nat)
  /\ store (snd r) !! 3%nat
     = Some (mkObject ["IncomingMessage"] false
               [("statusCode", VNum (Num 200)); ("headers", VObj 2%nat);
                ("body", VObj 1%nat)])
  /\ length (store (snd r)) = 4%nat.
Proof.
  intros w r.
  assert (Hs : 200 <= 200 <= 299) by lia.
  assert (Hm : dispatchable Sdk.apiMethods (store w) (VObj 0%nat) "Users_All")
    by (split; [discriminate|split; [intros [=]|reflexivity]]).
  assert (Hd : forall d, Js.lookup "data" (props (plain [("resolveWithFullResponse", VBool true);
                                                          ("dataClass", VFun "User")]))
                         = Some (VObj d) -> (d < length (store w))%nat)
    by (intros d [=]).
  destruct (requestApi_full_response NumberLiteral.Number Sdk.ObjectToString
              "sdk-unit-tests" "secret" Sdk.apiMethods Sdk.construct (Sdk.method 0)
              0%nat (plain [("resolveWithFullResponse", VBool true);
                            ("dataClass", VFun "User")])
              "Users_All" (CbUser VUndef) w 1100 200 [("x-ratelimit", "1, 2, 3, 4")]
              (JObj [("Id", JStr "u1")]) [] eq_refl eq_refl Hd Hm eq_refl Hs)
    as (H1 & H2 & _ & H4 & _).
  split; [exact H1|]. split; [exact H2|exact H4].
Defined.

(** ** From [method] to a request in flight *)

Section Dispatch.

Variable Number : string -> jsnum.
Variable ObjectToString : heap -> loc -> string.
Variable clientId : string.
Variable clientApiKey : string.
Variable debugMode : bool.
Variable apiMethods : list string.
Variable getReadOnlyProperties : object -> list string.
Variable toJSON : object -> option (list (string * value)).
Variable construct : string -> heap -> value -> object.

Local Abbreviation method' :=
  (method Number ObjectToString clientId clientApiKey debugMode apiMethods
          getReadOnlyProperties toJSON construct).
Local Abbreviation requestApi' :=
  (_requestApi Number ObjectToString clientId clientApiKey apiMethods construct).
Local Abbreviation needs' := (needsAuthorization Number ObjectToString).
Local Abbreviation logged' := (logged debugMode).
Local Abbreviation in_flight' := (in_flight toJSON).

Lemma needs_logged m options w : needs' (logged' m options w) = needs' w.
Proof. unfold logged. destruct debugMode; reflexivity. Qed.

(** X23: an ordinary call is in flight.  On a client that holds a token
    which is not about to expire, whose default options are a well-keyed
    table with a headers table carrying a Content-Type, with a path table
    of its own and no data, a call with options that bring no headers and
    no path of their own, and data (if any) that needs no serialization,
    goes to [_requestApi] without a token request, with fresh request
    options that are in flight on the default headers table; nothing is
    read from the network on the way. *)
Theorem ready_call_in_flight (fuel : nat) (m : string) (cb : callback) (w : world)
    (ol hl : loc) (oR oh oo : object)
    (HR : store w !! self_requestOptions w = Some oR)
    (KR : well_keyed oR)
    (Hh : Js.lookup "headers" (props oR) = Some (VObj hl))
    (Hl : store w !! hl = Some oh)
    (Hct : default VUndef (Js.lookup "Content-Type" (props oh)) <> VUndef)
    (Hne : hl <> self_requestOptions w)
    (HpR : forall p, Js.lookup "path" (props oR) = Some (VObj p) ->
             p <> self_requestOptions w /\ p <> hl /\ is_Some (store w !! p))
    (HdR : Js.lookup "data" (props oR) = None)
    (HO : store w !! ol = Some oo)
    (Ko : well_keyed oo)
    (Hoh : Js.lookup "headers" (props oo) = None)
    (Hop : Js.lookup "path" (props oo) = None)
    (Hod : forall d, Js.lookup "data" (props oo) = Some (VObj d) ->
             d <> hl /\ Js.lookup "path" (props oR) <> Some (VObj d)
             /\ exists od, store w !! d = Some od
                           /\ existsb (String.eqb "EntityBase") (chain od) = false
                           /\ toJSON od = None)
    (Hready : needs' w = Some false) :
  exists q w',
    method' (S fuel) m cb (VObj ol) w = requestApi' (method' fuel) (VObj q) m cb w'
    /\ in_flight' w' q hl hl
    /\ network w' = network w
    /\ trace w' = trace w ++ debug_line debugMode m (VObj ol)
    /\ (forall k, read (store w') (VObj q) k
                  = match Js.lookup k (props oo) with
                    | Some v => v
                    | None => default VUndef (Js.lookup k (props oR))
                    end).
Proof.
  set (wl := logged' m (VObj ol) w).
  destruct (logged_fields debugMode m (VObj ol) w) as (Ls & Lr & _ & _ & _ & Lnet & Ltr).
  fold wl in Ls, Lr, Lnet, Ltr.
  pose proof (getOptions_given cb (VObj ol) w eq_refl) as G.
  assert (S1 : serializeData getReadOnlyProperties toJSON (VObj ol) wl = (None, wl)).
  { apply (serializeData_settled getReadOnlyProperties toJSON ol oo wl);
      [rewrite Ls; exact HO|].
    intros d Hd. destruct (Hod d Hd) as (_ & _ & od & Hd1 & Hd2 & Hd3).
    exists od. rewrite Ls. auto. }
  assert (N1 : needs' wl = Some false) by (subst wl; rewrite needs_logged; exact Hready).
  pose proof (method_dispatches Number ObjectToString clientId clientApiKey debugMode
                apiMethods getReadOnlyProperties toJSON construct
                fuel m cb (VObj ol) w (VObj ol) w G S1 N1) as E.
  fold wl in E.
  (* the merge *)
  assert (M : exists h,
             mergeRequestOptions (VObj ol) wl = (length (store w), set_store h wl)
             /\ h !! length (store w)
                = Some (plain (Store.assign_all (props oo)
                                 (Store.assign_all (props oR) [])))
             /\ forall x o, store w !! x = Some o -> h !! x = Some o).
  { unfold mergeRequestOptions. rewrite Ls, Lr.
    destruct (extend_fresh_spec (store w) (VObj (self_requestOptions w)) (VObj ol))
      as (Hf & Hq & _ & Hkept);
      [eapply lookup_lt_Some, HR|eapply lookup_lt_Some, HO|].
    destruct (Store.extend_fresh (store w) (VObj (self_requestOptions w)) (VObj ol))
      as [q h1].
    cbn [fst snd] in Hf, Hq, Hkept. subst q.
    assert (E1 : read h1 (VObj ol) "headers" = VUndef)
      by (rewrite (read_object _ _ _ _ (Hkept _ _ HO)), Hoh; reflexivity).
    assert (E2 : read h1 (VObj ol) "path" = VUndef)
      by (rewrite (read_object _ _ _ _ (Hkept _ _ HO)), Hop; reflexivity).
    rewrite E1. cbn [Js.truthy andb]. rewrite E2. cbn [Js.truthy andb].
    exists h1. split; [reflexivity|]. split; [|exact Hkept].
    unfold Store.entries, heap in *. rewrite HO, HR in Hq. exact Hq. }
  destruct M as (h & M & Hq & Hkept).
  rewrite M in E. cbn [fst snd] in E.
  set (ps := Store.assign_all (props oo) (Store.assign_all (props oR) [])) in *.
  assert (Hlk : forall k, Js.lookup k ps
                          = match Js.lookup k (props oo) with
                            | Some v => Some v
                            | None => Js.lookup k (props oR)
                            end).
  { intros k. subst ps. rewrite (lookup_extend _ _ _ Ko), (lookup_extend _ _ _ KR).
    destruct (Js.lookup k (props oo)); [reflexivity|].
    destruct (Js.lookup k (props oR)); reflexivity. }
  exists (length (store w)), (set_store h wl).
  split; [exact E|]. split; [|split; [exact Lnet|split; [exact Ltr|]]].
  - exists oR, (plain ps), oh, oh. cbn [store set_store self_requestOptions]. rewrite Lr.
    split; [apply Hkept, HR|]. split; [apply Hkept, Hl|]. split; [exact Hq|].
    split; [apply Hkept, Hl|]. split; [exact KR|].
    split; [apply assign_all_NoDup, assign_all_NoDup; constructor|].
    split.
    { intros k Hk. cbn [props plain]. subst ps. apply keys_assign_all. right.
      apply keys_assign_all. left. exact Hk. }
    split; [exact Hh|]. split; [cbn [props plain]; rewrite Hlk, Hoh; exact Hh|].
    split; [exact Hct|]. split; [exact Hne|].
    split; [apply lookup_lt_Some in Hl; lia|].
    cbn [props plain]. split.
    + intros p Hp. rewrite Hlk, Hop in Hp. destruct (HpR p Hp) as (P1 & P2 & [op Hop']).
      split; [exact P1|]. split; [exact P2|]. split; [exact P2|].
      exists op. apply Hkept, Hop'.
    + intros d Hd. rewrite Hlk in Hd.
      destruct (Js.lookup "data" (props oo)) as [dv|] eqn:Hdv; [|congruence].
      injection Hd as ->. destruct (Hod d eq_refl) as (D1 & D2 & od & D3 & D4 & D5).
      split; [exact D1|]. split; [rewrite Hlk, Hop; exact D2|].
      exists od. split; [apply Hkept, D3|]. split; [exact D4|exact D5].
  - intros k. cbn [store set_store]. rewrite (read_object _ _ _ _ Hq). cbn [props plain].
    rewrite Hlk. destruct (Js.lookup k (props oo)); reflexivity.
Qed.

End Dispatch.

(** X23, witness: a client that has just authorized is asked for the
    users, to be wrapped in [User]. *)
Lemma ready_call_in_flight_witness :
  let w0 := snd (Sdk.authorize VUndef (Sdk.Api 1000 [Sdk.token 1100])) in
  let w := snd (Sdk.with_object (plain [("dataClass", VFun "User")]) w0) in
  exists q w',
    Sdk.method 1 "Users_All" (CbUser VUndef) (VObj 9%nat) w
    = _requestApi NumberLiteral.Number Sdk.ObjectToString "sdk-unit-tests" "secret"
        Sdk.apiMethods Sdk.construct (Sdk.method 0) (VObj q) "Users_All" (CbUser VUndef) w'
    /\ in_flight Sdk.toJSON w' q 5%nat 5%nat
    /\ read (store w') (VObj q) "dataClass" = VFun "User"
    /\ trace w' = trace w.
Proof.
  intros w0 w.
  destruct (ready_call_in_flight NumberLiteral.Number Sdk.ObjectToString "sdk-unit-tests"
              "secret" false Sdk.apiMethods Sdk.getReadOnlyProperties Sdk.toJSON
              Sdk.construct 0 "Users_All" (CbUser VUndef) w 9%nat 5%nat
              (plain [("headers", VObj 5%nat); ("requestConfig", VObj 2%nat);
                      ("responseConfig", VObj 3%nat); ("path", VObj 4%nat)])
              (plain [("Content-Type", VStr "application/json");
                      ("User-Agent", VStr "MangoPay V2 SDK Nodejs 1.0.0");
                      ("Authorization", VStr "bearer abc")])
              (plain [("dataClass", VFun "User")]) eq_refl)
    as (q & w' & E & F & _ & T & R).
  - unfold well_keyed. simpl. repeat constructor; rewrite ?list_elem_of_In; simpl;
      intuition discriminate.
  - reflexivity.
  - reflexivity.
  - discriminate.
  - discriminate.
  - intros p [= <-]. split; [discriminate|]. split; [discriminate|]. eexists. reflexivity.
  - reflexivity.
  - reflexivity.
  - unfold well_keyed. simpl. repeat constructor; rewrite ?list_elem_of_In; simpl;
      intuition discriminate.
  - reflexivity.
  - reflexivity.
  - intros d [=].
  - reflexivity.
  - exists q, w'. split; [exact E|]. split; [exact F|].
    split; [rewrite R; reflexivity|]. rewrite T. apply app_nil_r.
Defined.
